(** * fmriflows: anatomical preprocessing notebook

    A shallow embedding of [notebooks/01_preproc_anat.ipynb]: the node table
    and the connect list of the [preproc_anat] workflow, the three functions
    the notebook wraps in [Function] nodes ([create_file_path],
    [get_brain_and_mask], [write_report] with its helper [get_cut_ids]) and
    the session/subject iterator.

    Calls into the toolkits the notebook imports (nipype interfaces, scipy
    morphology, resampling, the plotting routines, the affine coordinate
    transform) and the arithmetic of floating-point numbers are kept
    opaque: they are operations of type classes and the theorems hold for
    every instance.  The definitions come first, the properties follow, and
    a reference instance of the classes runs the functions on small
    images. *)

From Stdlib Require Import ZArith Lia Ascii String.
From stdpp Require Import base option list strings pretty sorting gmap.

Local Open Scope string_scope.
Local Open Scope list_scope.

(** ** Python exceptions and results *)

Inductive exn : Type :=
| ValueError
| TypeError
| IndexError
| UnboundLocalError
| FileNotFoundError.

Inductive res (A : Type) : Type :=
| Ok (a : A)
| Raise (e : exn).
Arguments Ok {A} a.
Arguments Raise {A} e.

Definition res_bind {A B} (r : res A) (k : A -> res B) : res B :=
  match r with
  | Ok a => k a
  | Raise e => Raise e
  end.

#[global] Instance res_ret : MRet res := @Ok.
#[global] Instance res_mbind : MBind res := fun A B k m => res_bind m k.

(** ** Python strings *)

Module Py.

(** [s.startswith(p)] *)
Definition startswith (s p : string) : bool := String.prefix p s.

(** [s.endswith(p)] for a one-character [p] *)
Fixpoint endswith_char (s : string) (c : ascii) : bool :=
  match s with
  | EmptyString => false
  | String a EmptyString => if Ascii.eqb a c then true else false
  | String _ s' => endswith_char s' c
  end.

(** The scan of [str.replace] for a non-empty [old]: left to right,
    occurrences do not overlap.  [skip] counts the characters of a
    matched occurrence that are still to be passed over. *)
Fixpoint replace_scan (old new : string) (skip : nat) (s : string) : string :=
  match s with
  | EmptyString => EmptyString
  | String c s' =>
      match skip with
      | S k => replace_scan old new k s'
      | O =>
          if String.prefix old s
          then new +:+ replace_scan old new (String.length old - 1) s'
          else String c (replace_scan old new 0 s')
      end
  end.

(** With an empty [old], Python puts [new] before every character and at
    the end. *)
Fixpoint replace_empty (new s : string) : string :=
  match s with
  | EmptyString => new
  | String c s' => new +:+ String c (replace_empty new s')
  end.

(** [s.replace(old, new)] *)
Definition replace (s old new : string) : string :=
  match old with
  | EmptyString => replace_empty new s
  | String _ _ => replace_scan old new 0 s
  end.

(** [old in s] *)
Fixpoint contains (old s : string) : bool :=
  String.prefix old s ||
  match s with
  | EmptyString => false
  | String _ s' => contains old s'
  end.


(** [os.path.join(a, b)] of [posixpath] *)
Definition path_join2 (a b : string) : string :=
  if startswith b "/" then b
  else if String.eqb a "" || endswith_char a "/" then a +:+ b
  else a +:+ "/" +:+ b.

(** [os.path.join(a, *p)] *)
Definition path_join (a : string) (p : list string) : string :=
  fold_left path_join2 p a.

(** [sep.join(l)] *)
Fixpoint str_join (sep : string) (l : list string) : string :=
  match l with
  | [] => ""
  | [x] => x
  | x :: l' => x +:+ sep +:+ str_join sep l'
  end.

(** Truth value of a string in a condition: [if s:] *)
Definition truthy (s : string) : bool := negb (String.eqb s "").

End Py.

(** ** Path patterns of the layout

    [layout.build_path(entities, path_patterns=[pattern])] belongs to the
    BIDS layout package.  Its pattern language is embedded here: [{name}]
    stands for the value of an entity, a part in square brackets is optional
    and is kept only when every entity named in it is defined, and a
    pattern with an undefined entity outside the brackets does not match.
    The pattern is read once into segments; values are inserted
    afterwards. *)

Module Bids.

(** The layout of a dataset: [BIDSLayout(root)].  [sessions] are the
    session names found in the dataset. *)
Record BIDSLayout : Type := {
  root : string;
  sessions : list string
}.

(** [layout.get_sessions()] *)
Definition get_sessions (layout : BIDSLayout) : list string := sessions layout.

Inductive token : Type :=
| TChar (c : ascii)
| TEnt (name : string)
| TOpen
| TClose.

(** [cur] holds the entity name read so far (reversed) while inside
    braces. *)
Fixpoint tokenize (cur : option string) (s : string) : option (list token) :=
  match s with
  | EmptyString => match cur with None => Some [] | Some _ => None end
  | String c s' =>
      match cur with
      | Some name =>
          if Ascii.eqb c "}"
          then cons (TEnt (String.rev name)) <$> tokenize None s'
          else tokenize (Some (String c name)) s'
      | None =>
          if Ascii.eqb c "{" then tokenize (Some "") s'
          else if Ascii.eqb c "[" then cons TOpen <$> tokenize None s'
          else if Ascii.eqb c "]" then cons TClose <$> tokenize None s'
          else cons (TChar c) <$> tokenize None s'
      end
  end.

Inductive seg : Type :=
| Lit (c : ascii)
| Ent (name : string).

Inductive chunk : Type :=
| Required (s : seg)
| Optional (l : list seg).

(** [opt] holds the segments of the optional part being read (reversed). *)
Fixpoint group (opt : option (list seg)) (ts : list token) : option (list chunk) :=
  match ts with
  | [] => match opt with None => Some [] | Some _ => None end
  | t :: ts' =>
      match opt, t with
      | None, TChar c => cons (Required (Lit c)) <$> group None ts'
      | None, TEnt n => cons (Required (Ent n)) <$> group None ts'
      | None, TOpen => group (Some []) ts'
      | None, TClose => None
      | Some l, TChar c => group (Some (Lit c :: l)) ts'
      | Some l, TEnt n => group (Some (Ent n :: l)) ts'
      | Some l, TOpen => None
      | Some l, TClose => cons (Optional (rev l)) <$> group None ts'
      end
  end.

Definition parse_pattern (p : string) : option (list chunk) :=
  tokenize None p ≫= group None.

Definition render_seg (entities : gmap string string) (s : seg) : option string :=
  match s with
  | Lit c => Some (String c "")
  | Ent n => entities !! n
  end.

Fixpoint render_segs (entities : gmap string string) (l : list seg) : option string :=
  match l with
  | [] => Some ""
  | s :: l' =>
      match render_seg entities s, render_segs entities l' with
      | Some a, Some b => Some (a +:+ b)
      | _, _ => None
      end
  end.

Definition render_chunk (entities : gmap string string) (c : chunk) : option string :=
  match c with
  | Required s => render_seg entities s
  | Optional l => Some (default "" (render_segs entities l))
  end.

Fixpoint render (entities : gmap string string) (cs : list chunk) : option string :=
  match cs with
  | [] => Some ""
  | c :: cs' =>
      match render_chunk entities c, render entities cs' with
      | Some a, Some b => Some (a +:+ b)
      | _, _ => None
      end
  end.

(** The first pattern that matches gives the path; [None] when none
    does. *)
Fixpoint build_path (layout : BIDSLayout) (entities : gmap string string)
    (path_patterns : list string) : option string :=
  match path_patterns with
  | [] => None
  | p :: ps =>
      match parse_pattern p ≫= render entities with
      | Some path => Some path
      | None => build_path layout entities ps
      end
  end.

End Bids.

(** ** [create_file_path] *)

Definition file_pattern : string :=
  "sub-{subject_id}[/ses-{session_id}]/anat/" +:+
  "sub-{subject_id}[_ses-{session_id}]_{T1_id}.nii.gz".

Definition create_file_path (subject_id session_id : string)
    (layout : Bids.BIDSLayout) (T1_id : string) : res string :=
  let entities : gmap string string :=
    <["T1_id" := T1_id]> (<["subject_id" := subject_id]> ∅) in
  let entities :=
    if negb (String.eqb session_id "")
    then <["session_id" := session_id]> entities
    else entities in
  match Bids.build_path layout entities [file_pattern] with
  | Some fpath => Ok (Py.path_join "/data" [fpath])
  | None => Raise TypeError
  end.

(** ** The workflow: nodes and connections *)

(** The execution specifications read from [analysis-anat_specs.json].
    [vox_res] holds [str(n)] of each number of the resolution. *)
Record specs : Type := {
  subject_list : list string;
  T1_id : string;
  vox_res : list string;
  n_parallel_jobs : Z
}.

Definition exp_dir : string := "/data/derivatives".
Definition out_dir : string := "fmriflows".
Definition work_dir : string := "/workingdir".
Definition template_dir : string := "/templates/mni_icbm152_nlin_asym_09c/".

Definition brain_template : string :=
  Py.path_join template_dir ["1.0mm_brain.nii.gz"].

(** The template resampled to the requested resolution is written to this
    file. *)
Definition norm_template (norm_res : list string) : string :=
  Py.path_join template_dir
    ["template_brain_" +:+ Py.str_join "_" norm_res +:+ ".nii.gz"].

Module Workflow.

(** The Python variables bound to [Node] objects. *)
Inductive node : Type :=
| infosource
| selectfiles
| reorient
| cropFOV
| n4
| gunzip
| segment
| extract_brain
| antsreg
| create_report
| datasink.

#[global] Instance node_eq_dec : EqDecision node.
Proof. solve_decision. Defined.

Definition all_nodes : list node :=
  [infosource; selectfiles; reorient; cropFOV; n4; gunzip; segment;
   extract_brain; antsreg; create_report; datasink].

(** The functions of the notebook wrapped by [Function] interfaces. *)
Inductive notebook_function : Type :=
| fn_create_file_path
| fn_get_brain_and_mask
| fn_write_report.

(** What a [Node] wraps.  The interfaces of the toolkits carry the
    arguments the notebook passes that are strings or integers; the
    floating-point tuning of [Registration] is handed to the tool as it
    is. *)
Inductive interface : Type :=
| IdentityInterface (fields : list string)
| Function (input_names output_names : list string) (function : notebook_function)
| Reorient (orientation : string)
| RobustFOV (output_type : string)
| N4BiasFieldCorrection (dimension : Z)
| Gunzip
| NewSegment
| Registration (fixed_image : string) (num_threads : Z) (dimension : Z)
    (interpolation : string) (transforms metric : list string)
    (number_of_iterations shrink_factors : list (list Z))
| DataSink (base_directory container : string).

Definition node_interface (sp : specs) (n : node) : interface :=
  match n with
  | infosource => IdentityInterface ["subject_id"; "session_id"]
  | selectfiles =>
      Function ["subject_id"; "session_id"; "layout"; "T1_id"] ["anat"]
        fn_create_file_path
  | reorient => Reorient "RAS"
  | cropFOV => RobustFOV "NIFTI_GZ"
  | n4 => N4BiasFieldCorrection 3
  | gunzip => Gunzip
  | segment => NewSegment
  | extract_brain =>
      Function ["in_file"; "segments"] ["out_file"; "mask"] fn_get_brain_and_mask
  | antsreg =>
      Registration (norm_template (vox_res sp)) (n_parallel_jobs sp) 3 "Linear"
        ["Rigid"; "Affine"; "SyN"] ["Mattes"; "Mattes"; "CC"]
        [[1000; 500; 250; 100]; [1000; 500; 250; 100]; [100; 70; 50; 20]]%Z
        [[8; 4; 2; 1]; [8; 4; 2; 1]; [8; 4; 2; 1]]%Z
  | create_report =>
      Function ["sub"; "sess"; "n4"; "segments"; "brain"; "T1_template"; "warped_file"]
        ["out_segmentation"; "out_brain"; "out_warp"] fn_write_report
  | datasink => DataSink exp_dir out_dir
  end.

(** The [name=] argument of each [Node]. *)
Definition node_name (n : node) : string :=
  match n with
  | infosource => "infosource"
  | selectfiles => "selectfiles"
  | reorient => "reorient"
  | cropFOV => "cropFOV"
  | n4 => "n4"
  | gunzip => "gunzip"
  | segment => "segment"
  | extract_brain => "extract_brain"
  | antsreg => "antsreg"
  | create_report => "create_report"
  | datasink => "datasink"
  end.

(** One entry of the list given to [connect]:
    [(source, destination, [(output field, input field); ...])]. *)
Definition connection : Type := node * node * list (string * string).

Definition connections : list connection :=
  [ (infosource, selectfiles, [("subject_id", "subject_id");
                               ("session_id", "session_id")]);
    (selectfiles, reorient, [("anat", "in_file")]);
    (reorient, cropFOV, [("out_file", "in_file")]);
    (cropFOV, n4, [("out_roi", "input_image")]);
    (n4, gunzip, [("output_image", "in_file")]);
    (gunzip, segment, [("out_file", "channel_files")]);
    (segment, extract_brain, [("native_class_images", "segments")]);
    (n4, extract_brain, [("output_image", "in_file")]);
    (extract_brain, antsreg, [("out_file", "moving_image")]);
    (n4, datasink, [("output_image", "preproc_anat.@n4")]);
    (segment, datasink, [("native_class_images", "preproc_anat.@segment")]);
    (extract_brain, datasink, [("out_file", "preproc_anat.@brain");
                               ("mask", "preproc_anat.@mask")]);
    (antsreg, datasink,
      [("warped_image", "preproc_anat.@warped_image");
       ("inverse_warped_image", "preproc_anat.@inverse_warped_image");
       ("composite_transform", "preproc_anat.@transform");
       ("inverse_composite_transform", "preproc_anat.@inverse_transform")]);
    (infosource, create_report, [("subject_id", "sub");
                                 ("session_id", "sess")]);
    (n4, create_report, [("output_image", "n4")]);
    (segment, create_report, [("native_class_images", "segments")]);
    (extract_brain, create_report, [("out_file", "brain")]);
    (antsreg, create_report, [("warped_image", "warped_file")]);
    (create_report, datasink,
      [("out_segmentation", "preproc_anat.@vis_segmentation");
       ("out_brain", "preproc_anat.@vis_brain");
       ("out_warp", "preproc_anat.@vis_warp")]) ].

(** Inputs set on a node outside [connect]:
    [selectfiles.inputs.layout], [selectfiles.inputs.T1_id],
    [create_report.inputs.T1_template], [datasink.inputs.substitutions]
    and the constructor arguments of the interfaces. *)
Definition static_inputs (n : node) : list string :=
  match n with
  | selectfiles => ["layout"; "T1_id"]
  | create_report => ["T1_template"]
  | antsreg => ["fixed_image"]
  | datasink => ["substitutions"]
  | _ => []
  end.

Definition report_T1_template : string := Py.replace brain_template "brain" "T1".

(** The field names an interface declares in the notebook itself: those
    of [IdentityInterface] and [Function].  The traits of the toolkit
    interfaces are declared in the toolkit ([None]). *)
Definition declared_outputs (i : interface) : option (list string) :=
  match i with
  | IdentityInterface fields => Some fields
  | Function _ output_names _ => Some output_names
  | _ => None
  end.

Definition declared_inputs (i : interface) : option (list string) :=
  match i with
  | IdentityInterface fields => Some fields
  | Function input_names _ _ => Some input_names
  | _ => None
  end.

Definition mem_string (s : string) (l : list string) : bool :=
  existsb (String.eqb s) l.

Definition field_ok (decl : option (list string)) (f : string) : bool :=
  match decl with
  | Some l => mem_string f l
  | None => true
  end.

(** A connection leaves an output of its source and enters an input of
    its destination, which is another node. *)
Definition connection_ok (sp : specs) (c : connection) : bool :=
  let '(src, dst, fields) := c in
  bool_decide (src ∈ all_nodes) && bool_decide (dst ∈ all_nodes) &&
  negb (bool_decide (src = dst)) &&
  forallb (fun '(o, i) =>
             field_ok (declared_outputs (node_interface sp src)) o &&
             field_ok (declared_inputs (node_interface sp dst)) i) fields.

(** The dependency relation of the connect list. *)
Definition edges : list (node * node) :=
  map (fun c : connection => (c.1.1, c.1.2)) connections.

Definition edge (u v : node) : Prop := (u, v) ∈ edges.

(** A sequence of one or more edges. *)
Inductive path : node -> node -> Prop :=
| path_edge u v : edge u v -> path u v
| path_step u v w : edge u v -> path v w -> path u w.

(** The position of a node in the order of the notebook's diagram. *)
Definition rank (n : node) : nat :=
  match n with
  | infosource => 0
  | selectfiles => 1
  | reorient => 2
  | cropFOV => 3
  | n4 => 4
  | gunzip => 5
  | segment => 6
  | extract_brain => 7
  | antsreg => 8
  | create_report => 9
  | datasink => 10
  end.

(** The processing steps the notebook lists in its first cell, in its
    order. *)
Definition processing_steps : list node :=
  [reorient; cropFOV; n4; segment; extract_brain; antsreg].

(** The nodes between the selected file and the registered brain. *)
Definition image_path_nodes : list node :=
  [reorient; cropFOV; n4; gunzip; segment; extract_brain; antsreg].

(** The connections that lead through the processing steps. *)
Definition step_connections : list connection :=
  [ (selectfiles, reorient, [("anat", "in_file")]);
    (reorient, cropFOV, [("out_file", "in_file")]);
    (cropFOV, n4, [("out_roi", "input_image")]);
    (n4, gunzip, [("output_image", "in_file")]);
    (gunzip, segment, [("out_file", "channel_files")]);
    (segment, extract_brain, [("native_class_images", "segments")]);
    (n4, extract_brain, [("output_image", "in_file")]);
    (extract_brain, antsreg, [("out_file", "moving_image")]) ].

(** The function of the notebook a node wraps, if it wraps one. *)
Definition wrapped_function (i : interface) : option notebook_function :=
  match i with
  | Function _ _ f => Some f
  | _ => None
  end.

End Workflow.

(** ** The input iterator *)

(** [session_list = layout.get_sessions()] and
    [session_list = session_list if session_list else ['']] *)
Definition session_list (layout : Bids.BIDSLayout) : list string :=
  let session_list := Bids.get_sessions layout in
  match session_list with
  | [] => [""]
  | _ :: _ => session_list
  end.

(** [infosource.iterables] *)
Definition iterables (sp : specs) (layout : Bids.BIDSLayout)
  : list (string * list string) :=
  [("subject_id", subject_list sp); ("session_id", session_list layout)].

(** The combinations of values the iterables expand to: one per element of
    the product of the value lists. *)
Fixpoint expand_iterables (its : list (string * list string))
  : list (list (string * string)) :=
  match its with
  | [] => [[]]
  | (field, vals) :: rest =>
      flat_map (fun v => map (cons (field, v)) (expand_iterables rest)) vals
  end.

(** The value a combination gives to a field. *)
Fixpoint field_value (comb : list (string * string)) (field : string) : option string :=
  match comb with
  | [] => None
  | (f, v) :: rest => if String.eqb f field then Some v else field_value rest field
  end.

Definition combinations (sp : specs) (layout : Bids.BIDSLayout)
  : list (list (string * string)) :=
  expand_iterables (iterables sp layout).

(** ** Execution *)

Section Graph.
Context {N : Type} `{EqDecision N}.

(** A node is ready when the sources of all its incoming edges have
    run. *)
Definition ready (edges : list (N * N)) (done : list N) (n : N) : bool :=
  forallb (fun e : N * N =>
             if decide (e.2 = n) then bool_decide (e.1 ∈ done) else true) edges.

Definition remove_node (n : N) (l : list N) : list N :=
  filter (fun m => m ≠ n) l.

(** Repeatedly take the first ready node; [None] when nodes remain and
    none is ready. *)
Fixpoint sort_from (fuel : nat) (edges : list (N * N)) (todo done : list N)
  : option (list N) :=
  match todo with
  | [] => Some (rev done)
  | _ :: _ =>
      match fuel with
      | O => None
      | S fuel' =>
          match find (ready edges done) todo with
          | Some n => sort_from fuel' edges (remove_node n todo) (n :: done)
          | None => None
          end
      end
  end.

Definition topological_sort (nodes : list N) (edges : list (N * N))
  : option (list N) :=
  sort_from (length nodes) edges nodes [].

Inductive event : Type :=
| Start (n : N)
| Finish (n : N).

(** The plugin ['Linear'] is code of [nipype], not of the repository.
    This is a model of what [nipype] documents for it: the nodes are
    taken in a topological order of the execution graph and each is run
    to its end before the next one starts. *)
Definition run_linear (order : list N) : list event :=
  flat_map (fun n => [Start n; Finish n]) order.

(** [u] has finished before [v] starts. *)
Definition finished_before (tr : list event) (u v : N) : Prop :=
  exists t1 t2 t3, tr = t1 ++ Finish u :: t2 ++ Start v :: t3.

(** [u] comes before [v] in [order]. *)
Definition before (order : list N) (u v : N) : Prop :=
  exists l1 l2 l3, order = l1 ++ u :: l2 ++ v :: l3.

End Graph.
Arguments event N : clear implicits.

(** The execution graph: the workflow is copied once per combination of
    the iterables. *)
Definition exec_node : Type := list (string * string) * Workflow.node.

Definition exec_nodes (sp : specs) (layout : Bids.BIDSLayout) : list exec_node :=
  flat_map (fun comb => map (fun n => (comb, n)) Workflow.all_nodes)
    (combinations sp layout).

Definition exec_edges (sp : specs) (layout : Bids.BIDSLayout)
  : list (exec_node * exec_node) :=
  flat_map (fun comb =>
              map (fun e : Workflow.node * Workflow.node => ((comb, e.1), (comb, e.2)))
                Workflow.edges)
    (combinations sp layout).

(** The plugin named in [preproc_anat.run('Linear')]. *)
Definition run_plugin : string := "Linear".

(** [preproc_anat.run(plugin)]: the trace of node executions, in the model
    of the plugin above.  No other plugin is modelled. *)
Definition run (plugin : string) (sp : specs) (layout : Bids.BIDSLayout)
  : option (list (event exec_node)) :=
  if String.eqb plugin "Linear"
  then run_linear <$> topological_sort (exec_nodes sp layout)
                        (exec_edges sp layout)
  else None.

(** ** Arrays *)

(** A three-dimensional [numpy] array: its shape and its elements in C
    order. *)
Record ndarray (T : Type) : Type := {
  shape : nat * nat * nat;
  values : list T
}.
Arguments shape {T} _.
Arguments values {T} _.

Definition same_shape {A B} (a : ndarray A) (b : ndarray B) : bool :=
  bool_decide (shape a = shape b) &&
  bool_decide (length (values a) = length (values b)).

Definition array_map {A B} (f : A -> B) (a : ndarray A) : ndarray B :=
  {| shape := shape a; values := map f (values a) |}.

Definition array_map2 {A B C} (f : A -> B -> C) (a : ndarray A) (b : ndarray B)
  : ndarray C :=
  {| shape := shape a; values := zip_with f (values a) (values b) |}.

Fixpoint zip_with3 {A B C D} (f : A -> B -> C -> D)
  (la : list A) (lb : list B) (lc : list C) : list D :=
  match la, lb, lc with
  | a :: la', b :: lb', c :: lc' => f a b c :: zip_with3 f la' lb' lc'
  | _, _, _ => []
  end.

Definition array_map3 {A B C D} (f : A -> B -> C -> D)
  (a : ndarray A) (b : ndarray B) (c : ndarray C) : ndarray D :=
  {| shape := shape a; values := zip_with3 f (values a) (values b) (values c) |}.

(** The index triple of the [i]-th element in C order. *)
Definition unravel_index (sh : nat * nat * nat) (i : nat) : Z * Z * Z :=
  let '(_, ny, nz) := sh in
  (Z.of_nat (i / (ny * nz)), Z.of_nat ((i / nz) mod ny), Z.of_nat (i mod nz)).

(** Two's-complement wrap-around of [int8] arithmetic. *)
Definition int8 (x : Z) : Z := ((x + 128) mod 256 - 128)%Z.

(** [a.astype('int8')] of a boolean array, and the truth value of an
    integer element. *)
Definition astype_int8 (a : ndarray bool) : ndarray Z := array_map Z.b2z a.
Definition astype_bool (a : ndarray Z) : ndarray bool :=
  array_map (fun x => negb (x =? 0)%Z) a.

(** ** The toolkits *)

(** Floating-point numbers and the operations of [numpy] on them that the
    notebook uses. *)
Class Scalars : Type := {
  scalar : Type;
  zero : scalar;
  add : scalar -> scalar -> scalar;
  (** product of a number and an [int8] element *)
  mul_int8 : scalar -> Z -> scalar;
  (** [x >= 0.25] and [x >= 1.0] *)
  ge_quarter : scalar -> bool;
  ge_one : scalar -> bool;
  (** [x != 0], as [nonzero()] tests it *)
  is_nonzero : scalar -> bool;
  (** [x < y], as [argmax] compares *)
  less : scalar -> scalar -> bool;
  of_int : Z -> scalar;
  (** [int(x)] *)
  to_int : scalar -> Z
}.

(** Products of a floating-point number with the two values of a mask, as
    IEEE 754 gives them: [x * 1] is [x]; [x * 0] is a zero when [x] is
    finite, and is NaN, which differs from zero, when [x] is NaN or
    infinite.  [is_finite] is [np.isfinite]. *)
Class FloatProducts `{Scalars} : Type := {
  is_finite : scalar -> bool;
  mul_int8_1 : forall x, mul_int8 x 1 = x;
  mul_int8_0_finite : forall x, is_finite x = true -> is_nonzero (mul_int8 x 0) = false;
  mul_int8_0_not_finite :
    forall x, is_finite x = false -> is_nonzero (mul_int8 x 0) = true
}.

(** Affines and headers of [nibabel] images. *)
Class Nifti `{Scalars} : Type := {
  affine_t : Type;
  header_t : Type;
  (** the field-of-view test of [math_img] on two affines *)
  affine_close : affine_t -> affine_t -> bool;
  (** the header [new_img_like] gives to an image made from a reference *)
  new_header : header_t -> header_t;
  (** [coord_transform(x, y, z, affine)] *)
  coord_transform : Z -> Z -> Z -> affine_t -> scalar * scalar * scalar;
  (** [vox2out_vox(img, voxel_sizes)]: the shape and the affine of the grid
      with the given voxel sizes, and [resample_img(img, affine, shape,
      clip=True)].  The voxel sizes come as the specification file writes
      them. *)
  vox2out_vox : ndarray scalar -> affine_t -> list string -> (nat * nat * nat) * affine_t;
  resample_img : ndarray scalar -> affine_t -> header_t -> affine_t -> nat * nat * nat ->
                 ndarray scalar * header_t
}.

(** [scipy.ndimage.morphology] with its default structuring element. *)
Class Morphology : Type := {
  binary_dilation : ndarray bool -> nat -> ndarray bool;
  binary_fill_holes : ndarray bool -> ndarray bool;
  binary_erosion : ndarray bool -> nat -> ndarray bool
}.

(** The morphological operations return an array of the shape of their
    input. *)
Class MorphologyShape `{Morphology} : Prop := {
  binary_dilation_shape : forall a n, same_shape (binary_dilation a n) a = true;
  binary_fill_holes_shape : forall a, same_shape (binary_fill_holes a) a = true;
  binary_erosion_shape : forall a n, same_shape (binary_erosion a n) a = true
}.

(** ** Images and files *)

Record Image `{Nifti} (T : Type) : Type := Nifti1Image {
  dataobj : ndarray T;
  affine : affine_t;
  header : header_t
}.
Arguments Nifti1Image {_ _ T} _ _ _.
Arguments dataobj {_ _ T} _.
Arguments affine {_ _ T} _.
Arguments header {_ _ T} _.

(** What a NIfTI file holds. *)
Inductive stored `{Nifti} : Type :=
| FloatImage (img : Image scalar)
| Int8Image (img : Image Z).

(** The files the functions read and write: images and text files by
    path. *)
Record fs `{Nifti} : Type := {
  images : gmap string stored;
  texts : gmap string string
}.

(** What is plotted in a panel, and a panel of a figure. *)
Inductive plotted `{Nifti} : Type :=
| roi_img (segmentation : Image Z)
| stat_map_img (path : string).

Record panel `{Nifti} : Type := {
  plot : plotted;
  bg_img : string;
  display_mode : string;
  title : string;
  cut_coords : list Z
}.

(** [fig.savefig]: the text of the SVG drawn from the panels. *)
Class Plotting `{Nifti} : Type := {
  render_figure : list panel -> string
}.

Section Functions.
Context `{SC : Scalars} `{NI : !Nifti} `{MO : Morphology} `{PL : !Plotting}.

(** *** A state and error monad over the files *)

Definition M (A : Type) : Type := fs -> res A * fs.

Definition ret {A} (a : A) : M A := fun s => (Ok a, s).
Definition raise {A} (e : exn) : M A := fun s => (Raise e, s).
Definition lift {A} (r : res A) : M A := fun s => (r, s).
Definition bind {A B} (m : M A) (k : A -> M B) : M B :=
  fun s =>
    match m s with
    | (Ok a, s') => k a s'
    | (Raise e, s') => (Raise e, s')
    end.

#[global] Instance M_ret : MRet M := @ret.
#[global] Instance M_bind : MBind M := fun A B k m => bind m k.

Fixpoint mapM_res {A B} (f : A -> res B) (l : list A) : res (list B) :=
  match l with
  | [] => Ok []
  | a :: l' => b ← f a; bs ← mapM_res f l'; Ok (b :: bs)
  end.

Fixpoint mapM_M {A B} (f : A -> M B) (l : list A) : M (list B) :=
  match l with
  | [] => ret []
  | a :: l' => b ← f a; bs ← mapM_M f l'; ret (b :: bs)
  end.

Definition image_map {A B} (f : A -> B) (img : Image A) : Image B :=
  Nifti1Image (array_map f (dataobj img)) (affine img) (header img).

(** [nb.load(path)] followed by [get_data()]: the data come as
    floating-point numbers. *)
Definition nb_load (path : string) : M (Image scalar) :=
  fun s =>
    match images s !! path with
    | Some (FloatImage img) => (Ok img, s)
    | Some (Int8Image img) => (Ok (image_map of_int img), s)
    | None => (Raise FileNotFoundError, s)
    end.

(** A path given where [nilearn] expects an image. *)
Definition check_niimg (path : string) : M (Image scalar) :=
  fun s =>
    match nb_load path s with
    | (Raise _, s') => (Raise ValueError, s')
    | r => r
    end.

(** [img.to_filename(path)] *)
Definition to_filename (img : stored) (path : string) : M unit :=
  fun s => (Ok tt, {| images := <[path := img]> (images s); texts := texts s |}).

Definition read_text (path : string) : M string :=
  fun s =>
    match texts s !! path with
    | Some txt => (Ok txt, s)
    | None => (Raise FileNotFoundError, s)
    end.

Definition write_text (path txt : string) : M unit :=
  fun s => (Ok tt, {| images := images s; texts := <[path := txt]> (texts s) |}).

(** *** The template at the resolution of the specification

    The template brain is resampled to the voxel sizes [norm_res] and
    written to [norm_template]. *)
Definition resample_template (norm_res : list string) : M unit :=
  img ← nb_load brain_template;
  let '(target_shape, target_affine) :=
    vox2out_vox (dataobj img) (affine img) norm_res in
  let '(data, hdr) :=
    resample_img (dataobj img) (affine img) (header img) target_affine target_shape in
  to_filename (FloatImage (Nifti1Image data target_affine hdr))
    (norm_template norm_res).

(** *** [math_img] *)

Definition same_fov {A B} (a : Image A) (b : Image B) : bool :=
  same_shape (dataobj a) (dataobj b) && affine_close (affine a) (affine b).

Definition new_img_like {A B} (ref : Image A) (data : ndarray B) : Image B :=
  Nifti1Image data (affine ref) (new_header (header ref)).

Definition math_img1 {A R} (f : A -> R) (img1 : Image A) : res (Image R) :=
  Ok (new_img_like img1 (array_map f (dataobj img1))).

Definition math_img2 {A B R} (f : A -> B -> R) (img1 : Image A) (img2 : Image B)
  : res (Image R) :=
  if same_fov img1 img2
  then Ok (new_img_like img1 (array_map2 f (dataobj img1) (dataobj img2)))
  else Raise ValueError.

Definition math_img3 {A B C R} (f : A -> B -> C -> R)
  (img1 : Image A) (img2 : Image B) (img3 : Image C) : res (Image R) :=
  if same_fov img1 img2 && same_fov img1 img3
  then Ok (new_img_like img1
             (array_map3 f (dataobj img1) (dataobj img2) (dataobj img3)))
  else Raise ValueError.

(** *** [get_brain_and_mask] *)

(** [s[0]] *)
Definition first_of {A} (s : list A) : res A :=
  match s with
  | x :: _ => Ok x
  | [] => Raise IndexError
  end.

(** ["(img1 + img2) >= 0.25"], stored as [int8] *)
Definition sum_ge_quarter (x y : scalar) : Z := Z.b2z (ge_quarter (add x y)).

(** ["img1 >= 1.0"], stored as [int8] *)
Definition val_ge_one (x : scalar) : Z := Z.b2z (ge_one x).

(** ["(img1 + img2 - img3) >= 1.0"] on [int8] elements, stored as
    [int8] *)
Definition combine_ge_one (a b c : Z) : Z :=
  Z.b2z (1 <=? int8 (int8 (a + b) - c))%Z.

(** The refinement of the mask: 2 x dilation, filling of holes,
    1 x erosion. *)
Definition refine_mask (data : ndarray Z) : ndarray Z :=
  astype_int8
    (binary_erosion
       (binary_fill_holes
          (binary_dilation (astype_bool data) 2))
       1).

Definition get_brain_and_mask (in_file : string) (segments : list (list string))
  : M (string * string) :=
  img ← nb_load in_file;
  firsts ← lift (mapM_res first_of segments);
  match firsts with
  | [gm; wm; csf; skull; head] =>
      gm_img ← check_niimg gm;
      wm_img ← check_niimg wm;
      img_gmwm ← lift (math_img2 sum_ge_quarter gm_img wm_img);
      csf_img ← check_niimg csf;
      img_csf ← lift (math_img1 val_ge_one csf_img);
      head_img ← check_niimg head;
      skull_img ← check_niimg skull;
      img_not_rest ← lift (math_img2 sum_ge_quarter head_img skull_img);
      img_mask ← lift (math_img3 combine_ge_one img_gmwm img_csf img_not_rest);
      let data_mask := refine_mask (dataobj img_mask) in
      let img_mask := Nifti1Image data_mask (affine img) (header img) in
      img_brain ← lift (math_img2 mul_int8 img img_mask);
      let out_file := Py.replace in_file ".nii" "_brain.nii" in
      let mask := Py.replace in_file ".nii" "_brainmask.nii" in
      to_filename (FloatImage img_brain) out_file;;
      to_filename (Int8Image img_mask) mask;;
      ret (out_file, mask)
  | _ => raise ValueError
  end.

(** *** The mask and the brain in the words of the specification *)

(** [((GM + WM >= 0.25) + (CSF >= 1.0) - (head + skull >= 0.25)) >= 1.0],
    the truth values counting as 1 and 0. *)
Definition spec_mask_voxel (gm wm csf skull head : scalar) : bool :=
  (1 <=? Z.b2z (ge_quarter (add gm wm)) + Z.b2z (ge_one csf)
         - Z.b2z (ge_quarter (add head skull)))%Z.

Fixpoint zip_with5 {A B C D E R} (f : A -> B -> C -> D -> E -> R)
  (la : list A) (lb : list B) (lc : list C) (ld : list D) (le : list E) : list R :=
  match la, lb, lc, ld, le with
  | a :: la', b :: lb', c :: lc', d :: ld', e :: le' =>
      f a b c d e :: zip_with5 f la' lb' lc' ld' le'
  | _, _, _, _, _ => []
  end.

Definition spec_predicate (gm wm csf skull head : ndarray scalar) : ndarray bool :=
  {| shape := shape gm;
     values := zip_with5 spec_mask_voxel (values gm) (values wm) (values csf)
                 (values skull) (values head) |}.

(** The predicate, dilated twice, its holes filled, eroded once. *)
Definition spec_mask (gm wm csf skull head : ndarray scalar) : ndarray Z :=
  astype_int8
    (binary_erosion
       (binary_fill_holes
          (binary_dilation (spec_predicate gm wm csf skull head) 2))
       1).

(** The voxelwise product of the image and the mask. *)
Definition spec_brain (t1 : ndarray scalar) (mask : ndarray Z) : ndarray scalar :=
  {| shape := shape t1; values := zip_with mul_int8 (values t1) (values mask) |}.

(** What [get_brain_and_mask] needs of its arguments and of the files: the
    image and the first file of each of five segment lists load, and the
    images have one field of view. *)
Record mask_inputs (s : fs) (in_file : string) (segments : list (list string))
    (img gm wm csf skull head : Image scalar) : Prop := {
  mi_segments :
    exists gm_p wm_p csf_p skull_p head_p r1 r2 r3 r4 r5,
      segments = [gm_p :: r1; wm_p :: r2; csf_p :: r3; skull_p :: r4; head_p :: r5] /\
      check_niimg gm_p s = (Ok gm, s) /\
      check_niimg wm_p s = (Ok wm, s) /\
      check_niimg csf_p s = (Ok csf, s) /\
      check_niimg skull_p s = (Ok skull, s) /\
      check_niimg head_p s = (Ok head, s);
  mi_in_file : nb_load in_file s = (Ok img, s);
  mi_gm_wm : same_fov gm wm = true;
  mi_head_skull : same_fov head skull = true;
  mi_gm_csf : same_fov gm csf = true;
  mi_gm_head : same_fov gm head = true;
  mi_img_gm : same_shape (dataobj img) (dataobj gm) = true;
  mi_img_affine : affine_close (affine img) (affine img) = true
}.

End Functions.

Section Report.
Context `{SC : Scalars} `{NI : !Nifti} `{PL : !Plotting}.

(** *** [get_cut_ids] *)

(** [a.nonzero()]: the index triples of the nonzero elements, in C
    order. *)
Fixpoint nonzero_from (sh : nat * nat * nat) (i : nat) (l : list scalar)
  : list (Z * Z * Z) :=
  match l with
  | [] => []
  | x :: l' =>
      if is_nonzero x
      then unravel_index sh i :: nonzero_from sh (S i) l'
      else nonzero_from sh (S i) l'
  end.

Definition nonzero (a : ndarray scalar) : list (Z * Z * Z) :=
  nonzero_from (shape a) 0 (values a).

(** [t[axis]] on the triple of index arrays: a tuple of length 3 takes
    the indices -3 .. 2. *)
Definition tuple_axis (axis : Z) : res (Z * Z * Z -> Z) :=
  if (axis =? 0)%Z || (axis =? -3)%Z then Ok (fun t => t.1.1)
  else if (axis =? 1)%Z || (axis =? -2)%Z then Ok (fun t => t.1.2)
  else if (axis =? 2)%Z || (axis =? -1)%Z then Ok (fun t => t.2)
  else Raise IndexError.

(** [np.sort] *)
Fixpoint insert_sorted (x : Z) (l : list Z) : list Z :=
  match l with
  | [] => [x]
  | y :: l' => if (x <=? y)%Z then x :: l else y :: insert_sorted x l'
  end.

Definition np_sort (l : list Z) : list Z := foldr insert_sorted [] l.

(** [idx.min()] and [idx.max()]: an empty array has neither. *)
Definition np_min (l : list Z) : res Z :=
  match l with
  | [] => Raise ValueError
  | x :: l' => Ok (foldr Z.min x l')
  end.

Definition np_max (l : list Z) : res Z :=
  match l with
  | [] => Raise ValueError
  | x :: l' => Ok (foldr Z.max x l')
  end.

(** [np.linspace(lo, hi, num=num, endpoint=True).astype('int')] for array
    indices [lo <= hi]: the [k]-th sample is [lo + k * (hi - lo) / (num - 1)],
    cut to an integer. *)
Definition linspace_int (lo hi : Z) (num : nat) : list Z :=
  map (fun k => (lo + Z.of_nat k * (hi - lo) / Z.of_nat (num - 1))%Z) (seq 0 num).

(** [l[2:-2]] *)
Definition slice_2_m2 {A} (l : list A) : list A :=
  take (length l - 2 - 2) (drop 2 l).

Definition get_cut_ids (img : Image scalar) (axis : Z) : res (list Z) :=
  sel ← tuple_axis axis;
  let idx := np_sort (map sel (nonzero (dataobj img))) in
  lo ← np_min idx;
  hi ← np_max idx;
  let vox_id := slice_2_m2 (linspace_int lo hi 12) in
  if (axis =? 0)%Z then
    Ok (map (fun r => to_int (coord_transform r 0 0 (affine img)).1.1) vox_id)
  else if (axis =? 1)%Z then
    Ok (map (fun r => to_int (coord_transform 0 r 0 (affine img)).1.2) vox_id)
  else if (axis =? 2)%Z then
    Ok (map (fun r => to_int (coord_transform 0 0 r (affine img)).2) vox_id)
  else Raise UnboundLocalError.

(** The index of a voxel along an axis and the cut coordinate of a voxel
    index along it, for the axes 0, 1 and 2. *)
Definition index_along (axis : Z) (t : Z * Z * Z) : Z :=
  if (axis =? 0)%Z then t.1.1 else if (axis =? 1)%Z then t.1.2 else t.2.


(** *** [write_report] *)

(** [np.argmax] of a vector: the first position of the largest
    element. *)
Fixpoint argmax_from (best : scalar) (best_i i : nat) (l : list scalar) : nat :=
  match l with
  | [] => best_i
  | x :: l' =>
      if less best x then argmax_from x i (S i) l'
      else argmax_from best best_i (S i) l'
  end.

Definition argmax (l : list scalar) : Z :=
  match l with
  | [] => 0
  | x :: l' => Z.of_nat (argmax_from x 0 1 l')
  end.

(** The elements of several arrays at each position:
    [np.stack(arrays, axis=-1)]. *)
Fixpoint stack_last (arrays : list (list scalar)) : list (list scalar) :=
  match arrays with
  | [] => []
  | [a] => map (fun x => [x]) a
  | a :: rest => zip_with cons a (stack_last rest)
  end.

(** The label image of the tissue segmentation: label 0 is the
    background, labels 1 to 5 are the five tissue maps. *)
Definition label_image (img : Image scalar) (segs : list (Image scalar))
  : res (Image Z) :=
  if forallb (fun s => same_shape (dataobj img) (dataobj s)) segs
  then
    let background := map (fun _ => zero) (values (dataobj img)) in
    let data := stack_last (background :: map (fun s => values (dataobj s)) segs) in
    Ok (Nifti1Image {| shape := shape (dataobj img); values := map argmax data |}
          (affine img) (header img))
  else Raise ValueError.

(** [enumerate(['x', 'y', 'z'])] *)
Definition axes_xyz : list (Z * string) := [(0%Z, "x"); (1%Z, "y"); (2%Z, "z")].

(** [fig.savefig(path, ...)] *)
Definition savefig (panels : list panel) (path : string) : M unit :=
  write_text path (render_figure panels).

(** The title of the panels: ['sub: %s' % sub], with the session when
    there is one. *)
Definition title_txt (sub sess : string) : string :=
  if Py.truthy sess
  then "sub: " +:+ sub +:+ " - sess: " +:+ sess
  else "sub: " +:+ sub.

(** The text and the file name of the HTML report. *)
Definition report_text (txt sub sess : string) : string :=
  let txt := Py.replace txt "sub-placeholder" ("sub-" +:+ sub) in
  if Py.truthy sess
  then Py.replace txt "ses-placeholder" ("ses-" +:+ sess)
  else Py.replace (Py.replace txt "ses-placeholder" "") "__" "_".

Definition report_filename (sub sess : string) : string :=
  if Py.truthy sess
  then "sub-" +:+ sub +:+ "_ses-" +:+ sess +:+ ".html"
  else "sub-" +:+ sub +:+ ".html".

Definition report_file (sub sess : string) : string :=
  Py.path_join "/data" ["derivatives"; "fmriflows"; report_filename sub sess].

Definition report_template : string := "/templates/report_template.html".

(** [segments[k][0]] *)
Definition segment_path (segments : list (list string)) (k : nat) : res string :=
  match segments !! k with
  | Some s => first_of s
  | None => Raise IndexError
  end.

Definition write_report (sub sess n4 : string) (segments : list (list string))
  (brain T1_template warped_file : string) : M (string * string * string) :=
  let title_txt := title_txt sub sess in
  (* Visualize Tissue Segmentation of T1w *)
  img ← nb_load brain;
  segs ← mapM_M (fun k => p ← lift (segment_path segments k); nb_load p)
         [0; 1; 2; 3; 4]%nat;
  segmentation ← lift (label_image img segs);
  panels ← mapM_M (fun '(i, e) =>
              cuts ← lift (get_cut_ids img i);
              _ ← check_niimg n4;
              ret {| plot := roi_img segmentation; bg_img := n4;
                     display_mode := e;
                     title := title_txt +:+ " - " +:+ e +:+ "-axis";
                     cut_coords := cuts |}) axes_xyz;
  let out_segmentation := Py.replace brain "brain.nii.gz" "segmentation.svg" in
  savefig panels out_segmentation;;
  (* Visualize Brain Extraction of T1w *)
  panels ← mapM_M (fun '(i, e) =>
              b ← nb_load brain;
              cuts ← lift (get_cut_ids b i);
              _ ← check_niimg brain;
              _ ← check_niimg n4;
              ret {| plot := stat_map_img brain; bg_img := n4;
                     display_mode := e;
                     title := title_txt +:+ " - " +:+ e +:+ "-axis";
                     cut_coords := cuts |}) axes_xyz;
  let out_brain := Py.replace brain ".nii.gz" ".svg" in
  savefig panels out_brain;;
  (* Visualize T1w to MNI registration *)
  panels ← mapM_M (fun '(i, e) =>
              w ← nb_load warped_file;
              cuts ← lift (get_cut_ids w i);
              _ ← check_niimg warped_file;
              _ ← check_niimg T1_template;
              ret {| plot := stat_map_img warped_file; bg_img := T1_template;
                     display_mode := e;
                     title := title_txt +:+ " - " +:+ e +:+ "-axis";
                     cut_coords := cuts |}) axes_xyz;
  let out_warp := Py.replace warped_file ".nii.gz" ".svg" in
  savefig panels out_warp;;
  (* Write the HTML report *)
  txt ← read_text report_template;
  write_text (report_file sub sess) (report_text txt sub sess);;
  ret (out_segmentation, out_brain, out_warp).


End Report.

(** ** The functions behind the [Function] nodes *)

Section Table.
Context `{SC : Scalars} `{NI : !Nifti} `{MO : Morphology} `{PL : !Plotting}.

Definition function_type (f : Workflow.notebook_function) : Type :=
  match f with
  | Workflow.fn_create_file_path =>
      string -> string -> Bids.BIDSLayout -> string -> res string
  | Workflow.fn_get_brain_and_mask =>
      string -> list (list string) -> M (string * string)
  | Workflow.fn_write_report =>
      string -> string -> string -> list (list string) ->
      string -> string -> string -> M (string * string * string)
  end.

Definition implementation (f : Workflow.notebook_function) : function_type f :=
  match f with
  | Workflow.fn_create_file_path => create_file_path
  | Workflow.fn_get_brain_and_mask => get_brain_and_mask
  | Workflow.fn_write_report => write_report
  end.

End Table.

(** ** The rest of the notebook *)

Module Os.

(** [os.path.basename(p)]: what follows the last slash of [p]. *)
Fixpoint basename (p : string) : string :=
  match p with
  | EmptyString => EmptyString
  | String c p' =>
      if Py.contains "/" p' then basename p'
      else if Ascii.eqb c "/" then p' else p
  end.

End Os.

(** The naming substitutions given to the datasink. *)
Definition substitutions (subject_list session_list : list string) (T1_id : string)
  : list (string * string) :=
  flat_map (fun sess =>
              map (fun sub =>
                     ("_session_id_" +:+ sess +:+ "_subject_id_" +:+ sub +:+ "/",
                      "sub-" +:+ sub +:+ "/sub-" +:+ sub +:+ "_ses-" +:+ sess +:+ "_"))
                subject_list)
    session_list
  ++ [("_ras", "");
      ("_ROI", "");
      ("_" +:+ T1_id +:+ "_corrected", "");
      ("c1", "seg_gm_");
      ("c2", "seg_wm_");
      ("c3", "seg_csf_");
      ("c4", "seg_skull_");
      ("c5", "seg_head_");
      ("ses-_", "")]
  ++ map (fun sub => ("sub-" +:+ sub +:+ "_sub-" +:+ sub, "sub-" +:+ sub)) subject_list
  ++ flat_map (fun sess =>
                 map (fun sub => ("_sub-" +:+ sub +:+ "_ses-" +:+ sess, ""))
                   subject_list)
       session_list
  ++ map (fun sub => ("_sub-" +:+ sub +:+ ".nii", ".nii")) subject_list
  ++ flat_map (fun sess =>
                 map (fun sub =>
                        ("/sub-" +:+ sub +:+ "_ses-" +:+ sess +:+ ".nii",
                         "/sub-" +:+ sub +:+ "_ses-" +:+ sess +:+ "_T1w_corrected.nii"))
                   subject_list)
       session_list
  ++ flat_map (fun sess =>
                 map (fun sub =>
                        ("/sub-" +:+ sub +:+ ".nii",
                         "/sub-" +:+ sub +:+ "_T1w_corrected.nii"))
                   subject_list)
       session_list.

(** The input fields of a node that connections enter, and with them the
    inputs set on the node itself. *)
Definition connected_inputs (n : Workflow.node) : list string :=
  flat_map (fun c : Workflow.connection =>
              if decide (c.1.2 = n) then map snd c.2 else [])
    Workflow.connections.

Definition supplied_inputs (n : Workflow.node) : list string :=
  connected_inputs n ++ Workflow.static_inputs n.

(** Is there a path of at most [fuel] connections from [u] to [v]? *)
Fixpoint reachable (fuel : nat) (u v : Workflow.node) : bool :=
  match fuel with
  | O => false
  | S fuel' =>
      existsb (fun e : Workflow.node * Workflow.node =>
                 bool_decide (e.1 = u) &&
                 (bool_decide (e.2 = v) || reachable fuel' e.2 v))
        Workflow.edges
  end.

Section Cells.
Context `{SC : Scalars} `{NI : !Nifti}.

(** [shutil.move(src, dst)] of an image file to a path that is no
    directory: the file is renamed and replaces what was at [dst]. *)
Definition shutil_move (src dst : string) : M unit :=
  fun s =>
    match images s !! src with
    | Some img =>
        (Ok tt, {| images := <[dst := img]> (delete src (images s));
                   texts := texts s |})
    | None => (Raise FileNotFoundError, s)
    end.

(** The last cell: the resampled template is moved into the output
    folder. *)
Definition template_new_path (norm_res : list string) : string :=
  "/data/derivatives/fmriflows/preproc_anat/" +:+ Os.basename (norm_template norm_res).

Definition save_template (norm_res : list string) : M unit :=
  shutil_move (norm_template norm_res) (template_new_path norm_res).

(** What the figures of [write_report] need of its arguments and of the
    files: the brain and the first file of each of the first five
    segment lists load and the segments have the shape of the brain; the
    corrected image, the warped image and the template load, and the
    brain and the warped image have a nonzero voxel. *)
Record segmentation_inputs (s : fs) (segments : list (list string)) (brain : string)
    (img : Image scalar) (segs : list (Image scalar)) : Prop := {
  si_brain : nb_load brain s = (Ok img, s);
  si_segments :
    exists p0 p1 p2 p3 p4 r0 r1 r2 r3 r4 rest s0 s1 s2 s3 s4,
      segments = (p0 :: r0) :: (p1 :: r1) :: (p2 :: r2) :: (p3 :: r3)
                 :: (p4 :: r4) :: rest /\
      segs = [s0; s1; s2; s3; s4] /\
      nb_load p0 s = (Ok s0, s) /\ nb_load p1 s = (Ok s1, s) /\
      nb_load p2 s = (Ok s2, s) /\ nb_load p3 s = (Ok s3, s) /\
      nb_load p4 s = (Ok s4, s);
  si_shapes :
    forallb (fun seg => same_shape (dataobj img) (dataobj seg)) segs = true
}.


(** A computation that leaves the image files as they are, and one that
    changes no text file outside [paths]. *)
Definition keeps_images {A} (m : M A) : Prop :=
  forall s, images (m s).2 = images s.

Definition writes_texts_within {A} (paths : list string) (m : M A) : Prop :=
  forall s p, p ∉ paths -> texts (m s).2 !! p = texts s !! p.

End Cells.

(** ** A reference instance of the toolkits

    Numbers with two decimals (an integer counts hundredths), affines made
    of a voxel size and an offset per axis, and the morphological
    operations on the six-neighbourhood, which is the default structuring
    element.  The examples run on it. *)

Module Ref.

#[export] Instance centi : Scalars := {|
  scalar := Z;
  zero := 0%Z;
  add := Z.add;
  mul_int8 := Z.mul;
  ge_quarter := fun x => (25 <=? x)%Z;
  ge_one := fun x => (100 <=? x)%Z;
  is_nonzero := fun x => negb (x =? 0)%Z;
  less := Z.ltb;
  of_int := fun n => (100 * n)%Z;
  to_int := fun x => Z.quot x 100
|}.

(** voxel size and offset along x, y and z, in hundredths *)
Definition scaling : Type := (Z * Z * Z) * (Z * Z * Z).

Definition scaling_eqb (a b : scaling) : bool := bool_decide (a = b).

#[export] Instance scaling_nifti : Nifti := {|
  affine_t := scaling;
  header_t := string;
  affine_close := scaling_eqb;
  new_header := fun _ => "";
  coord_transform := fun x y z '((sx, sy, sz), (ox, oy, oz)) =>
    (sx * x + ox, sy * y + oy, sz * z + oz)%Z;
  (* the examples ask for the voxel sizes the template has: the grid and
     the data stay *)
  vox2out_vox := fun data aff _ => (shape data, aff);
  resample_img := fun data _ hdr _ sh => ({| shape := sh; values := values data |}, hdr)
|}.

(** The element at an index triple; [border] outside the array. *)
Definition at_index (border : bool) (a : ndarray bool) (t : Z * Z * Z) : bool :=
  let '(nx, ny, nz) := shape a in
  let '(x, y, z) := t in
  if ((0 <=? x) && (x <? Z.of_nat nx) && (0 <=? y) && (y <? Z.of_nat ny)
      && (0 <=? z) && (z <? Z.of_nat nz))%Z
  then nth (Z.to_nat ((x * Z.of_nat ny + y) * Z.of_nat nz + z)) (values a) border
  else border.

Definition neighbours (t : Z * Z * Z) : list (Z * Z * Z) :=
  let '(x, y, z) := t in
  [(x - 1, y, z); (x + 1, y, z); (x, y - 1, z); (x, y + 1, z);
   (x, y, z - 1); (x, y, z + 1)]%Z.

Definition indices (a : ndarray bool) : list (Z * Z * Z) :=
  map (unravel_index (shape a)) (seq 0 (length (values a))).

Definition dilate_once (border : bool) (a : ndarray bool) : ndarray bool :=
  {| shape := shape a;
     values := map (fun t => at_index border a t ||
                             existsb (at_index border a) (neighbours t))
                 (indices a) |}.

Definition erode_once (border : bool) (a : ndarray bool) : ndarray bool :=
  {| shape := shape a;
     values := map (fun t => at_index border a t &&
                             forallb (at_index border a) (neighbours t))
                 (indices a) |}.

Definition dilation (a : ndarray bool) (iterations : nat) : ndarray bool :=
  Nat.iter iterations (dilate_once false) a.

Definition erosion (a : ndarray bool) (iterations : nat) : ndarray bool :=
  Nat.iter iterations (erode_once false) a.

(** The background that is connected to the outside of the array is
    grown from the border; what it does not reach is filled. *)
Definition grow_outside (a outside : ndarray bool) : ndarray bool :=
  array_map2 (fun o x => o && negb x) (dilate_once true outside) a.

Definition fill_holes (a : ndarray bool) : ndarray bool :=
  array_map negb
    (Nat.iter (length (values a)) (grow_outside a) (array_map (fun _ => false) a)).

#[export] Instance six_connected : Morphology := {|
  binary_dilation := dilation;
  binary_fill_holes := fill_holes;
  binary_erosion := erosion
|}.

(** The titles and the cuts of the panels, as text. *)
Definition show_cut (c : Z) : string :=
  if (c <? 0)%Z then "-" +:+ pretty (Z.abs_N c) else pretty (Z.abs_N c).

#[export] Instance text_figure : Plotting := {|
  render_figure := fun panels =>
    Py.str_join ";"
      (map (fun p => title p +:+ ":" +:+ Py.str_join "," (map show_cut (cut_coords p)))
         panels)
|}.

(** *** Files for the examples: 3 x 3 x 3 images

    An image is given by its value at the centre, at the six voxels
    next to the centre and at the other twenty. *)

Definition unit_affine : scaling := ((100, 100, 100), (0, 0, 0))%Z.

Definition cube (centre face other : Z) : Image scalar :=
  Nifti1Image
    {| shape := (3, 3, 3)%nat;
       values :=
         map (fun i =>
                let '(x, y, z) := unravel_index (3, 3, 3)%nat i in
                let d := (Z.abs (x - 1) + Z.abs (y - 1) + Z.abs (z - 1))%Z in
                if (d =? 0)%Z then centre else if (d =? 1)%Z then face else other)
           (seq 0 27) |}
    unit_affine "hdr".

Definition t1_img : Image scalar := cube 900 700 300.
Definition gm_img : Image scalar := cube 90 60 0.
Definition wm_img : Image scalar := cube 10 20 0.
Definition csf_img : Image scalar := cube 0 10 0.
Definition skull_img : Image scalar := cube 0 0 20.
Definition head_img : Image scalar := cube 0 0 30.
Definition brain_img : Image scalar := cube 900 0 0.
Definition warped_img : Image scalar := cube 850 40 0.

Definition seg_paths : list (list string) :=
  [["c1T1.nii"]; ["c2T1.nii"]; ["c3T1.nii"]; ["c4T1.nii"]; ["c5T1.nii"]].

Definition files : fs := {|
  images := list_to_map
    [("T1.nii.gz", FloatImage t1_img);
     ("c1T1.nii", FloatImage gm_img);
     ("c2T1.nii", FloatImage wm_img);
     ("c3T1.nii", FloatImage csf_img);
     ("c4T1.nii", FloatImage skull_img);
     ("c5T1.nii", FloatImage head_img);
     ("T1_brain.nii.gz", FloatImage brain_img);
     ("warped.nii.gz", FloatImage warped_img);
     ("template.nii.gz", FloatImage (cube 800 600 0));
     ("/templates/mni_icbm152_nlin_asym_09c/1.0mm_brain.nii.gz",
      FloatImage (cube 800 600 0))];
  texts := {[ "/templates/report_template.html" :=
              "<img src=sub-placeholder_ses-placeholder_brain.svg>" ]}
|}.

(** The files with an image whose name has no ['.nii'], with a brain
    that has no nonzero voxel, and without the template of the
    report. *)
Definition files_mgz : fs := {|
  images := <["T1.mgz" := FloatImage t1_img]> (images files);
  texts := texts files
|}.

Definition files_empty_brain : fs := {|
  images := <["T1_brain.nii.gz" := FloatImage (cube 0 0 0)]> (images files);
  texts := texts files
|}.


Definition layout_without_sessions : Bids.BIDSLayout :=
  {| Bids.root := "/data/"; Bids.sessions := [] |}.

Definition layout_with_sessions : Bids.BIDSLayout :=
  {| Bids.root := "/data/"; Bids.sessions := ["pre"; "post"] |}.

Definition example_specs : specs := {|
  subject_list := ["01"; "02"];
  T1_id := "T1w";
  vox_res := ["1.0"; "1.0"; "1.0"];
  n_parallel_jobs := 4
|}.

End Ref.

(** ** Numbers with infinities and NaN

    The numbers of the reference instance with the values IEEE 754 adds.
    The arithmetic and the comparisons are those of floating-point
    numbers: a comparison with NaN is false, NaN and the infinities differ
    from zero, and an infinity times zero is NaN. *)

Module Ieee.

Inductive number : Type :=
| Finite (hundredths : Z)
| Infinite (negative : bool)
| NaN.

Definition number_add (x y : number) : number :=
  match x, y with
  | Finite a, Finite b => Finite (a + b)
  | Finite _, Infinite n | Infinite n, Finite _ => Infinite n
  | Infinite n, Infinite m => if Bool.eqb n m then Infinite n else NaN
  | NaN, _ | _, NaN => NaN
  end.

Definition number_mul (x : number) (k : Z) : number :=
  match x with
  | Finite a => Finite (a * k)
  | Infinite n => if (k =? 0)%Z then NaN else Infinite (xorb n (k <? 0)%Z)
  | NaN => NaN
  end.

(** [bound <= x], the bound in hundredths *)
Definition number_ge (bound : Z) (x : number) : bool :=
  match x with
  | Finite a => (bound <=? a)%Z
  | Infinite n => negb n
  | NaN => false
  end.

Definition number_lt (x y : number) : bool :=
  match x, y with
  | Finite a, Finite b => (a <? b)%Z
  | Finite _, Infinite n => negb n
  | Infinite n, Finite _ => n
  | Infinite n, Infinite m => n && negb m
  | NaN, _ | _, NaN => false
  end.

Definition number_is_finite (x : number) : bool :=
  match x with
  | Finite _ => true
  | _ => false
  end.

#[export] Instance numbers : Scalars := {|
  scalar := number;
  zero := Finite 0;
  add := number_add;
  mul_int8 := number_mul;
  ge_quarter := number_ge 25;
  ge_one := number_ge 100;
  is_nonzero := fun x => match x with Finite a => negb (a =? 0)%Z | _ => true end;
  less := number_lt;
  of_int := fun n => Finite (100 * n);
  (* [int(x)] of an infinity or of NaN raises; the examples do not ask
     for it *)
  to_int := fun x => match x with Finite a => Z.quot a 100 | _ => 0%Z end
|}.

#[export] Instance numbers_nifti : Nifti := {|
  affine_t := Ref.scaling;
  header_t := string;
  affine_close := Ref.scaling_eqb;
  new_header := fun _ => "";
  coord_transform := fun x y z '((sx, sy, sz), (ox, oy, oz)) =>
    (Finite (sx * x + ox), Finite (sy * y + oy), Finite (sz * z + oz))%Z;
  vox2out_vox := fun data aff _ => (shape data, aff);
  resample_img := fun data _ hdr _ sh => ({| shape := sh; values := values data |}, hdr)
|}.

(** *** Files for the examples

    The images of the reference files with the same numbers, and an
    input image that is NaN outside the head: at the twenty voxels that
    are neither the centre nor next to it. *)

Definition of_ref (img : @Image Ref.centi Ref.scaling_nifti Z) : Image scalar :=
  @Nifti1Image numbers numbers_nifti number
    (array_map Finite (@dataobj Ref.centi Ref.scaling_nifti Z img))
    (@affine Ref.centi Ref.scaling_nifti Z img)
    (@header Ref.centi Ref.scaling_nifti Z img).

Definition t1_img : Image scalar :=
  @Nifti1Image numbers numbers_nifti number
    (array_map (fun x => if (x =? 300)%Z then NaN else Finite x)
       (@dataobj Ref.centi Ref.scaling_nifti Z Ref.t1_img))
    Ref.unit_affine "hdr".

Definition files : fs := {|
  images := list_to_map
    [("T1.nii.gz", FloatImage t1_img);
     ("c1T1.nii", FloatImage (of_ref Ref.gm_img));
     ("c2T1.nii", FloatImage (of_ref Ref.wm_img));
     ("c3T1.nii", FloatImage (of_ref Ref.csf_img));
     ("c4T1.nii", FloatImage (of_ref Ref.skull_img));
     ("c5T1.nii", FloatImage (of_ref Ref.head_img))];
  texts := ∅
|}.

End Ieee.

(** * Properties *)

(** ** Strings *)

Lemma string_app_cons (c : ascii) (s r : string) :
  String c s +:+ r = String c (s +:+ r).
Proof. reflexivity. Qed.

Lemma string_app_nil_l (r : string) : "" +:+ r = r.
Proof. reflexivity. Qed.

Lemma string_app_nil_r (s : string) : s +:+ "" = s.
Proof.
  induction s as [|c s IH]; [done|]. by rewrite string_app_cons, IH.
Qed.

Lemma string_app_assoc (a b c : string) : (a +:+ b) +:+ c = a +:+ (b +:+ c).
Proof.
  induction a as [|x a IH]; [done|]. by rewrite !string_app_cons, IH.
Qed.

Lemma string_app_length (a b : string) :
  String.length (a +:+ b) = String.length a + String.length b.
Proof.
  induction a as [|x a IH]; [done|]. rewrite string_app_cons. cbn. by rewrite IH.
Qed.

Lemma prefix_nil (s : string) : String.prefix "" s = true.
Proof. by destruct s. Qed.

Lemma prefix_cons (a b : ascii) (p s : string) :
  String.prefix (String a p) (String b s) =
  if ascii_dec a b then String.prefix p s else false.
Proof. reflexivity. Qed.






(** When [old] occurs, replacing it by two texts of which neither
    extends to the other gives different results. *)
Lemma replace_scan_differ (old new1 new2 s : string) :
  old <> "" ->
  (forall r1 r2, new1 +:+ r1 <> new2 +:+ r2) ->
  Py.contains old s = true ->
  Py.replace_scan old new1 0 s <> Py.replace_scan old new2 0 s.
Proof.
  intros Hold Hnew. induction s as [|c s IH]; intros Hocc.
  - destruct old; [done|]. discriminate Hocc.
  - cbn [Py.contains] in Hocc. cbn [Py.replace_scan].
    destruct (String.prefix old (String c s)); [apply Hnew|].
    cbn in Hocc. intros [=]. by apply IH.
Qed.

Lemma replace_brain_mask_differ (in_file : string) :
  Py.contains ".nii" in_file = true ->
  Py.replace in_file ".nii" "_brain.nii" <> Py.replace in_file ".nii" "_brainmask.nii".
Proof.
  apply replace_scan_differ; [done|].
  intros r1 r2. rewrite !string_app_cons. congruence.
Qed.

(** ** C4: [create_file_path] *)

Lemma parse_file_pattern :
  Bids.parse_pattern file_pattern = Some
    ((map (fun c => Bids.Required (Bids.Lit c)) (list_ascii_of_string "sub-"))
     ++ [Bids.Required (Bids.Ent "subject_id");
         Bids.Optional (map Bids.Lit (list_ascii_of_string "/ses-")
                        ++ [Bids.Ent "session_id"])]
     ++ map (fun c => Bids.Required (Bids.Lit c)) (list_ascii_of_string "/anat/sub-")
     ++ [Bids.Required (Bids.Ent "subject_id");
         Bids.Optional (map Bids.Lit (list_ascii_of_string "_ses-")
                        ++ [Bids.Ent "session_id"])]
     ++ map (fun c => Bids.Required (Bids.Lit c)) (list_ascii_of_string "_")
     ++ [Bids.Required (Bids.Ent "T1_id")]
     ++ map (fun c => Bids.Required (Bids.Lit c)) (list_ascii_of_string ".nii.gz")).
Proof. vm_compute. reflexivity. Qed.

(** The path the pattern gives, from the three lookups it makes. *)
Lemma build_file_path (layout : Bids.BIDSLayout) (entities : gmap string string)
    (sub t1 : string) (ses : option string) :
  entities !! "subject_id" = Some sub ->
  entities !! "T1_id" = Some t1 ->
  entities !! "session_id" = ses ->
  Bids.build_path layout entities [file_pattern] =
  Some ("sub-" +:+ sub +:+ from_option (fun s => "/ses-" +:+ s) "" ses +:+
        "/anat/sub-" +:+ sub +:+ from_option (fun s => "_ses-" +:+ s) "" ses +:+
        "_" +:+ t1 +:+ ".nii.gz").
Proof.
  intros Hsub Ht1 Hses. unfold Bids.build_path. rewrite parse_file_pattern.
  cbn [mbind option_bind Bids.render map list_ascii_of_string app
       Bids.render_chunk Bids.render_seg Bids.render_segs].
  rewrite Hsub, Ht1, Hses.
  destruct ses as [s|]; cbn [default from_option];
    rewrite ?string_app_cons, ?string_app_nil_l, ?string_app_nil_r; reflexivity.
Qed.

Lemma path_join_data (p : string) :
  Py.path_join "/data" ["sub-" +:+ p] = "/data/sub-" +:+ p.
Proof. reflexivity. Qed.

Lemma create_file_path_no_session (subject_id : string) (layout : Bids.BIDSLayout)
    (T1_id : string) :
  create_file_path subject_id "" layout T1_id =
    Ok ("/data/sub-" +:+ subject_id +:+ "/anat/sub-" +:+ subject_id +:+
        "_" +:+ T1_id +:+ ".nii.gz").
Proof.
  unfold create_file_path. cbn [String.eqb negb].
  rewrite (build_file_path _ _ subject_id T1_id None).
  - by rewrite path_join_data.
  - by rewrite ?lookup_insert_ne by done; rewrite lookup_insert_eq.
  - by rewrite ?lookup_insert_ne by done; rewrite lookup_insert_eq.
  - by rewrite ?lookup_insert_ne by done; rewrite lookup_empty.
Qed.

Lemma create_file_path_session (subject_id session_id : string)
    (layout : Bids.BIDSLayout) (T1_id : string) :
  session_id <> "" ->
  create_file_path subject_id session_id layout T1_id =
    Ok ("/data/sub-" +:+ subject_id +:+ "/ses-" +:+ session_id +:+
        "/anat/sub-" +:+ subject_id +:+ "_ses-" +:+ session_id +:+
        "_" +:+ T1_id +:+ ".nii.gz").
Proof.
  intros Hne. unfold create_file_path.
  apply String.eqb_neq in Hne. rewrite Hne. cbn [negb].
  rewrite (build_file_path _ _ subject_id T1_id (Some session_id)).
  - rewrite path_join_data. cbn [from_option].
    by rewrite !string_app_assoc.
  - by rewrite ?lookup_insert_ne by done; rewrite lookup_insert_eq.
  - by rewrite ?lookup_insert_ne by done; rewrite lookup_insert_eq.
  - by rewrite ?lookup_insert_ne by done; rewrite lookup_insert_eq.
Qed.

(** C4: without a session the file is
    [/data/sub-{subject_id}/anat/sub-{subject_id}_{T1_id}.nii.gz]; with a
    session it is
    [/data/sub-{subject_id}/ses-{session_id}/anat/sub-{subject_id}_ses-{session_id}_{T1_id}.nii.gz].
    The session parts are in the path exactly when [session_id] is not the
    empty string. *)
Theorem create_file_path_spec (subject_id : string) (layout : Bids.BIDSLayout)
    (T1_id : string) :
  create_file_path subject_id "" layout T1_id =
    Ok ("/data/sub-" +:+ subject_id +:+ "/anat/sub-" +:+ subject_id +:+
        "_" +:+ T1_id +:+ ".nii.gz")
  /\ forall session_id, session_id <> "" ->
       create_file_path subject_id session_id layout T1_id =
         Ok ("/data/sub-" +:+ subject_id +:+ "/ses-" +:+ session_id +:+
             "/anat/sub-" +:+ subject_id +:+ "_ses-" +:+ session_id +:+
             "_" +:+ T1_id +:+ ".nii.gz").
Proof.
  split; [apply create_file_path_no_session|].
  intros session_id. apply create_file_path_session.
Qed.

Lemma create_file_path_spec_witness :
  "test" <> "" /\
  create_file_path "01" "test" {| Bids.root := "/data/"; Bids.sessions := ["test"] |}
    "T1w" =
    Ok "/data/sub-01/ses-test/anat/sub-01_ses-test_T1w.nii.gz".
Proof.
  split; [done|].
  exact (proj2 (create_file_path_spec "01" _ "T1w") "test" ltac:(done)).
Defined.

(** ** Topological sorting and sequential runs *)

Section GraphFacts.
Context {N : Type} `{EqDecision N}.
Implicit Types (edges : list (N * N)) (todo done order : list N).

Lemma elem_of_remove_node (n x : N) (l : list N) :
  x ∈ remove_node n l <-> x ∈ l /\ x <> n.
Proof. unfold remove_node. rewrite list_elem_of_filter. tauto. Qed.

Lemma remove_node_length (n : N) (l : list N) :
  n ∈ l -> length (remove_node n l) < length l.
Proof.
  unfold remove_node. induction l as [|x l IH]; intros Hin.
  - by apply elem_of_nil in Hin.
  - rewrite filter_cons. destruct (decide (x <> n)) as [Hx|Hx]; cbn.
    + apply elem_of_cons in Hin as [->|Hin]; [done|].
      specialize (IH Hin). lia.
    + pose proof (length_filter (fun m => m <> n) l). lia.
Qed.

Lemma ready_spec edges done (n : N) :
  ready edges done n = true <-> forall u, (u, n) ∈ edges -> u ∈ done.
Proof.
  unfold ready. rewrite forallb_forall. split.
  - intros Hall u Hin. apply list_elem_of_In in Hin.
    specialize (Hall _ Hin). cbn in Hall.
    destruct (decide (n = n)); [|done]. by apply bool_decide_eq_true in Hall.
  - intros Hall [u v] Hin. cbn. destruct (decide (v = n)) as [->|]; [|done].
    apply bool_decide_eq_true, Hall. by apply list_elem_of_In.
Qed.

(** In what the sort returns, the nodes that were done come first; the
    rest are the nodes that were to do, each once and each behind the
    sources of its incoming edges. *)
Lemma sort_from_sound fuel edges todo done order :
  sort_from fuel edges todo done = Some order ->
  exists rest,
    order = rev done ++ rest /\
    (forall x, x ∈ rest <-> x ∈ todo) /\
    NoDup rest /\
    (forall l1 n l2, rest = l1 ++ n :: l2 ->
       forall u, (u, n) ∈ edges -> u ∈ done \/ u ∈ l1).
Proof.
  revert todo done.
  induction fuel as [|fuel IH]; intros todo done Hsort;
    destruct todo as [|t todo]; cbn [sort_from] in Hsort; try discriminate.
  1,2: injection Hsort as <-; exists []; rewrite app_nil_r;
       split_and!; [done|done|constructor|by intros [|??] ?? ?].
  destruct (find (ready edges done) (t :: todo)) as [n|] eqn:Hfind; [|done].
  apply find_some in Hfind as [Hn Hready].
  apply list_elem_of_In in Hn. rewrite ready_spec in Hready.
  apply IH in Hsort as (rest & -> & Hrest & Hnodup & Hpred).
  exists (n :: rest). split_and!.
  - cbn [rev]. by rewrite <- app_assoc.
  - intros x. rewrite elem_of_cons, Hrest, elem_of_remove_node.
    destruct (decide (x = n)) as [->|]; tauto.
  - constructor; [|done]. rewrite Hrest, elem_of_remove_node. tauto.
  - intros [|m l1] k l2 Heq u Hu; injection Heq as -> ->.
    + left. by apply Hready.
    + destruct (Hpred _ _ _ eq_refl u Hu) as [Hd|Hl].
      * apply elem_of_cons in Hd as [->|Hd]; [right; left|by left].
      * right. by right.
Qed.

Lemma topological_sort_sound (nodes : list N) edges order :
  topological_sort nodes edges = Some order ->
  NoDup order /\
  (forall x, x ∈ order <-> x ∈ nodes) /\
  (forall u v, (u, v) ∈ edges -> v ∈ nodes -> before order u v).
Proof.
  intros (rest & -> & Hrest & Hnodup & Hpred)%sort_from_sound.
  cbn [rev app]. split_and!; [done..|].
  intros u v Hedge Hv. apply Hrest in Hv.
  apply list_elem_of_split in Hv as (l1 & l3 & ->).
  destruct (Hpred _ _ _ eq_refl u Hedge) as [Hd|Hl]; [by apply elem_of_nil in Hd|].
  apply list_elem_of_split in Hl as (l0 & l2 & ->).
  exists l0, l2, l3. by rewrite <- app_assoc.
Qed.

Lemma min_rank_exists (rank : N -> nat) (l : list N) :
  l <> [] -> exists m, m ∈ l /\ forall x, x ∈ l -> rank m <= rank x.
Proof.
  induction l as [|a l IH]; [done|intros _].
  destruct l as [|b l].
  - exists a. split; [left|]. by intros x ->%list_elem_of_singleton.
  - destruct IH as (m & Hm & Hmin); [done|].
    destruct (decide (rank a <= rank m)) as [Hle|Hgt].
    + exists a. split; [left|].
      intros x [->|Hx]%elem_of_cons; [done|]. specialize (Hmin _ Hx). lia.
    + exists m. split; [by right|].
      intros x [->|Hx]%elem_of_cons; [lia|]. by apply Hmin.
Qed.

(** With edges that go up in some rank and enough fuel the sort
    succeeds. *)
Lemma sort_from_complete (rank : N -> nat) fuel edges todo done :
  (forall u v, (u, v) ∈ edges -> rank u < rank v) ->
  (forall u v, (u, v) ∈ edges -> v ∈ todo -> u ∈ done \/ u ∈ todo) ->
  length todo <= fuel ->
  is_Some (sort_from fuel edges todo done).
Proof.
  intros Hrank. revert todo done.
  induction fuel as [|fuel IH]; intros todo done Hclosed Hlen;
    destruct todo as [|t todo]; cbn [sort_from]; try (by eexists).
  { cbn in Hlen. lia. }
  destruct (find (ready edges done) (t :: todo)) as [n|] eqn:Hfind.
  - apply find_some in Hfind as [Hn Hready].
    apply list_elem_of_In in Hn. rewrite ready_spec in Hready.
    apply IH.
    + intros u v Hedge [Hv Hne]%elem_of_remove_node.
      destruct (Hclosed _ _ Hedge Hv) as [Hd|Ht]; [left; by right|].
      destruct (decide (u = n)) as [->|Hu]; [left; left|].
      right. by apply elem_of_remove_node.
    + pose proof (remove_node_length n _ Hn). cbn in *. lia.
  - exfalso.
    destruct (min_rank_exists rank (t :: todo)) as (m & Hm & Hmin); [done|].
    pose proof (find_none _ _ Hfind m) as Hnot.
    rewrite <- list_elem_of_In in Hnot. specialize (Hnot Hm).
    assert (ready edges done m = true) as Hr; [|congruence].
    apply ready_spec. intros u Hedge.
    destruct (Hclosed _ _ Hedge Hm) as [Hd|Ht]; [done|].
    specialize (Hmin _ Ht). specialize (Hrank _ _ Hedge). lia.
Qed.

Lemma topological_sort_complete (rank : N -> nat) (nodes : list N) edges :
  (forall u v, (u, v) ∈ edges -> rank u < rank v) ->
  (forall u v, (u, v) ∈ edges -> u ∈ nodes) ->
  is_Some (topological_sort nodes edges).
Proof.
  intros Hrank Hsrc. apply (sort_from_complete rank); [done| |done].
  intros u v Hedge _. right. by eapply Hsrc.
Qed.

(** *** Sequential runs *)

Lemma run_linear_app (l1 l2 : list N) :
  run_linear (l1 ++ l2) = run_linear l1 ++ run_linear l2.
Proof. unfold run_linear. apply flat_map_app. Qed.

Lemma run_linear_cons (n : N) (l : list N) :
  run_linear (n :: l) = Start n :: Finish n :: run_linear l.
Proof. reflexivity. Qed.

Lemma before_finished_before (order : list N) (u v : N) :
  before order u v -> finished_before (run_linear order) u v.
Proof.
  intros (l1 & l2 & l3 & ->).
  exists (run_linear l1 ++ [Start u]), (run_linear l2),
    (Finish v :: run_linear l3).
  rewrite run_linear_app, run_linear_cons, run_linear_app, run_linear_cons.
  by rewrite <- app_assoc.
Qed.

End GraphFacts.

(** ** The workflow graph *)

Lemma all_nodes_complete (n : Workflow.node) : n ∈ Workflow.all_nodes.
Proof. destruct n; apply (bool_decide_unpack _); by vm_compute. Qed.

Lemma edges_rank :
  Forall (fun e => Workflow.rank e.1 < Workflow.rank e.2) Workflow.edges.
Proof. unfold Workflow.edges, Workflow.connections. cbn. repeat constructor. Qed.

Lemma edge_rank (u v : Workflow.node) :
  Workflow.edge u v -> Workflow.rank u < Workflow.rank v.
Proof.
  intros Hedge. pose proof edges_rank as Hall.
  rewrite Forall_forall in Hall. exact (Hall _ Hedge).
Qed.

Lemma path_rank (u v : Workflow.node) :
  Workflow.path u v -> Workflow.rank u < Workflow.rank v.
Proof.
  induction 1 as [u v Hedge|u v w Hedge _ IH].
  - by apply edge_rank.
  - apply edge_rank in Hedge. lia.
Qed.

(** C3: the connect list is a directed acyclic graph.  Every connection
    goes from a declared output of one node of the workflow to a declared
    input of another one, the names of the nodes are distinct and no path
    of connections leads from a node back to itself. *)
Theorem workflow_is_dag (sp : specs) :
  Forall (fun c => Workflow.connection_ok sp c = true) Workflow.connections /\
  NoDup (map Workflow.node_name Workflow.all_nodes) /\
  Forall (fun e => Workflow.rank e.1 < Workflow.rank e.2) Workflow.edges /\
  forall n, ~ Workflow.path n n.
Proof.
  split_and!.
  - unfold Workflow.connections. repeat (constructor; [by vm_compute|]).
    constructor.
  - apply (bool_decide_unpack _). by vm_compute.
  - exact edges_rank.
  - intros n Hpath%path_rank. lia.
Qed.

Lemma workflow_is_dag_witness :
  ~ Workflow.path Workflow.reorient Workflow.reorient.
Proof.
  exact (proj2 (proj2 (proj2
    (workflow_is_dag {| subject_list := ["01"]; T1_id := "T1w";
                        vox_res := ["1.0"; "1.0"; "1.0"];
                        n_parallel_jobs := 4 |}))) Workflow.reorient).
Defined.

(** ** The iterator *)

Lemma expand_sessions (sub : string) (sessions : list string) :
  map (cons ("subject_id", sub))
    (flat_map (fun v => map (cons ("session_id", v)) [[]]) sessions) =
  map (fun ses => [("subject_id", sub); ("session_id", ses)]) sessions.
Proof.
  induction sessions as [|ses sessions IH]; [done|].
  cbn [flat_map map app]. f_equal. exact IH.
Qed.

Lemma combinations_eq (sp : specs) (layout : Bids.BIDSLayout) :
  combinations sp layout =
  flat_map (fun sub =>
              map (fun ses => [("subject_id", sub); ("session_id", ses)])
                (session_list layout))
    (subject_list sp).
Proof.
  unfold combinations, iterables. cbn [expand_iterables].
  generalize (session_list layout) as sessions. intros sessions.
  induction (subject_list sp) as [|sub subs IH]; [done|].
  cbn [flat_map]. by rewrite IH, expand_sessions.
Qed.

Lemma combinations_length (sp : specs) (layout : Bids.BIDSLayout) :
  length (combinations sp layout) =
  length (subject_list sp) * length (session_list layout).
Proof.
  rewrite combinations_eq.
  induction (subject_list sp) as [|sub subs IH]; [done|].
  cbn [flat_map]. rewrite length_app, length_map, IH. cbn. lia.
Qed.

(** C10: when the layout reports no session, [session_list] is [['']];
    the iterator then gives one combination per subject, each with the
    empty session id, for which [create_file_path] and [write_report] take
    their branch without a session. *)
Theorem no_session_iteration (sp : specs) (layout : Bids.BIDSLayout) :
  Bids.get_sessions layout = [] ->
  session_list layout = [""] /\
  combinations sp layout =
    map (fun sub => [("subject_id", sub); ("session_id", "")]) (subject_list sp) /\
  length (combinations sp layout) = length (subject_list sp) /\
  Forall (fun comb =>
            exists sub,
              field_value comb "subject_id" = Some sub /\
              field_value comb "session_id" = Some "" /\
              create_file_path sub "" layout (T1_id sp) =
                Ok ("/data/sub-" +:+ sub +:+ "/anat/sub-" +:+ sub +:+
                    "_" +:+ T1_id sp +:+ ".nii.gz") /\
              report_file sub "" =
                "/data/derivatives/fmriflows/sub-" +:+ sub +:+ ".html" /\
              title_txt sub "" = "sub: " +:+ sub)
    (combinations sp layout).
Proof.
  intros Hnone.
  assert (session_list layout = [""]) as Hlist.
  { unfold session_list. by rewrite Hnone. }
  assert (combinations sp layout =
          map (fun sub => [("subject_id", sub); ("session_id", "")]) (subject_list sp))
    as Hcomb.
  { rewrite combinations_eq, Hlist. cbn [map].
    induction (subject_list sp) as [|sub subs IH]; [done|]. cbn. by rewrite IH. }
  split_and!; [done|done| |].
  - by rewrite Hcomb, length_map.
  - rewrite Hcomb. apply Forall_forall. intros comb Hin.
    apply list_elem_of_fmap in Hin as (sub & -> & _). exists sub.
    split_and!; [reflexivity|reflexivity| |reflexivity|reflexivity].
    apply create_file_path_no_session.
Qed.

(** ** The execution graph *)

Lemma elem_of_exec_nodes (sp : specs) (layout : Bids.BIDSLayout) (x : exec_node) :
  x ∈ exec_nodes sp layout <-> x.1 ∈ combinations sp layout.
Proof.
  unfold exec_nodes. rewrite list_elem_of_In, in_flat_map. split.
  - intros (comb & Hcomb & Hin). apply in_map_iff in Hin as (n & <- & _).
    by apply list_elem_of_In.
  - intros Hin. exists x.1. split; [by apply list_elem_of_In|].
    apply in_map_iff. exists x.2. split; [by destruct x|].
    apply list_elem_of_In, all_nodes_complete.
Qed.

Lemma elem_of_exec_edges (sp : specs) (layout : Bids.BIDSLayout) (a b : exec_node) :
  (a, b) ∈ exec_edges sp layout <->
  a.1 ∈ combinations sp layout /\ b.1 = a.1 /\ Workflow.edge a.2 b.2.
Proof.
  unfold exec_edges. rewrite list_elem_of_In, in_flat_map. split.
  - intros (comb & Hcomb & Hin). apply in_map_iff in Hin as ([u v] & [= <- <-] & He).
    cbn. split_and!; [by apply list_elem_of_In|done|by apply list_elem_of_In].
  - intros (Hcomb & Heq & Hedge). exists a.1. split; [by apply list_elem_of_In|].
    apply in_map_iff. exists (a.2, b.2). split.
    + destruct a, b; cbn in *. by subst.
    + by apply list_elem_of_In.
Qed.

Lemma exec_sorted (sp : specs) (layout : Bids.BIDSLayout) :
  exists order,
    topological_sort (exec_nodes sp layout) (exec_edges sp layout) = Some order /\
    NoDup order /\
    (forall x, x ∈ order <-> x ∈ exec_nodes sp layout) /\
    (forall u v, (u, v) ∈ exec_edges sp layout -> before order u v).
Proof.
  destruct (topological_sort_complete (fun x : exec_node => Workflow.rank x.2)
              (exec_nodes sp layout) (exec_edges sp layout)) as [order Horder].
  - intros u v (_ & _ & Hedge)%elem_of_exec_edges. by apply edge_rank.
  - intros u v (Hcomb & _ & _)%elem_of_exec_edges. by apply elem_of_exec_nodes.
  - exists order. split; [done|].
    apply topological_sort_sound in Horder as (Hnodup & Hnodes & Hbefore).
    split_and!; [done..|].
    intros u v Hedge. apply Hbefore; [done|].
    apply elem_of_exec_edges in Hedge as (Hcomb & Heq & _).
    apply elem_of_exec_nodes. by rewrite Heq.
Qed.

(** ** [get_cut_ids] *)

Section CutIds.
Context `{SC : Scalars} `{NI : !Nifti}.

Lemma elem_of_nonzero_from (sh : nat * nat * nat) (i : nat) (l : list scalar)
    (t : Z * Z * Z) :
  t ∈ nonzero_from sh i l <->
  exists k x, l !! k = Some x /\ is_nonzero x = true /\ t = unravel_index sh (i + k).
Proof.
  revert i. induction l as [|y l IH]; intros i; cbn [nonzero_from].
  - split; [by intros ?%elem_of_nil|]. by intros (k & x & ? & _).
  - destruct (is_nonzero y) eqn:Hy.
    + rewrite elem_of_cons, IH. split.
      * intros [->|(k & x & Hk & Hx & ->)].
        -- exists 0, y. by rewrite Nat.add_0_r.
        -- exists (S k), x. split_and!; [done..|]. f_equal. lia.
      * intros ([|k] & x & Hk & Hx & ->).
        -- left. by rewrite Nat.add_0_r.
        -- right. exists k, x. split_and!; [done..|]. f_equal. lia.
    + rewrite IH. split.
      * intros (k & x & Hk & Hx & ->).
        exists (S k), x. split_and!; [done..|]. f_equal. lia.
      * intros ([|k] & x & Hk & Hx & ->).
        -- cbn in Hk. congruence.
        -- exists k, x. split_and!; [done..|]. f_equal. lia.
Qed.

(** The index triples [nonzero()] returns are those of the nonzero
    elements. *)
Lemma elem_of_nonzero (a : ndarray scalar) (t : Z * Z * Z) :
  t ∈ nonzero a <->
  exists k x, values a !! k = Some x /\ is_nonzero x = true /\
              t = unravel_index (shape a) k.
Proof. unfold nonzero. by rewrite elem_of_nonzero_from. Qed.

Lemma nonzero_nil (a : ndarray scalar) :
  Forall (fun x => is_nonzero x = false) (values a) -> nonzero a = [].
Proof.
  intros Hall. destruct (nonzero a) as [|t l] eqn:E; [done|exfalso].
  assert (t ∈ nonzero a) as (k & x & Hk & Hx & _)%elem_of_nonzero
    by (rewrite E; left).
  rewrite Forall_forall in Hall.
  apply list_elem_of_lookup_2 in Hk. apply Hall in Hk. congruence.
Qed.

Lemma nonzero_cons (a : ndarray scalar) :
  Exists (fun x => is_nonzero x = true) (values a) -> nonzero a <> [].
Proof.
  intros (x & Hin & Hx)%Exists_exists Hnil.
  apply list_elem_of_lookup_1 in Hin as [k Hk].
  assert (unravel_index (shape a) k ∈ nonzero a) as Hel.
  { apply elem_of_nonzero. by exists k, x. }
  rewrite Hnil in Hel. by apply elem_of_nil in Hel.
Qed.

Lemma elem_of_insert_sorted (x y : Z) (l : list Z) :
  y ∈ insert_sorted x l <-> y = x \/ y ∈ l.
Proof.
  induction l as [|z l IH]; cbn [insert_sorted].
  - rewrite list_elem_of_singleton, elem_of_nil. tauto.
  - destruct (x <=? z)%Z; rewrite !elem_of_cons; [tauto|]. rewrite IH. tauto.
Qed.

Lemma elem_of_np_sort (y : Z) (l : list Z) : y ∈ np_sort l <-> y ∈ l.
Proof.
  unfold np_sort. induction l as [|x l IH]; [done|].
  cbn [foldr]. by rewrite elem_of_insert_sorted, elem_of_cons, IH.
Qed.

Lemma np_sort_nil (l : list Z) : np_sort l = [] <-> l = [].
Proof.
  split; [|by intros ->].
  destruct l as [|x l]; [done|]. intros Hnil.
  assert (x ∈ np_sort (x :: l)) as Hx by (apply elem_of_np_sort; left).
  rewrite Hnil in Hx. by apply elem_of_nil in Hx.
Qed.

Lemma np_min_spec (l : list Z) :
  l <> [] ->
  exists m, np_min l = Ok m /\ m ∈ l /\ forall x, x ∈ l -> (m <= x)%Z.
Proof.
  destruct l as [|a l]; [done|intros _]. cbn [np_min]. eexists. split; [done|].
  induction l as [|b l [IHin IHle]]; cbn [foldr].
  - split; [left|]. intros x ->%list_elem_of_singleton. lia.
  - split.
    + destruct (Z.min_spec b (foldr Z.min a l)) as [[_ ->]|[_ ->]].
      * right. left.
      * apply elem_of_cons in IHin as [Heq|Hin]; [rewrite Heq; left|].
        right. by right.
    + intros x Hx.
      assert (x = b \/ x ∈ a :: l) as [->|Hx'].
      { rewrite !elem_of_cons in *. tauto. }
      * lia.
      * specialize (IHle _ Hx'). lia.
Qed.

Lemma np_max_spec (l : list Z) :
  l <> [] ->
  exists m, np_max l = Ok m /\ m ∈ l /\ forall x, x ∈ l -> (x <= m)%Z.
Proof.
  destruct l as [|a l]; [done|intros _]. cbn [np_max]. eexists. split; [done|].
  induction l as [|b l [IHin IHle]]; cbn [foldr].
  - split; [left|]. intros x ->%list_elem_of_singleton. lia.
  - split.
    + destruct (Z.max_spec b (foldr Z.max a l)) as [[_ ->]|[_ ->]].
      * apply elem_of_cons in IHin as [Heq|Hin]; [rewrite Heq; left|].
        right. by right.
      * right. left.
    + intros x Hx.
      assert (x = b \/ x ∈ a :: l) as [->|Hx'].
      { rewrite !elem_of_cons in *. tauto. }
      * lia.
      * specialize (IHle _ Hx'). lia.
Qed.

Lemma tuple_axis_ok (axis : Z) :
  (0 <= axis <= 2)%Z -> tuple_axis axis = Ok (index_along axis).
Proof.
  intros Haxis.
  assert (axis = 0 \/ axis = 1 \/ axis = 2)%Z as [->|[->| ->]] by lia; reflexivity.
Qed.


Lemma get_cut_ids_empty (img : Image scalar) (axis : Z) :
  (0 <= axis <= 2)%Z ->
  Forall (fun x => is_nonzero x = false) (values (dataobj img)) ->
  get_cut_ids img axis = Raise ValueError.
Proof.
  intros Haxis Hall. unfold get_cut_ids.
  rewrite tuple_axis_ok by done. cbn [mbind res_mbind res_bind].
  by rewrite nonzero_nil.
Qed.



End CutIds.

(** ** [get_brain_and_mask] *)

Section BrainMask.
Context `{SC : Scalars} `{NI : !Nifti} `{MO : Morphology}.

(** *** Running the monad *)

Lemma bind_ok {A B} (m : M A) (k : A -> M B) (s s1 : fs) (a : A) :
  m s = (Ok a, s1) -> (m ≫= k) s = k a s1.
Proof. intros Hm. unfold mbind, M_bind, bind. by rewrite Hm. Qed.

Lemma bind_inv {A B} (m : M A) (k : A -> M B) (s s' : fs) (b : B) :
  (m ≫= k) s = (Ok b, s') ->
  exists a s1, m s = (Ok a, s1) /\ k a s1 = (Ok b, s').
Proof.
  unfold mbind, M_bind, bind. destruct (m s) as [[a|e] s1]; [eauto|discriminate].
Qed.

Lemma lift_bind_ok {A B} (r : res A) (k : A -> M B) (s : fs) (a : A) :
  r = Ok a -> (lift r ≫= k) s = k a s.
Proof. by intros ->. Qed.

Lemma lift_inv {A} (r : res A) (s s1 : fs) (a : A) :
  lift r s = (Ok a, s1) -> r = Ok a /\ s1 = s.
Proof. unfold lift. by intros [= -> ->]. Qed.

Lemma nb_load_state (path : string) (s s1 : fs) (r : res (Image scalar)) :
  nb_load path s = (r, s1) -> s1 = s.
Proof.
  unfold nb_load. destruct (images s !! path) as [[img|img]|]; by intros [= _ <-].
Qed.

Lemma check_niimg_state (path : string) (s s1 : fs) (r : res (Image scalar)) :
  check_niimg path s = (r, s1) -> s1 = s.
Proof.
  unfold check_niimg. destruct (nb_load path s) as [[img|e] s2] eqn:Hload;
    apply nb_load_state in Hload as ->; by intros [= _ <-].
Qed.

Lemma nb_load_lookup (path : string) (s : fs) (img : Image scalar) :
  images s !! path = Some (FloatImage img) -> nb_load path s = (Ok img, s).
Proof. intros Hlook. unfold nb_load. by rewrite Hlook. Qed.

Lemma check_niimg_lookup (path : string) (s : fs) (img : Image scalar) :
  images s !! path = Some (FloatImage img) -> check_niimg path s = (Ok img, s).
Proof. intros Hlook. unfold check_niimg. by rewrite (nb_load_lookup _ _ _ Hlook). Qed.

(** *** Shapes *)

Lemma same_shape_true {A B} (a : ndarray A) (b : ndarray B) :
  same_shape a b = true <->
  shape a = shape b /\ length (values a) = length (values b).
Proof.
  unfold same_shape. by rewrite andb_true_iff, !bool_decide_eq_true.
Qed.

Lemma zip_with3_length {A B C D} (f : A -> B -> C -> D)
    (la : list A) (lb : list B) (lc : list C) :
  length la = length lb -> length la = length lc ->
  length (zip_with3 f la lb lc) = length la.
Proof.
  revert lb lc. induction la as [|a la IH]; intros [|b lb] [|c lc]; cbn; try done.
  intros [= Hb] [= Hc]. by rewrite IH.
Qed.

(** *** The predicate of the code is the predicate of the specification *)

Lemma combine_ge_one_spec (gm wm csf skull head : scalar) :
  negb (combine_ge_one (sum_ge_quarter gm wm) (val_ge_one csf)
          (sum_ge_quarter head skull) =? 0)%Z =
  spec_mask_voxel gm wm csf skull head.
Proof.
  unfold combine_ge_one, sum_ge_quarter, val_ge_one, spec_mask_voxel.
  by destruct (ge_quarter (add gm wm)), (ge_one csf), (ge_quarter (add head skull)).
Qed.

Lemma staged_predicate (gm wm csf skull head : list scalar) :
  map (fun x => negb (x =? 0)%Z)
    (zip_with3 combine_ge_one (zip_with sum_ge_quarter gm wm)
       (map val_ge_one csf) (zip_with sum_ge_quarter head skull)) =
  zip_with5 spec_mask_voxel gm wm csf skull head.
Proof.
  revert wm csf skull head.
  induction gm as [|a gm IH]; intros [|b wm] [|c csf] [|d skull] [|e head];
    try reflexivity.
  cbn [zip_with map zip_with3 zip_with5]. by rewrite combine_ge_one_spec, IH.
Qed.

Lemma refine_mask_spec (gm wm csf skull head : ndarray scalar) :
  refine_mask
    (array_map3 combine_ge_one (array_map2 sum_ge_quarter gm wm)
       (array_map val_ge_one csf) (array_map2 sum_ge_quarter head skull)) =
  spec_mask gm wm csf skull head.
Proof.
  unfold refine_mask, spec_mask, astype_bool, spec_predicate, array_map3,
    array_map2, array_map. cbn [shape values]. by rewrite staged_predicate.
Qed.

Lemma astype_int8_binary (a : ndarray bool) :
  Forall (fun x => x = 0 \/ x = 1)%Z (values (astype_int8 a)).
Proof.
  unfold astype_int8, array_map. cbn [values].
  apply Forall_forall. intros x (b & -> & _)%list_elem_of_fmap.
  destruct b; cbn; tauto.
Qed.

(** *** What a run that returns has done *)

Lemma get_brain_and_mask_inv (in_file : string) (segments : list (list string))
    (s s' : fs) (out_file mask : string) :
  get_brain_and_mask in_file segments s = (Ok (out_file, mask), s') ->
  out_file = Py.replace in_file ".nii" "_brain.nii" /\
  mask = Py.replace in_file ".nii" "_brainmask.nii" /\
  exists (img : Image scalar) (data : ndarray Z),
    nb_load in_file s = (Ok img, s) /\
    same_shape (dataobj img) (refine_mask data) = true /\
    images s' =
      <[mask := Int8Image (Nifti1Image (refine_mask data) (affine img) (header img))]>
        (<[out_file := FloatImage
              (Nifti1Image (spec_brain (dataobj img) (refine_mask data))
                 (affine img) (new_header (header img)))]>
           (images s)) /\
    texts s' = texts s.
Proof.
  unfold get_brain_and_mask. intros Hrun.
  apply bind_inv in Hrun as (img & s1 & Himg & Hrun).
  pose proof (nb_load_state _ _ _ _ Himg) as ->.
  apply bind_inv in Hrun as (firsts & s1 & Hfirsts & Hrun).
  apply lift_inv in Hfirsts as [_ ->].
  destruct firsts as [|gm [|wm [|csf [|skull [|head [|]]]]]]; try discriminate Hrun.
  repeat match type of Hrun with
  | (check_niimg ?p ≫= _) _ = _ =>
      let i := fresh "i" in let s1 := fresh "s" in let H := fresh "H" in
      apply bind_inv in Hrun as (i & s1 & H & Hrun);
      apply check_niimg_state in H as ->
  | (lift ?r ≫= _) _ = _ =>
      let i := fresh "i" in let s1 := fresh "s" in let H := fresh "H" in
      apply bind_inv in Hrun as (i & s1 & H & Hrun);
      apply lift_inv in H as [H ->]
  end.
  match goal with
  | H : math_img2 mul_int8 _ _ = Ok _ |- _ => rename H into Hbrain
  end.
  unfold math_img2 in Hbrain.
  destruct (same_fov _ _) eqn:Hfov in Hbrain; [|discriminate].
  injection Hbrain as <-.
  unfold same_fov in Hfov. cbn [dataobj affine] in Hfov.
  apply andb_true_iff in Hfov as [Hshape _].
  injection Hrun as <- <- <-.
  split_and!; [done..|].
  eexists img, _. split_and!; [done|exact Hshape|reflexivity|reflexivity].
Qed.

Lemma same_fov_true {A B} (a : Image A) (b : Image B) :
  same_fov a b = true <->
  shape (dataobj a) = shape (dataobj b) /\
  length (values (dataobj a)) = length (values (dataobj b)) /\
  affine_close (affine a) (affine b) = true.
Proof. unfold same_fov. rewrite andb_true_iff, same_shape_true. tauto. Qed.

Lemma spec_mask_shape `{!MorphologyShape} (gm wm csf skull head : ndarray scalar) :
  same_shape gm wm = true -> same_shape gm csf = true ->
  same_shape gm head = true -> same_shape head skull = true ->
  same_shape gm (spec_mask gm wm csf skull head) = true.
Proof.
  rewrite !same_shape_true. intros [_ Hwm] [_ Hcsf] [_ Hhead] [_ Hskull].
  unfold spec_mask, astype_int8, array_map. cbn [shape values].
  rewrite length_map.
  pose proof (binary_erosion_shape
    (binary_fill_holes (binary_dilation (spec_predicate gm wm csf skull head) 2)) 1)
    as [He1 He2]%same_shape_true.
  pose proof (binary_fill_holes_shape
    (binary_dilation (spec_predicate gm wm csf skull head) 2))
    as [Hf1 Hf2]%same_shape_true.
  pose proof (binary_dilation_shape (spec_predicate gm wm csf skull head) 2)
    as [Hd1 Hd2]%same_shape_true.
  rewrite He1, Hf1, Hd1, He2, Hf2, Hd2. split; [done|].
  unfold spec_predicate. cbn [values].
  rewrite <- staged_predicate, length_map, zip_with3_length;
    rewrite ?length_zip_with, ?length_map; lia.
Qed.

(** *** A run on inputs that load and have one field of view *)

Lemma get_brain_and_mask_run `{!MorphologyShape} (s : fs) (in_file : string)
    (segments : list (list string)) (img gm wm csf skull head : Image scalar) :
  mask_inputs s in_file segments img gm wm csf skull head ->
  let mask_data :=
    spec_mask (dataobj gm) (dataobj wm) (dataobj csf) (dataobj skull) (dataobj head) in
  let out_file := Py.replace in_file ".nii" "_brain.nii" in
  let mask := Py.replace in_file ".nii" "_brainmask.nii" in
  get_brain_and_mask in_file segments s =
    (Ok (out_file, mask),
     {| images :=
          <[mask := Int8Image (Nifti1Image mask_data (affine img) (header img))]>
            (<[out_file := FloatImage
                  (Nifti1Image (spec_brain (dataobj img) mask_data)
                     (affine img) (new_header (header img)))]>
               (images s));
        texts := texts s |}).
Proof.
  intros [(gm_p & wm_p & csf_p & skull_p & head_p & r1 & r2 & r3 & r4 & r5 &
           -> & Hgm & Hwm & Hcsf & Hskull & Hhead)
          Himg Hgw Hhs Hgc Hgh Hig Haff].
  intros mask_data out_file mask. unfold get_brain_and_mask.
  assert (math_img2 sum_ge_quarter gm wm =
          Ok (new_img_like gm (array_map2 sum_ge_quarter (dataobj gm) (dataobj wm))))
    as Hgmwm by (unfold math_img2; by rewrite Hgw).
  assert (math_img2 sum_ge_quarter head skull =
          Ok (new_img_like head
                (array_map2 sum_ge_quarter (dataobj head) (dataobj skull))))
    as Hrest by (unfold math_img2; by rewrite Hhs).
  apply same_fov_true in Hgw as (Hgw1 & Hgw2 & _), Hhs as (Hhs1 & Hhs2 & _),
    Hgc as (Hgc1 & Hgc2 & Hgc3), Hgh as (Hgh1 & Hgh2 & Hgh3).
  assert (math_img3 combine_ge_one
            (new_img_like gm (array_map2 sum_ge_quarter (dataobj gm) (dataobj wm)))
            (new_img_like csf (array_map val_ge_one (dataobj csf)))
            (new_img_like head
               (array_map2 sum_ge_quarter (dataobj head) (dataobj skull))) =
          Ok (new_img_like
                (new_img_like gm
                   (array_map2 sum_ge_quarter (dataobj gm) (dataobj wm)))
                (array_map3 combine_ge_one
                   (array_map2 sum_ge_quarter (dataobj gm) (dataobj wm))
                   (array_map val_ge_one (dataobj csf))
                   (array_map2 sum_ge_quarter (dataobj head) (dataobj skull)))))
    as Hmask.
  { unfold math_img3.
    rewrite !(proj2 (same_fov_true _ _)); [reflexivity|..];
      unfold new_img_like, array_map2, array_map; cbn [dataobj affine shape values];
      rewrite ?length_zip_with, ?length_map; (split_and!; [congruence|lia|done]). }
  assert (math_img2 mul_int8 img (Nifti1Image mask_data (affine img) (header img)) =
          Ok (Nifti1Image (spec_brain (dataobj img) mask_data) (affine img)
                (new_header (header img)))) as Hbrain.
  { unfold math_img2, same_fov. cbn [dataobj affine]. rewrite Haff.
    assert (same_shape (dataobj img) mask_data = true) as ->; [|reflexivity].
    apply same_shape_true in Hig as [Hig1 Hig2].
    pose proof (spec_mask_shape (dataobj gm) (dataobj wm) (dataobj csf)
                  (dataobj skull) (dataobj head)) as Hm.
    rewrite !same_shape_true in Hm. fold mask_data in Hm.
    destruct Hm as [Hm1 Hm2]; [split; congruence..|].
    apply same_shape_true. split; congruence. }
  rewrite (bind_ok _ _ _ _ _ Himg).
  rewrite (bind_ok (lift _) _ s s [gm_p; wm_p; csf_p; skull_p; head_p] eq_refl).
  cbv beta iota.
  rewrite (bind_ok _ _ _ _ _ Hgm), (bind_ok _ _ _ _ _ Hwm).
  rewrite (lift_bind_ok _ _ _ _ Hgmwm).
  rewrite (bind_ok _ _ _ _ _ Hcsf).
  rewrite (lift_bind_ok _ _ _ _ (eq_refl : math_img1 val_ge_one csf = Ok _)).
  rewrite (bind_ok _ _ _ _ _ Hhead), (bind_ok _ _ _ _ _ Hskull).
  rewrite (lift_bind_ok _ _ _ _ Hrest).
  rewrite (lift_bind_ok _ _ _ _ Hmask).
  cbv zeta. cbn [dataobj new_img_like].
  rewrite refine_mask_spec. fold mask_data.
  rewrite (lift_bind_ok _ _ _ _ Hbrain).
  reflexivity.
Qed.

End BrainMask.

Lemma resample_template_run `{SC : Scalars} `{NI : !Nifti} (norm_res : list string)
    (s : fs) (img : Image scalar) :
  nb_load brain_template s = (Ok img, s) ->
  exists s',
    resample_template norm_res s = (Ok tt, s') /\
    images s' !! norm_template norm_res =
      Some (FloatImage
              (let grid := vox2out_vox (dataobj img) (affine img) norm_res in
               let out := resample_img (dataobj img) (affine img) (header img)
                            grid.2 grid.1 in
               Nifti1Image out.1 grid.2 out.2)).
Proof.
  intros Hload. unfold resample_template. rewrite (bind_ok _ _ _ _ _ Hload).
  destruct (vox2out_vox (dataobj img) (affine img) norm_res) as [sh aff].
  cbn [fst snd].
  destruct (resample_img (dataobj img) (affine img) (header img) aff sh) as [data hdr].
  eexists. split; [reflexivity|]. cbn [images fst snd]. apply lookup_insert_eq.
Qed.

Lemma image_path_nodes_spec (n : Workflow.node) :
  Workflow.path Workflow.selectfiles n /\
  (n = Workflow.antsreg \/ Workflow.path n Workflow.antsreg) <->
  n ∈ Workflow.image_path_nodes.
Proof.
  assert (forall u v, bool_decide ((u, v) ∈ Workflow.edges) = true -> Workflow.edge u v)
    as Hedge by (intros u v; apply bool_decide_eq_true_1).
  assert (Workflow.path Workflow.extract_brain Workflow.antsreg) as P7
    by (apply Workflow.path_edge, Hedge; reflexivity).
  assert (Workflow.path Workflow.segment Workflow.antsreg) as P6
    by (apply (Workflow.path_step _ Workflow.extract_brain); [apply Hedge; reflexivity|exact P7]).
  assert (Workflow.path Workflow.gunzip Workflow.antsreg) as P5
    by (apply (Workflow.path_step _ Workflow.segment); [apply Hedge; reflexivity|exact P6]).
  assert (Workflow.path Workflow.n4 Workflow.antsreg) as P4
    by (apply (Workflow.path_step _ Workflow.gunzip); [apply Hedge; reflexivity|exact P5]).
  assert (Workflow.path Workflow.cropFOV Workflow.antsreg) as P3
    by (apply (Workflow.path_step _ Workflow.n4); [apply Hedge; reflexivity|exact P4]).
  assert (Workflow.path Workflow.reorient Workflow.antsreg) as P2
    by (apply (Workflow.path_step _ Workflow.cropFOV); [apply Hedge; reflexivity|exact P3]).
  assert (Workflow.path Workflow.selectfiles Workflow.reorient) as Q2
    by (apply Workflow.path_edge, Hedge; reflexivity).
  assert (forall u v w, Workflow.path u v -> Workflow.edge v w -> Workflow.path u w)
    as Hsnoc.
  { intros u v w Huv Hvw. induction Huv as [u v Huv|u v x Huv _ IH].
    - eapply Workflow.path_step; [exact Huv|by apply Workflow.path_edge].
    - eapply Workflow.path_step; [exact Huv|by apply IH]. }
  assert (Workflow.path Workflow.selectfiles Workflow.cropFOV) as Q3
    by (apply (Hsnoc _ Workflow.reorient); [exact Q2|apply Hedge; reflexivity]).
  assert (Workflow.path Workflow.selectfiles Workflow.n4) as Q4
    by (apply (Hsnoc _ Workflow.cropFOV); [exact Q3|apply Hedge; reflexivity]).
  assert (Workflow.path Workflow.selectfiles Workflow.gunzip) as Q5
    by (apply (Hsnoc _ Workflow.n4); [exact Q4|apply Hedge; reflexivity]).
  assert (Workflow.path Workflow.selectfiles Workflow.segment) as Q6
    by (apply (Hsnoc _ Workflow.gunzip); [exact Q5|apply Hedge; reflexivity]).
  assert (Workflow.path Workflow.selectfiles Workflow.extract_brain) as Q7
    by (apply (Hsnoc _ Workflow.segment); [exact Q6|apply Hedge; reflexivity]).
  assert (Workflow.path Workflow.selectfiles Workflow.antsreg) as Q8
    by (apply (Hsnoc _ Workflow.extract_brain); [exact Q7|apply Hedge; reflexivity]).
  split.
  - intros [Hfrom Hto].
    apply path_rank in Hfrom.
    assert (Workflow.rank n <= Workflow.rank Workflow.antsreg) as Hle.
    { destruct Hto as [->|Hto%path_rank]; lia. }
    destruct n; cbn in Hfrom, Hle; try lia;
      apply (bool_decide_unpack _); by vm_compute.
  - intros Hin.
    destruct n; try (exfalso; revert Hin; apply (bool_decide_unpack _); by vm_compute);
      (split; [assumption|first [by left|by right]]).
Qed.

(** C1: for every combination of subject and session the six processing
    steps run in the order of their dependencies: the selected file is
    reoriented to RAS, the result is cropped, the crop is bias-corrected,
    the gunzipped correction is segmented, the brain is extracted from the
    correction and the segments, and the brain is registered to the
    resampled template.  Between the selected file and the registered
    brain lie these six steps and the gunzip node, and no other node. *)
Theorem six_steps_in_order `{SC : Scalars} `{NI : !Nifti}
    (sp : specs) (layout : Bids.BIDSLayout) :
  Workflow.processing_steps =
    [Workflow.reorient; Workflow.cropFOV; Workflow.n4; Workflow.segment;
     Workflow.extract_brain; Workflow.antsreg] /\
  (forall n,
     Workflow.path Workflow.selectfiles n /\
     (n = Workflow.antsreg \/ Workflow.path n Workflow.antsreg) <->
     n ∈ Workflow.gunzip :: Workflow.processing_steps) /\
  map (Workflow.node_interface sp) Workflow.processing_steps =
    [Workflow.Reorient "RAS";
     Workflow.RobustFOV "NIFTI_GZ";
     Workflow.N4BiasFieldCorrection 3;
     Workflow.NewSegment;
     Workflow.Function ["in_file"; "segments"] ["out_file"; "mask"]
       Workflow.fn_get_brain_and_mask;
     Workflow.Registration (norm_template (vox_res sp)) (n_parallel_jobs sp) 3
       "Linear" ["Rigid"; "Affine"; "SyN"] ["Mattes"; "Mattes"; "CC"]
       [[1000; 500; 250; 100]; [1000; 500; 250; 100]; [100; 70; 50; 20]]%Z
       [[8; 4; 2; 1]; [8; 4; 2; 1]; [8; 4; 2; 1]]%Z] /\
  (forall (s : fs) (img : Image scalar),
     nb_load brain_template s = (Ok img, s) ->
     exists s',
       resample_template (vox_res sp) s = (Ok tt, s') /\
       images s' !! norm_template (vox_res sp) =
         Some (FloatImage
                 (let grid := vox2out_vox (dataobj img) (affine img) (vox_res sp) in
                  let out := resample_img (dataobj img) (affine img) (header img)
                               grid.2 grid.1 in
                  Nifti1Image out.1 grid.2 out.2))) /\
  Forall (fun c => c ∈ Workflow.connections) Workflow.step_connections /\
  exists order,
    run run_plugin sp layout = Some (run_linear order) /\
    Forall (fun comb =>
              Forall (fun n => (comb, n) ∈ order) Workflow.processing_steps /\
              Forall (fun c : Workflow.connection =>
                        finished_before (run_linear order) (comb, c.1.1) (comb, c.1.2))
                Workflow.step_connections)
      (combinations sp layout).
Proof.
  assert (Forall (fun c => c ∈ Workflow.connections) Workflow.step_connections)
    as Hsteps.
  { unfold Workflow.step_connections.
    repeat (constructor; [apply (bool_decide_unpack _); by vm_compute|]).
    constructor. }
  split_and!; [reflexivity| |reflexivity| |done|].
  - intros n. rewrite image_path_nodes_spec.
    unfold Workflow.image_path_nodes, Workflow.processing_steps.
    rewrite !elem_of_cons. tauto.
  - intros s img. apply resample_template_run.
  - destruct (exec_sorted sp layout) as (order & Hsort & _ & Hnodes & Hbefore).
    exists order. unfold run, run_plugin. cbn [String.eqb Ascii.eqb Bool.eqb].
    rewrite Hsort. split; [done|].
    apply Forall_forall. intros comb Hcomb. split.
    + apply Forall_forall. intros n _. by apply Hnodes, elem_of_exec_nodes.
    + apply Forall_forall. intros c Hc.
      apply before_finished_before, Hbefore, elem_of_exec_edges.
      split_and!; [done..|]. cbn.
      rewrite Forall_forall in Hsteps. apply Hsteps in Hc.
      unfold Workflow.edge, Workflow.edges.
      by apply (list_elem_of_fmap_2 (fun c : Workflow.connection => (c.1.1, c.1.2))).
Qed.

Section BrainMaskClaims.
Context `{SC : Scalars} `{NI : !Nifti} `{MO : Morphology}.

(** C2: the mask [get_brain_and_mask] writes is made of the five tissue
    maps alone: the voxelwise predicate
    [((GM + WM >= 0.25) + (CSF >= 1.0) - (head + skull >= 0.25)) >= 1.0],
    dilated twice, its holes filled, eroded once.  The brain it writes is
    the voxelwise product of the image and this mask. *)
Theorem brain_mask_from_tissue_maps `{!MorphologyShape} (s : fs) (in_file : string)
    (segments : list (list string)) (img gm wm csf skull head : Image scalar) :
  mask_inputs s in_file segments img gm wm csf skull head ->
  exists out_file mask s' mask_img brain_img,
    get_brain_and_mask in_file segments s = (Ok (out_file, mask), s') /\
    images s' =
      <[mask := Int8Image mask_img]>
        (<[out_file := FloatImage brain_img]> (images s)) /\
    images s' !! mask = Some (Int8Image mask_img) /\
    (Py.contains ".nii" in_file = true ->
     images s' !! out_file = Some (FloatImage brain_img)) /\
    dataobj mask_img =
      astype_int8
        (binary_erosion
           (binary_fill_holes
              (binary_dilation
                 {| shape := shape (dataobj gm);
                    values :=
                      zip_with5 spec_mask_voxel
                        (values (dataobj gm)) (values (dataobj wm))
                        (values (dataobj csf)) (values (dataobj skull))
                        (values (dataobj head)) |}
                 2))
           1) /\
    shape (dataobj brain_img) = shape (dataobj img) /\
    values (dataobj brain_img) =
      zip_with mul_int8 (values (dataobj img)) (values (dataobj mask_img)).
Proof.
  intros Hin. pose proof (get_brain_and_mask_run _ _ _ _ _ _ _ _ _ Hin) as Hrun.
  cbv zeta in Hrun. do 5 eexists. split; [exact Hrun|]. cbn [images].
  split_and!; try reflexivity.
  - apply lookup_insert_eq.
  - intros Hnii%replace_brain_mask_differ.
    rewrite lookup_insert_ne by done. apply lookup_insert_eq.
Qed.

(** C8, as amended: for every run that returns, the mask is an [int8]
    image of zeros and ones with the affine and the header of the input
    image, and the two files are named after the input, with ['.nii']
    replaced by ['_brain.nii'] and by ['_brainmask.nii'].  The brain
    equals the input where the mask is 1.  Where the mask is 0 the brain
    holds the product of the input voxel and 0: a zero when the input
    voxel is finite, and NaN, which is not zero, when the input voxel is
    NaN or infinite. *)
Theorem brain_mask_is_binary `{!FloatProducts} (in_file : string)
    (segments : list (list string)) (s s' : fs) (out_file mask : string) :
  get_brain_and_mask in_file segments s = (Ok (out_file, mask), s') ->
  out_file = Py.replace in_file ".nii" "_brain.nii" /\
  mask = Py.replace in_file ".nii" "_brainmask.nii" /\
  exists (img : Image scalar) (mask_img : Image Z) (brain_img : Image scalar),
    nb_load in_file s = (Ok img, s) /\
    images s' =
      <[mask := Int8Image mask_img]>
        (<[out_file := FloatImage brain_img]> (images s)) /\
    images s' !! mask = Some (Int8Image mask_img) /\
    (Py.contains ".nii" in_file = true ->
     images s' !! out_file = Some (FloatImage brain_img)) /\
    Forall (fun x => x = 0 \/ x = 1)%Z (values (dataobj mask_img)) /\
    affine mask_img = affine img /\
    header mask_img = header img /\
    length (values (dataobj brain_img)) = length (values (dataobj img)) /\
    forall i,
      (values (dataobj mask_img) !! i = Some 1%Z ->
       values (dataobj brain_img) !! i = values (dataobj img) !! i) /\
      (values (dataobj mask_img) !! i = Some 0%Z ->
       exists x,
         values (dataobj img) !! i = Some x /\
         values (dataobj brain_img) !! i = Some (mul_int8 x 0) /\
         (is_finite x = true -> is_nonzero (mul_int8 x 0) = false) /\
         (is_finite x = false -> is_nonzero (mul_int8 x 0) = true)).
Proof.
  intros (-> & -> & img & data & Himg & Hshape & Himages & _)%get_brain_and_mask_inv.
  split_and!; [done..|].
  eexists img, _, _. split; [exact Himg|]. split; [exact Himages|].
  apply same_shape_true in Hshape as [_ Hlen].
  rewrite Himages. cbn [dataobj affine header spec_brain values].
  split_and!; try reflexivity.
  - apply lookup_insert_eq.
  - intros Hnii%replace_brain_mask_differ.
    rewrite lookup_insert_ne by done. apply lookup_insert_eq.
  - apply astype_int8_binary.
  - rewrite length_zip_with. lia.
  - intros i. rewrite lookup_zip_with. split; intros Hm; rewrite Hm.
    + destruct (values (dataobj img) !! i) as [x|]; [|done].
      cbn. by rewrite mul_int8_1.
    + destruct (lookup_lt_is_Some_2 (values (dataobj img)) i) as [x Hx].
      { apply lookup_lt_Some in Hm. lia. }
      rewrite Hx. cbn. exists x. split; [done|]. split; [done|].
      split; [apply mul_int8_0_finite|apply mul_int8_0_not_finite].
Qed.

End BrainMaskClaims.

(** ** [write_report] *)

Section WriteReport.
Context `{SC : Scalars} `{NI : !Nifti} `{PL : !Plotting}.










End WriteReport.

(** * More properties of the notebook *)

(** ** Paths *)

Lemma replace_scan_absent (old new s : string) :
  Py.contains old s = false -> Py.replace_scan old new 0 s = s.
Proof.
  induction s as [|c s IH]; [done|].
  cbn [Py.contains Py.replace_scan].
  intros [Hpre Hrest]%orb_false_elim. rewrite Hpre. by rewrite IH.
Qed.

(** Where [old] does not occur, [replace] changes nothing. *)
Lemma replace_not_contained (s old new : string) :
  old <> "" -> Py.contains old s = false -> Py.replace s old new = s.
Proof.
  intros Hold Habs. destruct old as [|c o]; [done|].
  by apply replace_scan_absent.
Qed.

Lemma contains_slash_cons (c : ascii) (s : string) :
  Py.contains "/" (String c s) = Ascii.eqb c "/" || Py.contains "/" s.
Proof.
  cbn [Py.contains]. rewrite prefix_cons, prefix_nil.
  destruct (ascii_dec "/" c) as [<-|Hne]; [done|].
  destruct (Ascii.eqb_spec c "/"); [congruence|done].
Qed.

Lemma contains_slash_app (a b : string) :
  Py.contains "/" (a +:+ b) = Py.contains "/" a || Py.contains "/" b.
Proof.
  induction a as [|c a IH].
  - rewrite string_app_nil_l. by destruct b.
  - rewrite string_app_cons, !contains_slash_cons, IH. by rewrite orb_assoc.
Qed.

Lemma contains_slash_join (sep : string) (l : list string) :
  Py.contains "/" sep = false ->
  Forall (fun x => Py.contains "/" x = false) l ->
  Py.contains "/" (Py.str_join sep l) = false.
Proof.
  intros Hsep. induction 1 as [|x l Hx Hl IH]; [done|].
  destruct l as [|y l]; [done|].
  change (Py.str_join sep (x :: y :: l)) with (x +:+ sep +:+ Py.str_join sep (y :: l)).
  by rewrite !contains_slash_app, Hx, Hsep, IH.
Qed.

(** The base name of a file in a folder is the name of the file. *)
Lemma basename_app (dir name : string) :
  Py.contains "/" name = false -> Os.basename (dir +:+ "/" +:+ name) = name.
Proof.
  intros Hname. induction dir as [|c dir IH].
  - rewrite string_app_nil_l, string_app_cons, string_app_nil_l.
    cbn [Os.basename]. by rewrite Hname.
  - rewrite string_app_cons. cbn [Os.basename].
    rewrite contains_slash_app, contains_slash_app, orb_true_r. exact IH.
Qed.

Lemma basename_no_slash (p : string) : Py.contains "/" (Os.basename p) = false.
Proof.
  induction p as [|c p IH]; [done|]. cbn [Os.basename].
  destruct (Py.contains "/" p) eqn:Hp; [done|].
  destruct (Ascii.eqb c "/") eqn:Hc; [done|].
  by rewrite contains_slash_cons, Hc, Hp.
Qed.

Lemma string_app_inj_length (a b x y : string) :
  String.length a = String.length b -> a +:+ x = b +:+ y -> a = b /\ x = y.
Proof.
  revert b. induction a as [|c a IH]; intros [|d b] Hlen Heq; try discriminate Hlen.
  - by rewrite !string_app_nil_l in Heq.
  - rewrite !string_app_cons in Heq. injection Heq as -> Heq.
    injection Hlen as Hlen. destruct (IH _ Hlen Heq) as [-> ->]. done.
Qed.

Lemma create_file_path_eq (subject_id session_id : string) (layout : Bids.BIDSLayout)
    (T1_id : string) :
  create_file_path subject_id session_id layout T1_id =
  Ok ("/data/sub-" +:+ subject_id +:+
      (if String.eqb session_id "" then "" else "/ses-" +:+ session_id) +:+
      "/anat/sub-" +:+ subject_id +:+
      (if String.eqb session_id "" then "" else "_ses-" +:+ session_id) +:+
      "_" +:+ T1_id +:+ ".nii.gz").
Proof.
  destruct (String.eqb_spec session_id "") as [->|Hne].
  - by rewrite create_file_path_no_session.
  - rewrite create_file_path_session by done. by rewrite !string_app_assoc.
Qed.

(** X1: Two subjects never share a file, and neither do two sessions of a
    subject: with the other arguments fixed, [create_file_path] is
    injective in the subject and in the session, the empty session
    included. *)
Theorem create_file_path_injective (layout : Bids.BIDSLayout) (T1_id : string) :
  (forall session_id sub1 sub2,
     create_file_path sub1 session_id layout T1_id =
     create_file_path sub2 session_id layout T1_id -> sub1 = sub2) /\
  (forall subject_id ses1 ses2,
     create_file_path subject_id ses1 layout T1_id =
     create_file_path subject_id ses2 layout T1_id -> ses1 = ses2).
Proof.
  split.
  - intros ses sub1 sub2. rewrite !create_file_path_eq. intros [= Heq].
    assert (String.length sub1 = String.length sub2) as Hlen.
    { apply (f_equal String.length) in Heq.
      rewrite !string_app_length in Heq. lia. }
    by destruct (string_app_inj_length _ _ _ _ Hlen Heq).
  - intros sub ses1 ses2. rewrite !create_file_path_eq. intros [= Heq].
    apply (inj (String.append sub)) in Heq.
    assert (String.length (if String.eqb ses1 "" then "" else "/ses-" +:+ ses1) =
            String.length (if String.eqb ses2 "" then "" else "/ses-" +:+ ses2)) as Hlen.
    { apply (f_equal String.length) in Heq.
      rewrite !string_app_length in Heq.
      destruct (String.eqb ses1 ""), (String.eqb ses2 "");
        rewrite ?string_app_length in *; cbn [String.length] in *; lia. }
    destruct (string_app_inj_length _ _ _ _ Hlen Heq) as [Hses _].
    destruct (String.eqb_spec ses1 "") as [E1|E1];
      destruct (String.eqb_spec ses2 "") as [E2|E2].
    + congruence.
    + discriminate Hses.
    + discriminate Hses.
    + by injection Hses.
Qed.

(** ** The iterator and the datasink *)

Lemma length_flat_map_const {A B C} (f : A -> B -> C) (la : list A) (lb : list B) :
  length (flat_map (fun a => map (f a) lb) la) = length la * length lb.
Proof.
  induction la as [|a la IH]; [done|].
  cbn [flat_map]. rewrite length_app, length_map, IH. cbn [length]. lia.
Qed.

Lemma Forall_flat_map_map {A B C} (P : C -> Prop) (f : A -> B -> C)
    (la : list A) (lb : list B) :
  (forall a b, P (f a b)) -> Forall P (flat_map (fun a => map (f a) lb) la).
Proof.
  intros Hf. induction la as [|a la IH]; [constructor|].
  cbn [flat_map]. apply Forall_app. split; [|done].
  apply Forall_forall. intros c (b & -> & _)%list_elem_of_fmap. apply Hf.
Qed.

(** X2: The iterator yields exactly the pairs of a subject and a session of
    [session_list], which is never empty: there are as many combinations
    as subjects times sessions, a dataset without sessions counting as one
    session, and the execution graph has eleven nodes for each. *)
Theorem combinations_spec (sp : specs) (layout : Bids.BIDSLayout) :
  (forall comb,
     comb ∈ combinations sp layout <->
     exists sub ses,
       sub ∈ subject_list sp /\ ses ∈ session_list layout /\
       comb = [("subject_id", sub); ("session_id", ses)]) /\
  session_list layout <> [] /\
  length (combinations sp layout) =
    length (subject_list sp) * Nat.max 1 (length (Bids.get_sessions layout)) /\
  length (exec_nodes sp layout) = 11 * length (combinations sp layout).
Proof.
  split_and!.
  - intros comb. rewrite combinations_eq, list_elem_of_In, in_flat_map. split.
    + intros (sub & Hsub & Hin). apply in_map_iff in Hin as (ses & <- & Hses).
      exists sub, ses. by rewrite !list_elem_of_In.
    + intros (sub & ses & Hsub & Hses & ->). exists sub.
      rewrite <- list_elem_of_In. split; [done|].
      apply in_map_iff. exists ses. by rewrite <- list_elem_of_In.
  - unfold session_list. cbv zeta. by destruct (Bids.get_sessions layout).
  - rewrite combinations_length. f_equal. unfold session_list. cbv zeta.
    destruct (Bids.get_sessions layout); cbn [length]; lia.
  - unfold exec_nodes.
    etrans; [exact (length_flat_map_const
                      (fun (comb : list (string * string)) (n : Workflow.node) => (comb, n))
                      (combinations sp layout) Workflow.all_nodes)|].
    cbn [length Workflow.all_nodes]. lia.
Qed.

(** X3: No substitution of the datasink has an empty pattern, whatever the
    subjects, the sessions and the image identifier are, so none of them
    can put text between all characters of a path.  The list has nine
    fixed entries, two per subject and four per pair of a subject and a
    session.  The image identifier enters one pattern only: the names the
    last two blocks give hold ['T1w'] whatever the identifier is. *)
Theorem substitutions_patterns (subject_list session_list : list string) (T1_id : string) :
  Forall (fun p => p.1 <> "") (substitutions subject_list session_list T1_id) /\
  length (substitutions subject_list session_list T1_id) =
    9 + 2 * length subject_list + 4 * (length session_list * length subject_list) /\
  forall T1_id', exists before after,
    substitutions subject_list session_list T1_id =
      before ++ ("_" +:+ T1_id +:+ "_corrected", "") :: after /\
    substitutions subject_list session_list T1_id' =
      before ++ ("_" +:+ T1_id' +:+ "_corrected", "") :: after.
Proof.
  unfold substitutions. split_and!.
  - repeat (apply Forall_app; split);
      first [ by apply Forall_flat_map_map
            | by apply Forall_forall; intros p (x & -> & _)%list_elem_of_fmap
            | by repeat constructor ].
  - rewrite !length_app, !length_flat_map_const, !length_map. cbn [length]. lia.
  - intros T1_id'.
    set (renamed :=
           flat_map (fun sess =>
                       map (fun sub =>
                              ("_session_id_" +:+ sess +:+ "_subject_id_" +:+ sub +:+ "/",
                               "sub-" +:+ sub +:+ "/sub-" +:+ sub +:+ "_ses-" +:+ sess
                                 +:+ "_"))
                         subject_list)
             session_list).
    exists (renamed ++ [("_ras", ""); ("_ROI", "")]). eexists.
    split; rewrite <- (app_assoc renamed); reflexivity.
Qed.

(** ** Connections *)

Lemma reachable_path (fuel : nat) (u v : Workflow.node) :
  reachable fuel u v = true -> Workflow.path u v.
Proof.
  revert u. induction fuel as [|fuel IH]; intros u; [done|].
  cbn [reachable]. intros ([a b] & Hin & Hab)%existsb_exists.
  apply list_elem_of_In in Hin.
  apply andb_true_iff in Hab as [Ha%bool_decide_eq_true Hb]. cbn in Ha, Hb. subst a.
  apply orb_true_iff in Hb as [->%bool_decide_eq_true|Hb].
  - by apply Workflow.path_edge.
  - apply (Workflow.path_step _ b); [done|by apply IH].
Qed.

(** X4: All data come from [infosource] and end in [datasink]: [infosource] is
    the only node no connection enters, [datasink] the only node none
    leaves, and every node lies on a path from the one to the other. *)
Theorem workflow_source_and_sink :
  (forall n, Forall (fun e => e.2 <> n) Workflow.edges <-> n = Workflow.infosource) /\
  (forall n, Forall (fun e => e.1 <> n) Workflow.edges <-> n = Workflow.datasink) /\
  (forall n, (n = Workflow.infosource \/ Workflow.path Workflow.infosource n) /\
             (n = Workflow.datasink \/ Workflow.path n Workflow.datasink)).
Proof.
  split_and!.
  - intros n. split.
    + intros Hall. destruct n; try done; exfalso; revert Hall;
        apply (bool_decide_unpack _); by vm_compute.
    + intros ->. apply (bool_decide_unpack _). by vm_compute.
  - intros n. split.
    + intros Hall. destruct n; try done; exfalso; revert Hall;
        apply (bool_decide_unpack _); by vm_compute.
    + intros ->. apply (bool_decide_unpack _). by vm_compute.
  - intros n. split.
    + destruct n; first [by left | right; by apply (reachable_path 11)].
    + destruct n; first [by left | right; by apply (reachable_path 11)].
Qed.

(** X5: No input field of a node receives two connections, and the inputs a
    [Function] node declares are exactly those it is given, each once, by
    a connection or on the node itself. *)
Theorem node_inputs_supplied_once (sp : specs) :
  Forall (fun n => NoDup (connected_inputs n)) Workflow.all_nodes /\
  forall n input_names output_names f,
    Workflow.node_interface sp n = Workflow.Function input_names output_names f ->
    NoDup (supplied_inputs n) /\ input_names ≡ₚ supplied_inputs n.
Proof.
  split; [apply (bool_decide_unpack _); by vm_compute|].
  intros n input_names output_names f.
  destruct n; intros [= <- <- <-];
    (split; apply (bool_decide_unpack _); by vm_compute).
Qed.

(** ** [get_cut_ids]: axes and extent *)

Section CutExtent.
Context `{SC : Scalars} `{NI : !Nifti}.

Lemma tuple_axis_out_of_range (axis : Z) :
  (axis < -3 \/ 2 < axis)%Z -> tuple_axis axis = Raise IndexError.
Proof.
  intros Haxis. unfold tuple_axis.
  repeat match goal with
  | |- context [(axis =? ?k)%Z] => destruct (Z.eqb_spec axis k); [lia|]
  end.
  reflexivity.
Qed.

Lemma tuple_axis_negative (axis : Z) :
  (-3 <= axis <= -1)%Z -> tuple_axis axis = Ok (index_along (axis + 3)).
Proof.
  intros Haxis.
  assert (axis = -3 \/ axis = -2 \/ axis = -1)%Z as [->|[->| ->]] by lia; reflexivity.
Qed.

(** X6: An axis outside -3 .. 2 is refused with an [IndexError].  The axes
    -3, -2 and -1 pass the indexing of the index arrays but match none of
    the three branches that make the cuts: on an image with a nonzero
    voxel the function ends in an [UnboundLocalError], on an image
    without one in the [ValueError] of the minimum. *)
Theorem get_cut_ids_axis_errors (img : Image scalar) (axis : Z) :
  ((axis < -3 \/ 2 < axis)%Z -> get_cut_ids img axis = Raise IndexError) /\
  ((-3 <= axis <= -1)%Z ->
   (Forall (fun x => is_nonzero x = false) (values (dataobj img)) ->
    get_cut_ids img axis = Raise ValueError) /\
   (Exists (fun x => is_nonzero x = true) (values (dataobj img)) ->
    get_cut_ids img axis = Raise UnboundLocalError)).
Proof.
  split.
  - intros Haxis. unfold get_cut_ids. by rewrite tuple_axis_out_of_range.
  - intros Haxis. split.
    + intros Hzero. unfold get_cut_ids.
      rewrite tuple_axis_negative by done. cbn [mbind res_mbind res_bind].
      by rewrite nonzero_nil.
    + intros Hex%nonzero_cons. unfold get_cut_ids.
      rewrite tuple_axis_negative by done. cbn [mbind res_mbind res_bind].
      assert (np_sort (map (index_along (axis + 3)) (nonzero (dataobj img))) <> [])
        as Hne.
      { rewrite np_sort_nil. by destruct (nonzero (dataobj img)). }
      destruct (np_min_spec _ Hne) as (lo & -> & _).
      destruct (np_max_spec _ Hne) as (hi & -> & _).
      cbn [res_bind].
      assert (axis = -3 \/ axis = -2 \/ axis = -1)%Z as [->|[->| ->]] by lia;
        reflexivity.
Qed.





End CutExtent.

(** ** [get_brain_and_mask]: errors and the files it leaves *)

Section MaskStore.
Context `{SC : Scalars} `{NI : !Nifti} `{MO : Morphology}.

Lemma bind_raise_inv {A B} (m : M A) (k : A -> M B) (s s' : fs) (e : exn) :
  (m ≫= k) s = (Raise e, s') ->
  m s = (Raise e, s') \/ exists a s1, m s = (Ok a, s1) /\ k a s1 = (Raise e, s').
Proof.
  unfold mbind, M_bind, bind. destruct (m s) as [[a|e1] s1]; intros Hrun.
  - right. by exists a, s1.
  - left. by injection Hrun as -> ->.
Qed.

Lemma nb_load_raise (path : string) (s s' : fs) (e : exn) :
  nb_load path s = (Raise e, s') ->
  e = FileNotFoundError /\ s' = s /\ images s !! path = None.
Proof.
  unfold nb_load. destruct (images s !! path) as [[img|img]|]; [done..|].
  by intros [= <- <-].
Qed.

Lemma nb_load_is_Some (path : string) (s s' : fs) (img : Image scalar) :
  nb_load path s = (Ok img, s') -> is_Some (images s !! path).
Proof.
  unfold nb_load. destruct (images s !! path) as [st|]; [by eexists|done].
Qed.

Lemma nb_load_None (path : string) (s : fs) :
  images s !! path = None -> nb_load path s = (Raise FileNotFoundError, s).
Proof. intros Hnone. unfold nb_load. by rewrite Hnone. Qed.

Lemma check_niimg_raise (path : string) (s s' : fs) (e : exn) :
  check_niimg path s = (Raise e, s') ->
  e = ValueError /\ s' = s /\ images s !! path = None.
Proof.
  unfold check_niimg. destruct (nb_load path s) as [[img|e1] s1] eqn:Hload; [done|].
  apply nb_load_raise in Hload as (_ & -> & Hnone). by intros [= <- <-].
Qed.

Lemma check_niimg_None (path : string) (s : fs) :
  images s !! path = None -> check_niimg path s = (Raise ValueError, s).
Proof. intros Hnone. unfold check_niimg. by rewrite nb_load_None. Qed.

Lemma check_niimg_is_Some (path : string) (s s' : fs) (img : Image scalar) :
  check_niimg path s = (Ok img, s') -> is_Some (images s !! path).
Proof.
  unfold check_niimg. destruct (nb_load path s) as [[i|e1] s1] eqn:Hload; [|done].
  intros _. by eapply nb_load_is_Some.
Qed.

Lemma lift_raise {A} (r : res A) (s s' : fs) (e : exn) :
  lift r s = (Raise e, s') -> r = Raise e /\ s' = s.
Proof. unfold lift. by intros [= -> ->]. Qed.

Lemma math_img1_ok {A R} (f : A -> R) (img1 : Image A) (e : exn) :
  math_img1 f img1 <> Raise e.
Proof. done. Qed.

Lemma math_img2_raise {A B R} (f : A -> B -> R) (img1 : Image A) (img2 : Image B)
    (e : exn) :
  math_img2 f img1 img2 = Raise e -> e = ValueError /\ same_fov img1 img2 = false.
Proof. unfold math_img2. destruct (same_fov img1 img2); [done|]. by intros [= <-]. Qed.

Lemma math_img3_raise {A B C R} (f : A -> B -> C -> R)
    (img1 : Image A) (img2 : Image B) (img3 : Image C) (e : exn) :
  math_img3 f img1 img2 img3 = Raise e -> e = ValueError.
Proof.
  unfold math_img3. destruct (same_fov img1 img2 && same_fov img1 img3); [done|].
  by intros [= <-].
Qed.

(** [[s[0] for s in segments]] *)
Lemma firsts_raise (segments : list (list string)) (e : exn) :
  mapM_res first_of segments = Raise e -> e = IndexError /\ [] ∈ segments.
Proof.
  induction segments as [|seg segments IH]; [done|].
  cbn [mapM_res]. destruct seg as [|p seg].
  - intros [= <-]. split; [done|left].
  - cbn [first_of mbind res_mbind res_bind].
    destruct (mapM_res first_of segments) as [firsts|e1]; [done|].
    cbn [res_bind]. intros [= ->]. destruct (IH eq_refl) as [-> Hin].
    split; [done|by right].
Qed.

Lemma firsts_ok (segments : list (list string)) (firsts : list string) :
  mapM_res first_of segments = Ok firsts ->
  ([] ∉ segments) /\ Forall2 (fun seg p => head seg = Some p) segments firsts.
Proof.
  revert firsts. induction segments as [|seg segments IH]; intros firsts.
  - intros [= <-]. split; [apply not_elem_of_nil|constructor].
  - cbn [mapM_res]. destruct seg as [|p seg]; [done|].
    cbn [first_of mbind res_mbind res_bind].
    destruct (mapM_res first_of segments) as [rest|e1]; [|done].
    cbn [res_bind]. intros [= <-]. destruct (IH _ eq_refl) as [Hnot Hall].
    split; [|by constructor].
    intros [Hhd|Htl]%elem_of_cons; [done|by apply Hnot].
Qed.

Lemma firsts_of_nonempty (segments : list (list string)) :
  [] ∉ segments ->
  exists firsts, mapM_res first_of segments = Ok firsts /\
                 length firsts = length segments.
Proof.
  induction segments as [|seg segments IH]; intros Hnot.
  - by exists [].
  - destruct seg as [|p seg]; [exfalso; apply Hnot; left|].
    destruct IH as (firsts & Hfirsts & Hlen).
    { intros Hin. apply Hnot. by right. }
    exists (p :: firsts). cbn [mapM_res first_of mbind res_mbind res_bind].
    rewrite Hfirsts. cbn [res_bind length]. by rewrite Hlen.
Qed.

Lemma firsts_empty (segments : list (list string)) :
  [] ∈ segments -> mapM_res first_of segments = Raise IndexError.
Proof.
  intros Hin. destruct (mapM_res first_of segments) as [firsts|e] eqn:Hfirsts.
  - by apply firsts_ok in Hfirsts as [Hnot _].
  - by apply firsts_raise in Hfirsts as [-> _].
Qed.

(** What a run that fails has seen: the image is missing
    ([FileNotFoundError]), a list of segment files is empty
    ([IndexError]), or, with the image and a first file of every list,
    the segments are not five, a file of them is missing or the images
    do not fit ([ValueError]).  Nothing has been written. *)
Lemma get_brain_and_mask_raise (in_file : string) (segments : list (list string))
    (s s' : fs) (e : exn) :
  get_brain_and_mask in_file segments s = (Raise e, s') ->
  s' = s /\
  (e = FileNotFoundError /\ images s !! in_file = None \/
   e = IndexError /\ is_Some (images s !! in_file) /\ [] ∈ segments \/
   e = ValueError /\ is_Some (images s !! in_file) /\ [] ∉ segments).
Proof.
  unfold get_brain_and_mask. intros Hrun.
  apply bind_raise_inv in Hrun as [Hload|(img & s1 & Himg & Hrun)].
  { apply nb_load_raise in Hload as (-> & -> & Hnone). split; [done|by left]. }
  pose proof (nb_load_is_Some _ _ _ _ Himg) as Hsome.
  pose proof (nb_load_state _ _ _ _ Himg) as ->.
  apply bind_raise_inv in Hrun as [Hfirsts|(firsts & s1 & Hfirsts & Hrun)].
  { apply lift_raise in Hfirsts as [[-> Hin]%firsts_raise ->].
    split; [done|]. right. by left. }
  apply lift_inv in Hfirsts as [[Hnot _]%firsts_ok ->].
  cut (s' = s /\ e = ValueError).
  { intros [-> ->]. split; [done|]. right. by right. }
  destruct firsts as [|gm [|wm [|csf [|skull [|head [|]]]]]];
    try (by injection Hrun as <- <-).
  repeat match type of Hrun with
  | (check_niimg ?p ≫= _) _ = _ =>
      let i := fresh "i" in let s1 := fresh "s" in let H := fresh "H" in
      apply bind_raise_inv in Hrun as [H|(i & s1 & H & Hrun)];
      [by apply check_niimg_raise in H as (-> & -> & _)
      |apply check_niimg_state in H as ->]
  | (lift (math_img1 _ _) ≫= _) _ = _ =>
      let i := fresh "i" in let s1 := fresh "s" in let H := fresh "H" in
      apply bind_raise_inv in Hrun as [H|(i & s1 & H & Hrun)];
      [by apply lift_raise in H as [H _]
      |apply lift_inv in H as [_ ->]]
  | (lift (math_img2 _ _ _) ≫= _) _ = _ =>
      let i := fresh "i" in let s1 := fresh "s" in let H := fresh "H" in
      apply bind_raise_inv in Hrun as [H|(i & s1 & H & Hrun)];
      [by apply lift_raise in H as [[-> _]%math_img2_raise ->]
      |apply lift_inv in H as [_ ->]]
  | (lift (math_img3 _ _ _ _) ≫= _) _ = _ =>
      let i := fresh "i" in let s1 := fresh "s" in let H := fresh "H" in
      apply bind_raise_inv in Hrun as [H|(i & s1 & H & Hrun)];
      [by apply lift_raise in H as [->%math_img3_raise ->]
      |apply lift_inv in H as [_ ->]]
  end.
  discriminate Hrun.
Qed.

(** X8: [get_brain_and_mask] writes at the end, and all or nothing: a run
    that fails leaves the files as they were, and fails with one of three
    exceptions; a run that returns has changed no text file and no image
    file but its two outputs. *)
Theorem get_brain_and_mask_all_or_nothing (in_file : string)
    (segments : list (list string)) (s : fs) :
  let r := get_brain_and_mask in_file segments s in
  (forall e, r.1 = Raise e ->
     r.2 = s /\ (e = FileNotFoundError \/ e = IndexError \/ e = ValueError)) /\
  texts r.2 = texts s /\
  (forall p, p <> Py.replace in_file ".nii" "_brain.nii" ->
             p <> Py.replace in_file ".nii" "_brainmask.nii" ->
             images r.2 !! p = images s !! p).
Proof.
  intros r. subst r.
  destruct (get_brain_and_mask in_file segments s) as [[[out_file mask]|e] s'] eqn:Hrun.
  - apply get_brain_and_mask_inv in Hrun
      as (-> & -> & img & data & _ & _ & Himages & Htexts).
    cbn [fst snd]. split; [done|]. split; [done|].
    intros p Hbrain Hmask. rewrite Himages.
    by rewrite !lookup_insert_ne by done.
  - apply get_brain_and_mask_raise in Hrun as [-> Hcases].
    cbn [fst snd]. split; [|done].
    intros e' [= <-]. split; [done|].
    destruct Hcases as [[-> _]|[[-> _]|[-> _]]]; tauto.
Qed.

(** X9: The errors of the arguments, in the order in which the function
    meets them: a missing image, an empty list of segment files, a number
    of segments other than five, a missing segment file.  The files stay
    as they were. *)
Theorem get_brain_and_mask_input_errors (in_file : string)
    (segments : list (list string)) (s : fs) :
  (images s !! in_file = None ->
   get_brain_and_mask in_file segments s = (Raise FileNotFoundError, s)) /\
  (is_Some (images s !! in_file) ->
   ([] ∈ segments ->
    get_brain_and_mask in_file segments s = (Raise IndexError, s)) /\
   ([] ∉ segments -> length segments <> 5 ->
    get_brain_and_mask in_file segments s = (Raise ValueError, s)) /\
   (forall firsts,
      Forall2 (fun seg p => head seg = Some p) segments firsts ->
      Exists (fun p => images s !! p = None) firsts ->
      get_brain_and_mask in_file segments s = (Raise ValueError, s))).
Proof.
  split.
  { intros Hnone. unfold get_brain_and_mask, mbind, M_bind, bind.
    by rewrite nb_load_None. }
  intros Hsome.
  assert (exists img, nb_load in_file s = (Ok img, s)) as [img Himg].
  { unfold nb_load. destruct Hsome as [[i|i] ->]; by eexists. }
  split_and!.
  - intros Hin. unfold get_brain_and_mask.
    rewrite (bind_ok _ _ _ _ _ Himg).
    unfold mbind at 1, M_bind, bind, lift. by rewrite firsts_empty.
  - intros Hnot Hlen. unfold get_brain_and_mask.
    rewrite (bind_ok _ _ _ _ _ Himg).
    destruct (firsts_of_nonempty _ Hnot) as (firsts & Hfirsts & Hlen').
    rewrite (lift_bind_ok _ _ _ _ Hfirsts).
    destruct firsts as [|gm [|wm [|csf [|skull [|head [|]]]]]]; try reflexivity.
    cbn [length] in Hlen'. congruence.
  - intros firsts Hall Hex.
    destruct (get_brain_and_mask in_file segments s)
      as [[[out_file mask]|e] s'] eqn:Hrun.
    + exfalso. unfold get_brain_and_mask in Hrun.
      rewrite (bind_ok _ _ _ _ _ Himg) in Hrun.
      apply bind_inv in Hrun as (firsts' & s1 & Hfirsts & Hrun).
      apply lift_inv in Hfirsts as [[_ Hall']%firsts_ok ->].
      assert (firsts' = firsts) as ->.
      { clear -Hall Hall'. revert firsts' Hall'.
        induction Hall as [|seg p segments firsts Hp _ IH]; intros firsts' Hall';
          inversion Hall' as [|? p' ? rest Hp' Hrest]; subst; [done|].
        f_equal; [congruence|by apply IH]. }
      destruct firsts as [|gm [|wm [|csf [|skull [|head [|]]]]]];
        try discriminate Hrun.
      repeat match type of Hrun with
      | (check_niimg ?p ≫= _) _ = _ =>
          let i := fresh "i" in let s1 := fresh "s" in let H := fresh "H" in
          apply bind_inv in Hrun as (i & s1 & H & Hrun);
          pose proof (check_niimg_is_Some _ _ _ _ H);
          apply check_niimg_state in H as ->
      | (lift ?r ≫= _) _ = _ =>
          let i := fresh "i" in let s1 := fresh "s" in let H := fresh "H" in
          apply bind_inv in Hrun as (i & s1 & H & Hrun);
          apply lift_inv in H as [H ->]
      end.
      rewrite !Exists_cons, Exists_nil in Hex.
      destruct Hex as [Hn|[Hn|[Hn|[Hn|[Hn|[]]]]]]; rewrite Hn in *;
        match goal with
        | H : is_Some None |- _ => by destruct H
        end.
    + apply get_brain_and_mask_raise in Hrun as [-> Hcases]. f_equal.
      destruct Hcases as [[_ Hnone]|[(_ & _ & Hin)|(-> & _)]]; [| |done].
      * rewrite Hnone in Hsome. by destruct Hsome.
      * exfalso. clear -Hall Hin.
        induction Hall as [|seg p segments firsts Hp _ IH];
          [by apply elem_of_nil in Hin|].
        apply elem_of_cons in Hin as [<-|Hin]; [done|by apply IH].
Qed.

Lemma prefix_app_inv (p s : string) :
  String.prefix p s = true -> exists r, s = p +:+ r.
Proof.
  revert s. induction p as [|a p IH]; intros s.
  - intros _. by exists s.
  - destruct s as [|b s]; [done|]. rewrite prefix_cons.
    destruct (ascii_dec a b) as [->|]; [|done].
    intros [r ->]%IH. exists r. by rewrite string_app_cons.
Qed.

(** Replacing an occurrence of [old] by a text that does not begin as
    [old] does changes the string. *)
Lemma replace_scan_changes (old new s : string) :
  (forall r1 r2, new +:+ r1 <> old +:+ r2) ->
  Py.contains old s = true ->
  Py.replace_scan old new 0 s <> s.
Proof.
  intros Hnew. induction s as [|c s IH]; intros Hocc.
  - destruct old as [|a old]; [|discriminate Hocc].
    exfalso. by apply (Hnew "" new), string_app_nil_r.
  - cbn [Py.contains] in Hocc. cbn [Py.replace_scan].
    destruct (String.prefix old (String c s)) eqn:Hpre.
    + apply prefix_app_inv in Hpre as [r ->]. apply Hnew.
    + cbn in Hocc. intros [=]. by apply IH.
Qed.

(** X10: The input file and the outputs.  Where the name of the input holds
    ['.nii'], the outputs are two new names and the input stays as it
    was.  Where it does not, both outputs are the input itself: the
    brain is written over the input, the mask over the brain, and the
    input ends as the mask. *)
Theorem get_brain_and_mask_input_file (in_file : string)
    (segments : list (list string)) (s s' : fs) (out_file mask : string) :
  get_brain_and_mask in_file segments s = (Ok (out_file, mask), s') ->
  (Py.contains ".nii" in_file = true ->
   out_file <> in_file /\ mask <> in_file /\ out_file <> mask /\
   images s' !! in_file = images s !! in_file) /\
  (Py.contains ".nii" in_file = false ->
   out_file = in_file /\ mask = in_file /\
   exists mask_img, images s' !! in_file = Some (Int8Image mask_img) /\
     forall p, p <> in_file -> images s' !! p = images s !! p).
Proof.
  intros (-> & -> & img & data & _ & _ & Himages & _)%get_brain_and_mask_inv.
  split.
  - intros Hnii.
    assert (Py.replace in_file ".nii" "_brain.nii" <> in_file) as Hbrain.
    { apply replace_scan_changes; [|done].
      intros r1 r2. rewrite !string_app_cons. congruence. }
    assert (Py.replace in_file ".nii" "_brainmask.nii" <> in_file) as Hmask.
    { apply replace_scan_changes; [|done].
      intros r1 r2. rewrite !string_app_cons. congruence. }
    split_and!; [done|done|by apply replace_brain_mask_differ|].
    rewrite Himages. by rewrite !lookup_insert_ne by done.
  - intros Hnii. rewrite !replace_not_contained in * by done.
    split_and!; [done..|]. eexists. rewrite Himages. split.
    + apply lookup_insert_eq.
    + intros p Hp. by rewrite !lookup_insert_ne by done.
Qed.

End MaskStore.

(** ** [write_report]: the files it touches and its failures *)

Section ReportStore.
Context `{SC : Scalars} `{NI : !Nifti} `{PL : !Plotting}.

(** *** Computations that keep the image files *)

Lemma keeps_images_bind {A B} (m : M A) (k : A -> M B) :
  keeps_images m -> (forall a, keeps_images (k a)) -> keeps_images (m ≫= k).
Proof.
  intros Hm Hk s. specialize (Hm s). unfold mbind, M_bind, bind.
  destruct (m s) as [[a|e] s1]; cbn [snd] in *; [|done].
  by rewrite Hk.
Qed.

Lemma keeps_images_ret {A} (a : A) : keeps_images (ret a).
Proof. by intros s. Qed.

Lemma keeps_images_lift {A} (r : res A) : keeps_images (lift r).
Proof. by intros s. Qed.

Lemma keeps_images_nb_load (path : string) : keeps_images (nb_load path).
Proof.
  intros s. destruct (nb_load path s) as [r s1] eqn:Hload.
  by rewrite (nb_load_state _ _ _ _ Hload).
Qed.

Lemma keeps_images_check_niimg (path : string) : keeps_images (check_niimg path).
Proof.
  intros s. destruct (check_niimg path s) as [r s1] eqn:Hload.
  by rewrite (check_niimg_state _ _ _ _ Hload).
Qed.

Lemma keeps_images_read_text (path : string) : keeps_images (read_text path).
Proof. intros s. unfold read_text. by destruct (texts s !! path). Qed.

Lemma keeps_images_write_text (path txt : string) : keeps_images (write_text path txt).
Proof. by intros s. Qed.

Lemma keeps_images_savefig (panels : list panel) (path : string) :
  keeps_images (savefig panels path).
Proof. apply keeps_images_write_text. Qed.

Lemma keeps_images_mapM {A B} (f : A -> M B) (l : list A) :
  (forall a, keeps_images (f a)) -> keeps_images (mapM_M f l).
Proof.
  intros Hf. induction l as [|a l IH]; cbn [mapM_M].
  - apply keeps_images_ret.
  - apply keeps_images_bind; [apply Hf|intros b].
    apply keeps_images_bind; [apply IH|intros bs]. apply keeps_images_ret.
Qed.

(** *** Computations that write text files within given paths *)

Lemma writes_texts_bind {A B} (paths : list string) (m : M A) (k : A -> M B) :
  writes_texts_within paths m -> (forall a, writes_texts_within paths (k a)) ->
  writes_texts_within paths (m ≫= k).
Proof.
  intros Hm Hk s p Hp. specialize (Hm s p Hp). unfold mbind, M_bind, bind.
  destruct (m s) as [[a|e] s1]; cbn [snd] in *; [|done].
  by rewrite Hk.
Qed.

Lemma writes_texts_ret {A} (paths : list string) (a : A) :
  writes_texts_within paths (ret a).
Proof. by intros s p _. Qed.

Lemma writes_texts_lift {A} (paths : list string) (r : res A) :
  writes_texts_within paths (lift r).
Proof. by intros s p _. Qed.

Lemma writes_texts_nb_load (paths : list string) (path : string) :
  writes_texts_within paths (nb_load path).
Proof.
  intros s p _. destruct (nb_load path s) as [r s1] eqn:Hload.
  by rewrite (nb_load_state _ _ _ _ Hload).
Qed.

Lemma writes_texts_check_niimg (paths : list string) (path : string) :
  writes_texts_within paths (check_niimg path).
Proof.
  intros s p _. destruct (check_niimg path s) as [r s1] eqn:Hload.
  by rewrite (check_niimg_state _ _ _ _ Hload).
Qed.

Lemma writes_texts_read_text (paths : list string) (path : string) :
  writes_texts_within paths (read_text path).
Proof. intros s p _. unfold read_text. by destruct (texts s !! path). Qed.

Lemma writes_texts_write_text (paths : list string) (path txt : string) :
  path ∈ paths -> writes_texts_within paths (write_text path txt).
Proof.
  intros Hin s p Hp. cbn [write_text snd texts].
  apply lookup_insert_ne. by intros ->.
Qed.

Lemma writes_texts_savefig (paths : list string) (panels : list panel) (path : string) :
  path ∈ paths -> writes_texts_within paths (savefig panels path).
Proof. apply writes_texts_write_text. Qed.

Lemma writes_texts_mapM {A B} (paths : list string) (f : A -> M B) (l : list A) :
  (forall a, writes_texts_within paths (f a)) ->
  writes_texts_within paths (mapM_M f l).
Proof.
  intros Hf. induction l as [|a l IH]; cbn [mapM_M].
  - apply writes_texts_ret.
  - apply writes_texts_bind; [apply Hf|intros b].
    apply writes_texts_bind; [apply IH|intros bs]. apply writes_texts_ret.
Qed.

Ltac store_step :=
  first
    [ apply keeps_images_bind; [|intros ?]
    | apply keeps_images_mapM; intros ?
    | apply keeps_images_ret | apply keeps_images_lift
    | apply keeps_images_nb_load | apply keeps_images_check_niimg
    | apply keeps_images_read_text | apply keeps_images_write_text
    | apply keeps_images_savefig
    | apply writes_texts_bind; [|intros ?]
    | apply writes_texts_mapM; intros ?
    | apply writes_texts_ret | apply writes_texts_lift
    | apply writes_texts_nb_load | apply writes_texts_check_niimg
    | apply writes_texts_read_text
    | apply writes_texts_write_text; rewrite !elem_of_cons; tauto
    | apply writes_texts_savefig; rewrite !elem_of_cons; tauto
    | match goal with
      | |- context [let '(_, _) := ?x in _] => destruct x
      end ].

Lemma write_report_keeps_images (sub sess n4 : string) (segments : list (list string))
    (brain T1_template warped_file : string) :
  keeps_images (write_report sub sess n4 segments brain T1_template warped_file).
Proof. unfold write_report; cbv zeta; repeat store_step. Qed.

(** X11: Whatever its arguments and the files, and whether it returns or
    fails, [write_report] changes no image file, and no text file but
    its three figures and the report. *)
Theorem write_report_store (sub sess n4 : string) (segments : list (list string))
    (brain T1_template warped_file : string) :
  keeps_images (write_report sub sess n4 segments brain T1_template warped_file) /\
  writes_texts_within
    [Py.replace brain "brain.nii.gz" "segmentation.svg";
     Py.replace brain ".nii.gz" ".svg";
     Py.replace warped_file ".nii.gz" ".svg";
     report_file sub sess]
    (write_report sub sess n4 segments brain T1_template warped_file).
Proof.
  split; unfold write_report; cbv zeta; repeat store_step.
Qed.

(** *** Failures *)

Lemma bind_raise {A B} (m : M A) (k : A -> M B) (s s1 : fs) (e : exn) :
  m s = (Raise e, s1) -> (m ≫= k) s = (Raise e, s1).
Proof. intros Hm. unfold mbind, M_bind, bind. by rewrite Hm. Qed.

Lemma segments_run (s : fs) (segments : list (list string)) (brain : string)
    (img : Image scalar) (segs : list (Image scalar)) :
  segmentation_inputs s segments brain img segs ->
  mapM_M (fun k => p ← lift (segment_path segments k); nb_load p)
    [0; 1; 2; 3; 4]%nat s = (Ok segs, s).
Proof.
  intros [_ (p0 & p1 & p2 & p3 & p4 & r0 & r1 & r2 & r3 & r4 & rest &
             s0 & s1 & s2 & s3 & s4 & -> & -> & H0 & H1 & H2 & H3 & H4) _].
  assert (forall k p sk,
            segment_path ((p0 :: r0) :: (p1 :: r1) :: (p2 :: r2) :: (p3 :: r3)
                          :: (p4 :: r4) :: rest) k = Ok p ->
            nb_load p s = (Ok sk, s) ->
            (lift (segment_path ((p0 :: r0) :: (p1 :: r1) :: (p2 :: r2)
                                 :: (p3 :: r3) :: (p4 :: r4) :: rest) k)
             ≫= fun p => nb_load p) s = (Ok sk, s)) as Hseg.
  { intros k p sk Hp Hload. by rewrite (lift_bind_ok _ _ _ _ Hp). }
  cbn [mapM_M].
  erewrite bind_ok by (by eapply (Hseg 0)).
  erewrite (bind_ok (_ ≫= _)); [reflexivity|].
  erewrite bind_ok by (by eapply (Hseg 1)).
  erewrite (bind_ok (_ ≫= _)); [reflexivity|].
  erewrite bind_ok by (by eapply (Hseg 2)).
  erewrite (bind_ok (_ ≫= _)); [reflexivity|].
  erewrite bind_ok by (by eapply (Hseg 3)).
  erewrite (bind_ok (_ ≫= _)); [reflexivity|].
  erewrite bind_ok by (by eapply (Hseg 4)).
  reflexivity.
Qed.

(** X12: The failures before anything is written: without the brain image
    the report fails with a [FileNotFoundError]; with a brain image that
    has no nonzero voxel it fails with the [ValueError] of the minimum of
    an empty array, in the first call of [get_cut_ids].  The files stay
    as they were. *)
Theorem write_report_early_failures (s : fs) (sub sess n4 : string)
    (segments : list (list string)) (brain T1_template warped_file : string) :
  (images s !! brain = None ->
   write_report sub sess n4 segments brain T1_template warped_file s =
     (Raise FileNotFoundError, s)) /\
  (forall img segs,
     segmentation_inputs s segments brain img segs ->
     Forall (fun x => is_nonzero x = false) (values (dataobj img)) ->
     write_report sub sess n4 segments brain T1_template warped_file s =
       (Raise ValueError, s)).
Proof.
  split.
  - intros Hnone. unfold write_report. cbv zeta.
    apply bind_raise. unfold nb_load. by rewrite Hnone.
  - intros img segs Hin Hzero. pose proof (segments_run _ _ _ _ _ Hin) as Hsegs.
    destruct Hin as [Hbrain _ Hshapes].
    unfold write_report. cbv zeta.
    rewrite (bind_ok _ _ _ _ _ Hbrain).
    rewrite (bind_ok _ _ _ _ _ Hsegs).
    erewrite lift_bind_ok; cycle 1.
    { unfold label_image. by rewrite Hshapes. }
    apply bind_raise. unfold axes_xyz. cbn [mapM_M].
    apply bind_raise. apply bind_raise.
    unfold lift. by rewrite get_cut_ids_empty by (done || lia).
Qed.


End ReportStore.

(** ** The label image of the segmentation *)

Section LabelImage.
Context `{SC : Scalars} `{NI : !Nifti}.

Lemma stack_last_lookup (arrays : list (list scalar)) (k : nat) (col : list scalar) :
  stack_last arrays !! k = Some col ->
  Forall2 (fun arr v => arr !! k = Some v) arrays col.
Proof.
  revert col. induction arrays as [|a rest IH]; intros col; [done|].
  destruct rest as [|b rest].
  - cbn [stack_last]. rewrite list_lookup_fmap.
    destruct (a !! k) as [x|] eqn:Hx; [|done].
    intros [= <-]. by repeat constructor.
  - change (stack_last (a :: b :: rest))
      with (zip_with cons a (stack_last (b :: rest))).
    intros (x & y & -> & Hx & Hy)%lookup_zip_with_Some.
    constructor; [done|by apply IH].
Qed.

Lemma stack_last_length (arrays : list (list scalar)) (n : nat) :
  arrays <> [] -> Forall (fun a => length a = n) arrays ->
  length (stack_last arrays) = n.
Proof.
  induction arrays as [|a rest IH]; [done|intros _ Hall].
  apply Forall_cons in Hall as [Ha Hrest]. destruct rest as [|b rest].
  - cbn [stack_last]. by rewrite length_map.
  - change (stack_last (a :: b :: rest))
      with (zip_with cons a (stack_last (b :: rest))).
    rewrite length_zip_with, IH by done. lia.
Qed.

Lemma argmax_from_bound (best : scalar) (best_i i : nat) (l : list scalar) :
  best_i < i -> argmax_from best best_i i l < i + length l.
Proof.
  revert best best_i i. induction l as [|x l IH]; intros best best_i i Hlt.
  - cbn [argmax_from length]. lia.
  - cbn [argmax_from length]. destruct (less best x).
    + specialize (IH x i (S i)). lia.
    + specialize (IH best best_i (S i)). lia.
Qed.

Lemma argmax_from_keep (best : scalar) (best_i i : nat) (l : list scalar) :
  Forall (fun x => less best x = false) l -> argmax_from best best_i i l = best_i.
Proof.
  revert i. induction l as [|x l IH]; intros i Hall; [done|].
  apply Forall_cons in Hall as [Hx Hl]. cbn [argmax_from]. rewrite Hx. by apply IH.
Qed.

Lemma argmax_bound (x : scalar) (l : list scalar) :
  (0 <= argmax (x :: l) <= Z.of_nat (length l))%Z.
Proof.
  cbn [argmax]. pose proof (argmax_from_bound x 0 1 l). lia.
Qed.

Lemma column_values (k : nat) (P : scalar -> Prop) (segs : list (Image scalar))
    (vs : list scalar) :
  Forall2 (fun arr v => arr !! k = Some v) (map (fun s => values (dataobj s)) segs) vs ->
  Forall (fun seg => forall v, values (dataobj seg) !! k = Some v -> P v) segs ->
  Forall P vs.
Proof.
  revert vs. induction segs as [|seg segs IH]; intros vs Hcol Hall.
  - inversion Hcol. constructor.
  - cbn [map] in Hcol. inversion Hcol as [|? v ? vs' Hv Hvs]; subst.
    apply Forall_cons in Hall as [Hseg Hsegs].
    constructor; [by apply Hseg|by apply IH].
Qed.

(** X14: The label image [write_report] draws: [np.stack] refuses tissue maps
    of another shape than the brain ([ValueError]); otherwise the image
    has the shape, the affine and the header of the brain and a label
    for every voxel.  A label is the background 0 or the position 1, 2,
    ... of a tissue map, and it is 0 wherever no tissue map is above
    zero. *)
Theorem label_image_spec (img : Image scalar) (segs : list (Image scalar)) :
  (Exists (fun seg => same_shape (dataobj img) (dataobj seg) = false) segs ->
   label_image img segs = Raise ValueError) /\
  (Forall (fun seg => same_shape (dataobj img) (dataobj seg) = true) segs ->
   exists lab,
     label_image img segs = Ok lab /\
     shape (dataobj lab) = shape (dataobj img) /\
     affine lab = affine img /\ header lab = header img /\
     length (values (dataobj lab)) = length (values (dataobj img)) /\
     forall k l,
       values (dataobj lab) !! k = Some l ->
       (0 <= l <= Z.of_nat (length segs))%Z /\
       (Forall (fun seg => forall v, values (dataobj seg) !! k = Some v ->
                                     less zero v = false) segs ->
        l = 0%Z)).
Proof.
  split.
  - intros Hex. unfold label_image.
    assert (forallb (fun s => same_shape (dataobj img) (dataobj s)) segs = false)
      as ->; [|done].
    apply not_true_is_false. rewrite forallb_forall.
    apply Exists_exists in Hex as (seg & Hin & Hseg). intros Hall.
    apply list_elem_of_In in Hin. apply Hall in Hin. congruence.
  - intros Hall. unfold label_image.
    assert (forallb (fun s => same_shape (dataobj img) (dataobj s)) segs = true)
      as ->.
    { rewrite forallb_forall. rewrite Forall_forall in Hall.
      intros seg Hin. by apply Hall, list_elem_of_In. }
    eexists. split; [reflexivity|]. cbn [dataobj shape values affine header].
    split_and!; [done..| |].
    + rewrite length_map. apply stack_last_length; [done|].
      constructor; [by rewrite length_map|].
      rewrite Forall_fmap. eapply Forall_impl; [exact Hall|].
      intros seg [_ Hlen]%same_shape_true. cbn. done.
    + intros k l. rewrite list_lookup_fmap.
      destruct (stack_last _ !! k) as [col|] eqn:Hcol; [|done].
      intros [= <-]. apply stack_last_lookup in Hcol.
      inversion Hcol as [|? c0 ? vs Hc0 Hvs]; subst.
      rewrite list_lookup_fmap in Hc0.
      destruct (values (dataobj img) !! k); [|done]. injection Hc0 as <-.
      apply Forall2_length in Hvs as Hlen. rewrite length_map in Hlen.
      split.
      * rewrite Hlen. apply argmax_bound.
      * intros Hzero. cbn [argmax].
        rewrite argmax_from_keep; [done|].
        by apply (column_values k _ segs).
Qed.

End LabelImage.

(** ** The template: resampled and moved *)

Section Template.
Context `{SC : Scalars} `{NI : !Nifti}.

Lemma norm_template_eq (norm_res : list string) :
  norm_template norm_res =
  "/templates/mni_icbm152_nlin_asym_09c" +:+ "/" +:+
    ("template_brain_" +:+ Py.str_join "_" norm_res +:+ ".nii.gz").
Proof. reflexivity. Qed.

Lemma template_name_no_slash (norm_res : list string) :
  Forall (fun x => Py.contains "/" x = false) norm_res ->
  Py.contains "/" ("template_brain_" +:+ Py.str_join "_" norm_res +:+ ".nii.gz")
  = false.
Proof.
  intros Hres. rewrite !contains_slash_app.
  by rewrite (contains_slash_join "_" norm_res eq_refl Hres).
Qed.

Lemma template_new_path_eq (norm_res : list string) :
  Forall (fun x => Py.contains "/" x = false) norm_res ->
  template_new_path norm_res =
  "/data/derivatives/fmriflows/preproc_anat/template_brain_"
    +:+ Py.str_join "_" norm_res +:+ ".nii.gz".
Proof.
  intros Hres. unfold template_new_path.
  rewrite norm_template_eq, basename_app by by apply template_name_no_slash.
  reflexivity.
Qed.

Lemma norm_template_not_source (norm_res : list string) :
  norm_template norm_res <> brain_template.
Proof.
  intros Heq. apply (f_equal (String.get 37)) in Heq. discriminate Heq.
Qed.

Lemma template_paths_differ (norm_res : list string) :
  norm_template norm_res <> template_new_path norm_res.
Proof.
  intros Heq. apply (f_equal (String.get 1)) in Heq. discriminate Heq.
Qed.

(** X15: The cell that resamples the template fails with a
    [FileNotFoundError] and writes nothing when the template is not
    there.  When it returns it has written one image file, which is not
    the template it read, and has left every other file as it was. *)
Theorem resample_template_store (norm_res : list string) (s : fs) :
  norm_template norm_res <> brain_template /\
  (images s !! brain_template = None ->
   resample_template norm_res s = (Raise FileNotFoundError, s)) /\
  (is_Some (images s !! brain_template) ->
   exists s',
     resample_template norm_res s = (Ok tt, s') /\
     is_Some (images s' !! norm_template norm_res) /\
     texts s' = texts s /\
     forall p, p <> norm_template norm_res -> images s' !! p = images s !! p).
Proof.
  split; [apply norm_template_not_source|]. split.
  - intros Hnone. unfold resample_template, mbind, M_bind, bind, nb_load.
    by rewrite Hnone.
  - intros Hsome.
    assert (exists img, nb_load brain_template s = (Ok img, s)) as [img Himg].
    { unfold nb_load. destruct Hsome as [[i|i] ->]; by eexists. }
    unfold resample_template. rewrite (bind_ok _ _ _ _ _ Himg).
    destruct (vox2out_vox (dataobj img) (affine img) norm_res) as [sh aff].
    destruct (resample_img (dataobj img) (affine img) (header img) aff sh)
      as [data hdr].
    eexists. split; [reflexivity|]. cbn [images texts]. split_and!.
    + rewrite lookup_insert_eq. by eexists.
    + done.
    + intros p Hp. by rewrite lookup_insert_ne.
Qed.

(** X16: The last cell moves the resampled template into the output folder
    under its own name.  For voxel sizes whose text holds no slash the
    new path is
    [/data/derivatives/fmriflows/preproc_anat/template_brain_<sizes>.nii.gz].
    The file is then at the new path and no longer in the template
    folder; every other file is as it was.  Without the resampled
    template the move fails with a [FileNotFoundError]. *)
Theorem save_template_spec (norm_res : list string) (s : fs) :
  Forall (fun x => Py.contains "/" x = false) norm_res ->
  template_new_path norm_res =
    "/data/derivatives/fmriflows/preproc_anat/template_brain_"
      +:+ Py.str_join "_" norm_res +:+ ".nii.gz" /\
  (images s !! norm_template norm_res = None ->
   save_template norm_res s = (Raise FileNotFoundError, s)) /\
  (forall img,
     images s !! norm_template norm_res = Some img ->
     exists s',
       save_template norm_res s = (Ok tt, s') /\
       images s' !! template_new_path norm_res = Some img /\
       images s' !! norm_template norm_res = None /\
       texts s' = texts s /\
       forall p, p <> norm_template norm_res -> p <> template_new_path norm_res ->
                 images s' !! p = images s !! p).
Proof.
  intros Hres. split; [by apply template_new_path_eq|]. split.
  - intros Hnone. unfold save_template, shutil_move. by rewrite Hnone.
  - intros img Himg. unfold save_template, shutil_move. rewrite Himg.
    eexists. split; [reflexivity|]. cbn [images texts].
    pose proof (template_paths_differ norm_res) as Hdiff. split_and!.
    + apply lookup_insert_eq.
    + rewrite lookup_insert_ne by done. apply lookup_delete_eq.
    + done.
    + intros p Hp1 Hp2. rewrite lookup_insert_ne by done.
      by rewrite lookup_delete_ne.
Qed.

End Template.

(** ** What the notebook computes itself *)

Section OwnCode.
Context `{SC : Scalars} `{NI : !Nifti} `{MO : Morphology} `{PL : !Plotting}.

(** A run of [get_brain_and_mask] that returns has loaded the image and
    the first file of five segment lists, and has written the mask made
    of the five tissue maps and the product of the image and the mask:
    nothing else reaches the two files. *)
Lemma get_brain_and_mask_sources (in_file : string) (segments : list (list string))
    (s s' : fs) (out_file mask : string) :
  get_brain_and_mask in_file segments s = (Ok (out_file, mask), s') ->
  exists (img gm wm csf skull head : Image scalar)
         (gm_p wm_p csf_p skull_p head_p : string),
    mapM_res first_of segments = Ok [gm_p; wm_p; csf_p; skull_p; head_p] /\
    nb_load in_file s = (Ok img, s) /\
    check_niimg gm_p s = (Ok gm, s) /\ check_niimg wm_p s = (Ok wm, s) /\
    check_niimg csf_p s = (Ok csf, s) /\ check_niimg skull_p s = (Ok skull, s) /\
    check_niimg head_p s = (Ok head, s) /\
    let mask_data :=
      spec_mask (dataobj gm) (dataobj wm) (dataobj csf) (dataobj skull) (dataobj head) in
    images s' =
      <[mask := Int8Image (Nifti1Image mask_data (affine img) (header img))]>
        (<[out_file := FloatImage
              (Nifti1Image (spec_brain (dataobj img) mask_data) (affine img)
                 (new_header (header img)))]>
           (images s)) /\
    texts s' = texts s.
Proof.
  unfold get_brain_and_mask. intros Hrun.
  apply bind_inv in Hrun as (img & s1 & Himg & Hrun).
  pose proof (nb_load_state _ _ _ _ Himg) as ->.
  apply bind_inv in Hrun as (firsts & s1 & Hfirsts & Hrun).
  apply lift_inv in Hfirsts as [Hfirsts ->].
  destruct firsts as [|gm_p [|wm_p [|csf_p [|skull_p [|head_p [|]]]]]];
    try discriminate Hrun.
  apply bind_inv in Hrun as (gm & s1 & Hgm & Hrun).
  pose proof (check_niimg_state _ _ _ _ Hgm) as ->.
  apply bind_inv in Hrun as (wm & s1 & Hwm & Hrun).
  pose proof (check_niimg_state _ _ _ _ Hwm) as ->.
  apply bind_inv in Hrun as (img_gmwm & s1 & Hgmwm & Hrun).
  apply lift_inv in Hgmwm as [Hgmwm ->].
  apply bind_inv in Hrun as (csf & s1 & Hcsf & Hrun).
  pose proof (check_niimg_state _ _ _ _ Hcsf) as ->.
  apply bind_inv in Hrun as (img_csf & s1 & Himg_csf & Hrun).
  apply lift_inv in Himg_csf as [Himg_csf ->].
  apply bind_inv in Hrun as (head & s1 & Hhead & Hrun).
  pose proof (check_niimg_state _ _ _ _ Hhead) as ->.
  apply bind_inv in Hrun as (skull & s1 & Hskull & Hrun).
  pose proof (check_niimg_state _ _ _ _ Hskull) as ->.
  apply bind_inv in Hrun as (img_rest & s1 & Hrest & Hrun).
  apply lift_inv in Hrest as [Hrest ->].
  apply bind_inv in Hrun as (img_mask & s1 & Hmask & Hrun).
  apply lift_inv in Hmask as [Hmask ->].
  apply bind_inv in Hrun as (img_brain & s1 & Hbrain & Hrun).
  apply lift_inv in Hbrain as [Hbrain ->].
  unfold math_img2 in Hgmwm, Hrest, Hbrain. unfold math_img1 in Himg_csf.
  unfold math_img3 in Hmask.
  destruct (same_fov gm wm); [|discriminate]. injection Hgmwm as <-.
  injection Himg_csf as <-.
  destruct (same_fov head skull); [|discriminate]. injection Hrest as <-.
  destruct (_ && _) in Hmask; [|discriminate]. injection Hmask as <-.
  destruct (same_fov _ _) in Hbrain; [|discriminate]. injection Hbrain as <-.
  injection Hrun as <- <- <-.
  exists img, gm, wm, csf, skull, head, gm_p, wm_p, csf_p, skull_p, head_p.
  do 7 (split; [done|]). cbv zeta. cbn [dataobj new_img_like images texts].
  rewrite refine_mask_spec. split; reflexivity.
Qed.

(** C6: the notebook implements no image-processing algorithm.
    Reorientation, cropping, bias correction, segmentation and
    registration are each one interface of a toolkit, given its
    parameters and nothing else; none of them wraps code of the
    notebook, which runs in three nodes only.  What that code does to
    the image files is read from its bodies, for every toolkit:
    [write_report] changes no image file; a run of [get_brain_and_mask]
    that returns has written two image files, the mask made of the five
    tissue maps it loaded and the product of the image and the mask.
    Outside the workflow, the image the resampling cell writes is the
    one the toolkit's [resample_img] returns, and the last cell moves
    that file as it is. *)
Theorem tools_are_external (sp : specs) :
  map (Workflow.node_interface sp)
    [Workflow.reorient; Workflow.cropFOV; Workflow.n4; Workflow.segment;
     Workflow.antsreg] =
    [Workflow.Reorient "RAS"; Workflow.RobustFOV "NIFTI_GZ";
     Workflow.N4BiasFieldCorrection 3; Workflow.NewSegment;
     Workflow.Registration (norm_template (vox_res sp)) (n_parallel_jobs sp) 3
       "Linear" ["Rigid"; "Affine"; "SyN"] ["Mattes"; "Mattes"; "CC"]
       [[1000; 500; 250; 100]; [1000; 500; 250; 100]; [100; 70; 50; 20]]%Z
       [[8; 4; 2; 1]; [8; 4; 2; 1]; [8; 4; 2; 1]]%Z] /\
  (forall n f,
     Workflow.wrapped_function (Workflow.node_interface sp n) = Some f <->
     (n, f) ∈ [(Workflow.selectfiles, Workflow.fn_create_file_path);
               (Workflow.extract_brain, Workflow.fn_get_brain_and_mask);
               (Workflow.create_report, Workflow.fn_write_report)]) /\
  (forall sub sess n4 segments brain T1_template warped_file,
     keeps_images
       (implementation Workflow.fn_write_report sub sess n4 segments brain
          T1_template warped_file)) /\
  (forall in_file segments s s' out_file mask,
     implementation Workflow.fn_get_brain_and_mask in_file segments s =
       (Ok (out_file, mask), s') ->
     exists (img gm wm csf skull head : Image scalar)
            (gm_p wm_p csf_p skull_p head_p : string),
       mapM_res first_of segments = Ok [gm_p; wm_p; csf_p; skull_p; head_p] /\
       nb_load in_file s = (Ok img, s) /\
       check_niimg gm_p s = (Ok gm, s) /\ check_niimg wm_p s = (Ok wm, s) /\
       check_niimg csf_p s = (Ok csf, s) /\ check_niimg skull_p s = (Ok skull, s) /\
       check_niimg head_p s = (Ok head, s) /\
       let mask_data :=
         spec_mask (dataobj gm) (dataobj wm) (dataobj csf) (dataobj skull)
           (dataobj head) in
       images s' =
         <[mask := Int8Image (Nifti1Image mask_data (affine img) (header img))]>
           (<[out_file := FloatImage
                 (Nifti1Image (spec_brain (dataobj img) mask_data) (affine img)
                    (new_header (header img)))]>
              (images s))) /\
  (forall norm_res s img,
     nb_load brain_template s = (Ok img, s) ->
     exists s',
       resample_template norm_res s = (Ok tt, s') /\
       images s' !! norm_template norm_res =
         Some (FloatImage
                 (let grid := vox2out_vox (dataobj img) (affine img) norm_res in
                  let out := resample_img (dataobj img) (affine img) (header img)
                               grid.2 grid.1 in
                  Nifti1Image out.1 grid.2 out.2))) /\
  (forall norm_res s img,
     images s !! norm_template norm_res = Some img ->
     exists s',
       save_template norm_res s = (Ok tt, s') /\
       images s' !! template_new_path norm_res = Some img).
Proof.
  split_and!.
  - reflexivity.
  - intros n f. rewrite !elem_of_cons, elem_of_nil. split.
    + destruct n; intros [= <-]; tauto.
    + intros [[= -> ->]|[[= -> ->]|[[= -> ->]|[]]]]; reflexivity.
  - intros sub sess n4 segments brain T1_template warped_file.
    apply write_report_keeps_images.
  - intros in_file segments s s' out_file mask Hrun.
    destruct (get_brain_and_mask_sources _ _ _ _ _ _ Hrun)
      as (img & gm & wm & csf & skull & head & gm_p & wm_p & csf_p & skull_p & head_p
          & Hfirsts & Himg & Hgm & Hwm & Hcsf & Hskull & Hhead & Himages & _).
    exists img, gm, wm, csf, skull, head, gm_p, wm_p, csf_p, skull_p, head_p.
    by split_and!.
  - intros norm_res s img. apply resample_template_run.
  - intros norm_res s img Himg. unfold save_template, shutil_move. rewrite Himg.
    eexists. split; [reflexivity|]. cbn [images]. apply lookup_insert_eq.
Qed.

End OwnCode.

(** ** The reference instance *)

(** The reference numbers are all finite. *)
Lemma ref_mul_1 (x : @scalar Ref.centi) : @mul_int8 Ref.centi x 1 = x.
Proof. cbn. lia. Qed.

Lemma ref_mul_0 (x : @scalar Ref.centi) :
  @is_nonzero Ref.centi (@mul_int8 Ref.centi x 0) = false.
Proof. cbn. by rewrite Z.mul_0_r. Qed.

#[export] Instance ref_centi_products : @FloatProducts Ref.centi := {|
  is_finite := fun _ => true;
  mul_int8_1 := ref_mul_1;
  mul_int8_0_finite := fun x _ => ref_mul_0 x;
  mul_int8_0_not_finite := fun x (H : true = false) =>
    False_ind _ (Bool.diff_true_false H)
|}.

(** The numbers with infinities and NaN have the products of IEEE 754. *)
Lemma ieee_mul_1 (x : @scalar Ieee.numbers) : @mul_int8 Ieee.numbers x 1 = x.
Proof.
  destruct x as [a|n|]; cbn; [by rewrite Z.mul_1_r|by destruct n|done].
Qed.

Lemma ieee_mul_0_finite (x : @scalar Ieee.numbers) :
  Ieee.number_is_finite x = true ->
  @is_nonzero Ieee.numbers (@mul_int8 Ieee.numbers x 0) = false.
Proof. destruct x as [a|n|]; [|done..]. intros _. cbn. by rewrite Z.mul_0_r. Qed.

Lemma ieee_mul_0_not_finite (x : @scalar Ieee.numbers) :
  Ieee.number_is_finite x = false ->
  @is_nonzero Ieee.numbers (@mul_int8 Ieee.numbers x 0) = true.
Proof. by destruct x. Qed.

#[export] Instance ieee_products : @FloatProducts Ieee.numbers :=
  @Build_FloatProducts Ieee.numbers Ieee.number_is_finite
    ieee_mul_1 ieee_mul_0_finite ieee_mul_0_not_finite.

Lemma ref_iter_shape (f : ndarray bool -> ndarray bool) (a : ndarray bool) (n : nat) :
  (forall b, same_shape (f b) b = true) -> same_shape (Nat.iter n f a) a = true.
Proof.
  intros Hf. induction n as [|n IH]; [by apply same_shape_true|].
  rewrite Nat.iter_succ.
  - specialize (Hf (Nat.iter n f a)).
    apply same_shape_true in Hf as [Hf1 Hf2]. apply same_shape_true in IH as [IH1 IH2].
    apply same_shape_true. split; [by rewrite Hf1|by rewrite Hf2].
Qed.

Lemma ref_dilate_once_shape (border : bool) (a : ndarray bool) :
  same_shape (Ref.dilate_once border a) a = true.
Proof.
  apply same_shape_true. unfold Ref.dilate_once, Ref.indices. cbn [shape values].
  by rewrite !length_map, length_seq.
Qed.

Lemma ref_erode_once_shape (border : bool) (a : ndarray bool) :
  same_shape (Ref.erode_once border a) a = true.
Proof.
  apply same_shape_true. unfold Ref.erode_once, Ref.indices. cbn [shape values].
  by rewrite !length_map, length_seq.
Qed.

Lemma ref_fill_holes_shape (a : ndarray bool) :
  same_shape (Ref.fill_holes a) a = true.
Proof.
  unfold Ref.fill_holes.
  assert (forall n, same_shape
            (Nat.iter n (Ref.grow_outside a) (array_map (fun _ => false) a)) a = true)
    as Hiter.
  { induction n as [|n IH]; [|rewrite Nat.iter_succ].
    - apply same_shape_true. unfold array_map. simpl.
      by rewrite length_map.
    - apply same_shape_true in IH as [IH1 IH2].
      pose proof (ref_dilate_once_shape true
        (Nat.iter n (Ref.grow_outside a) (array_map (fun _ => false) a)))
        as [Hd1 Hd2]%same_shape_true.
      apply same_shape_true. unfold Ref.grow_outside at 1 3, array_map2.
      cbn [shape values]. rewrite length_zip_with. split; [congruence|lia]. }
  specialize (Hiter (length (values a))).
  apply same_shape_true in Hiter as [H1 H2].
  apply same_shape_true. unfold array_map at 1 3. cbn [shape values].
  by rewrite length_map.
Qed.

#[export] Instance ref_morphology_shape : @MorphologyShape Ref.six_connected.
Proof.
  split.
  - intros a n. apply ref_iter_shape, ref_dilate_once_shape.
  - apply ref_fill_holes_shape.
  - intros a n. apply ref_iter_shape, ref_erode_once_shape.
Qed.

Import Ref.

(** *** Strings and paths *)

Example replace_all_occurrences :
  Py.replace "a.nii/b.nii.gz" ".nii" "_brain.nii" = "a_brain.nii/b_brain.nii.gz".
Proof. reflexivity. Qed.

Example replace_no_overlap : Py.replace "aaa" "aa" "b" = "ba".
Proof. reflexivity. Qed.

Example replace_absent : Py.replace "T1.mgz" ".nii" "_brain.nii" = "T1.mgz".
Proof. reflexivity. Qed.

Example path_join_absolute : Py.path_join "/data" ["derivatives"; "/tmp"; "x"] = "/tmp/x".
Proof. reflexivity. Qed.

Example template_paths :
  brain_template = "/templates/mni_icbm152_nlin_asym_09c/1.0mm_brain.nii.gz" /\
  Workflow.report_T1_template = "/templates/mni_icbm152_nlin_asym_09c/1.0mm_T1.nii.gz" /\
  norm_template ["1.0"; "1.0"; "1.0"] =
    "/templates/mni_icbm152_nlin_asym_09c/template_brain_1.0_1.0_1.0.nii.gz".
Proof. split_and!; reflexivity. Qed.

Example create_file_path_examples :
  create_file_path "01" "" layout_without_sessions "T1w" =
    Ok "/data/sub-01/anat/sub-01_T1w.nii.gz" /\
  create_file_path "01" "pre" layout_with_sessions "T1w" =
    Ok "/data/sub-01/ses-pre/anat/sub-01_ses-pre_T1w.nii.gz".
Proof. split; reflexivity. Qed.

Example combinations_with_sessions :
  combinations example_specs layout_with_sessions =
  [[("subject_id", "01"); ("session_id", "pre")];
   [("subject_id", "01"); ("session_id", "post")];
   [("subject_id", "02"); ("session_id", "pre")];
   [("subject_id", "02"); ("session_id", "post")]].
Proof. reflexivity. Qed.

Example report_text_without_session :
  report_text "<img src=sub-placeholder_ses-placeholder_brain.svg>" "01" "" =
  "<img src=sub-01_brain.svg>".
Proof. reflexivity. Qed.

(** *** Images *)

(** The mask of the example keeps the centre: the predicate holds at the
    centre and at its six neighbours, two dilations fill the cube and the
    erosion leaves the one voxel that has all its neighbours. *)
Example ref_mask :
  values (spec_mask (dataobj Ref.gm_img) (dataobj Ref.wm_img) (dataobj Ref.csf_img)
            (dataobj Ref.skull_img) (dataobj Ref.head_img)) =
  values (dataobj (Ref.cube 1 0 0)).
Proof. by vm_compute. Qed.

Example ref_get_brain_and_mask :
  (get_brain_and_mask "T1.nii.gz" Ref.seg_paths Ref.files).1 =
  Ok ("T1_brain.nii.gz", "T1_brainmask.nii.gz").
Proof. by vm_compute. Qed.

Example ref_write_report :
  (write_report "01" "" "T1.nii.gz" Ref.seg_paths "T1_brain.nii.gz"
     "template.nii.gz" "warped.nii.gz" Ref.files).1 =
  Ok ("T1_segmentation.svg", "T1_brain.svg", "warped.svg").
Proof. by vm_compute. Qed.

Example ref_get_cut_ids :
  get_cut_ids
    (Nifti1Image {| shape := (1, 1, 30)%nat;
                    values := replicate 3 0%Z ++ [100%Z] ++ replicate 22 0%Z
                              ++ [300%Z] ++ replicate 3 0%Z |}
       Ref.unit_affine "hdr") 2 =
  Ok [7; 9; 11; 13; 15; 17; 19; 21]%Z.
Proof. by vm_compute. Qed.

Example ref_fill_holes :
  values (Ref.fill_holes (dataobj (image_map (fun x => negb (x =? 900)%Z) Ref.t1_img))) =
  replicate 27 true.
Proof. by vm_compute. Qed.

Example ref_run :
  run run_plugin example_specs layout_without_sessions =
  Some (run_linear
          (flat_map (fun sub =>
                       map (pair [("subject_id", sub); ("session_id", "")])
                         Workflow.all_nodes) ["01"; "02"])).
Proof. by vm_compute. Qed.

(** ** The claims on the example files *)


Lemma ref_mask_inputs :
  mask_inputs files "T1.nii.gz" seg_paths t1_img gm_img wm_img csf_img skull_img head_img.
Proof.
  split; [|apply nb_load_lookup; reflexivity|reflexivity..].
  exists "c1T1.nii", "c2T1.nii", "c3T1.nii", "c4T1.nii", "c5T1.nii", [], [], [], [], [].
  split_and!; [reflexivity|apply check_niimg_lookup; reflexivity..].
Defined.

Lemma brain_mask_from_tissue_maps_witness :
  mask_inputs files "T1.nii.gz" seg_paths t1_img gm_img wm_img csf_img skull_img head_img /\
  exists s', get_brain_and_mask "T1.nii.gz" seg_paths files =
             (Ok ("T1_brain.nii.gz", "T1_brainmask.nii.gz"), s').
Proof.
  split; [exact ref_mask_inputs|].
  destruct (brain_mask_from_tissue_maps files "T1.nii.gz" seg_paths t1_img gm_img
              wm_img csf_img skull_img head_img ref_mask_inputs)
    as (out_file & mask & s' & mask_img & brain & Hrun & _).
  exists s'. rewrite Hrun. f_equal.
  assert ((get_brain_and_mask "T1.nii.gz" seg_paths files).1 =
          Ok ("T1_brain.nii.gz", "T1_brainmask.nii.gz")) as Hout by (reflexivity).
  rewrite Hrun in Hout. exact Hout.
Defined.

(** *** An input image with NaN outside the head *)

Lemma ieee_mask_inputs :
  mask_inputs Ieee.files "T1.nii.gz" seg_paths Ieee.t1_img (Ieee.of_ref gm_img)
    (Ieee.of_ref wm_img) (Ieee.of_ref csf_img) (Ieee.of_ref skull_img)
    (Ieee.of_ref head_img).
Proof.
  split; [|apply nb_load_lookup; reflexivity|reflexivity..].
  exists "c1T1.nii", "c2T1.nii", "c3T1.nii", "c4T1.nii", "c5T1.nii", [], [], [], [], [].
  split_and!; [reflexivity|apply check_niimg_lookup; reflexivity..].
Defined.

(** The mask keeps the centre of the cube, as with the finite image; the
    brain is NaN at the corner, where the mask is 0. *)
Lemma ieee_run :
  exists (mask_img : @Image Ieee.numbers Ieee.numbers_nifti Z)
         (brain_img : @Image Ieee.numbers Ieee.numbers_nifti Ieee.number),
    get_brain_and_mask "T1.nii.gz" seg_paths Ieee.files =
      (Ok ("T1_brain.nii.gz", "T1_brainmask.nii.gz"),
       {| images := <["T1_brainmask.nii.gz" := Int8Image mask_img]>
                      (<["T1_brain.nii.gz" := FloatImage brain_img]> (images Ieee.files));
          texts := texts Ieee.files |}) /\
    values (dataobj mask_img) !! 0 = Some 0%Z /\
    values (dataobj brain_img) !! 0 = Some Ieee.NaN /\
    values (dataobj mask_img) !! 13 = Some 1%Z /\
    values (dataobj brain_img) !! 13 = Some (Ieee.Finite 900).
Proof.
  pose proof (get_brain_and_mask_run _ _ _ _ _ _ _ _ _ ieee_mask_inputs) as Hrun.
  cbv zeta in Hrun.
  change (Py.replace "T1.nii.gz" ".nii" "_brain.nii") with "T1_brain.nii.gz" in Hrun.
  change (Py.replace "T1.nii.gz" ".nii" "_brainmask.nii") with "T1_brainmask.nii.gz"
    in Hrun.
  eexists _, _. split; [exact Hrun|]. cbn [dataobj].
  split_and!; by vm_compute.
Defined.

(** The claim as it is stated fails on this image: at the corner of the
    cube the mask is 0 and the brain is not zero. *)
Lemma brain_mask_is_binary_counterexample :
  ~ (forall (SC : Scalars) (NI : @Nifti SC) (MO : Morphology)
       (in_file : string) (segments : list (list string)) (s s' : @fs SC NI)
       (out_file mask : string),
       @get_brain_and_mask SC NI MO in_file segments s = (Ok (out_file, mask), s') ->
       forall (mask_img : @Image SC NI Z) (brain_img : @Image SC NI (@scalar SC))
              (i : nat),
         images s' !! mask = Some (Int8Image mask_img) ->
         images s' !! out_file = Some (FloatImage brain_img) ->
         values (dataobj mask_img) !! i = Some 0%Z ->
         exists v, values (dataobj brain_img) !! i = Some v /\ is_nonzero v = false).
Proof.
  intros Hclaim.
  destruct ieee_run as (mask_img & brain_img & Hrun & Hmask & Hbrain & _).
  destruct (Hclaim _ _ _ _ _ _ _ _ _ Hrun mask_img brain_img 0) as (v & Hv & Hzero).
  - cbn [images]. apply lookup_insert_eq.
  - cbn [images]. rewrite lookup_insert_ne by done. apply lookup_insert_eq.
  - exact Hmask.
  - assert (Some v = Some Ieee.NaN) as Heq by (rewrite <- Hv; exact Hbrain).
    injection Heq as ->. discriminate Hzero.
Qed.

Lemma brain_mask_is_binary_witness :
  exists (s' : @fs Ieee.numbers Ieee.numbers_nifti)
         (img : @Image Ieee.numbers Ieee.numbers_nifti Ieee.number)
         (mask_img : @Image Ieee.numbers Ieee.numbers_nifti Z)
         (brain_img : @Image Ieee.numbers Ieee.numbers_nifti Ieee.number)
         (x : Ieee.number),
    get_brain_and_mask "T1.nii.gz" seg_paths Ieee.files =
      (Ok ("T1_brain.nii.gz", "T1_brainmask.nii.gz"), s') /\
    nb_load "T1.nii.gz" Ieee.files = (Ok img, Ieee.files) /\
    images s' !! "T1_brainmask.nii.gz" = Some (Int8Image mask_img) /\
    Forall (fun x => x = 0 \/ x = 1)%Z (values (dataobj mask_img)) /\
    affine mask_img = affine img /\ header mask_img = header img /\
    values (dataobj brain_img) !! 13 = values (dataobj img) !! 13 /\
    values (dataobj img) !! 0 = Some x /\
    values (dataobj brain_img) !! 0 = Some (Ieee.number_mul x 0) /\
    Ieee.number_is_finite x = false /\
    @is_nonzero Ieee.numbers (Ieee.number_mul x 0) = true.
Proof.
  destruct ieee_run as (mask0 & brain0 & Hrun & Hm0 & _ & Hm13 & _).
  destruct (brain_mask_is_binary "T1.nii.gz" seg_paths Ieee.files _ _ _ Hrun)
    as (_ & _ & img & mask_img & brain_img & Hload & _ & Hlook & _ & Hbin & Haff
        & Hhdr & _ & Hvox).
  assert (mask_img = mask0) as ->.
  { cbn [images] in Hlook. rewrite lookup_insert_eq in Hlook. by injection Hlook. }
  destruct (proj2 (Hvox 0) Hm0) as (x & Hx & Hb0 & _ & Hnan).
  assert (img = Ieee.t1_img) as Himg.
  { assert (nb_load "T1.nii.gz" Ieee.files = (Ok Ieee.t1_img, Ieee.files)) as Hl
      by (apply nb_load_lookup; reflexivity).
    rewrite Hl in Hload. by injection Hload. }
  assert (Ieee.number_is_finite x = false) as Hfin.
  { rewrite Himg in Hx. vm_compute in Hx. injection Hx as <-. reflexivity. }
  eexists _, img, mask0, brain_img, x.
  split; [exact Hrun|]. split; [exact Hload|]. split; [exact Hlook|].
  split; [exact Hbin|]. split; [exact Haff|]. split; [exact Hhdr|].
  split; [exact (proj1 (Hvox 13) Hm13)|]. split; [exact Hx|]. split; [exact Hb0|].
  split; [exact Hfin|exact (Hnan Hfin)].
Defined.


Lemma six_steps_in_order_witness :
  nb_load brain_template files = (Ok (cube 800 600 0), files) /\
  exists s',
    resample_template (vox_res example_specs) files = (Ok tt, s') /\
    is_Some (images s' !! norm_template (vox_res example_specs)).
Proof.
  assert (nb_load brain_template files = (Ok (cube 800 600 0), files)) as Hload.
  { apply nb_load_lookup. reflexivity. }
  split; [exact Hload|].
  destruct (six_steps_in_order example_specs layout_without_sessions)
    as (_ & _ & _ & Hres & _).
  destruct (Hres files (cube 800 600 0) Hload) as (s' & Hrun & Hlook).
  exists s'. split; [exact Hrun|]. rewrite Hlook. by eexists.
Defined.

Lemma no_session_iteration_witness :
  Bids.get_sessions layout_without_sessions = [] /\
  combinations example_specs layout_without_sessions =
    [[("subject_id", "01"); ("session_id", "")];
     [("subject_id", "02"); ("session_id", "")]].
Proof.
  split; [reflexivity|].
  exact (proj1 (proj2 (no_session_iteration example_specs layout_without_sessions
                         eq_refl))).
Defined.

Lemma tools_are_external_witness :
  exists (s' : fs) (img : Image scalar),
    get_brain_and_mask "T1.nii.gz" seg_paths files =
      (Ok ("T1_brain.nii.gz", "T1_brainmask.nii.gz"), s') /\
    nb_load "T1.nii.gz" files = (Ok img, files) /\
    is_Some (images s' !! "T1_brainmask.nii.gz").
Proof.
  pose proof (get_brain_and_mask_run _ _ _ _ _ _ _ _ _ ref_mask_inputs) as Hrun.
  cbv zeta in Hrun.
  change (Py.replace "T1.nii.gz" ".nii" "_brain.nii") with "T1_brain.nii.gz" in Hrun.
  change (Py.replace "T1.nii.gz" ".nii" "_brainmask.nii") with "T1_brainmask.nii.gz"
    in Hrun.
  destruct (proj1 (proj2 (proj2 (proj2 (tools_are_external example_specs))))
              "T1.nii.gz" seg_paths files _ _ _ Hrun)
    as (img & gm & wm & csf & skull & head & gm_p & wm_p & csf_p & skull_p & head_p
        & _ & Himg & _ & _ & _ & _ & _ & Himages).
  eexists _, img. split; [exact Hrun|]. split; [exact Himg|].
  cbv zeta in Himages. rewrite Himages, lookup_insert_eq. by eexists.
Defined.

(** ** More properties on the example files *)

Lemma create_file_path_injective_witness :
  create_file_path "01" "" layout_without_sessions "T1w" <>
  create_file_path "02" "" layout_without_sessions "T1w" /\
  create_file_path "01" "pre" layout_with_sessions "T1w" <>
  create_file_path "01" "post" layout_with_sessions "T1w".
Proof.
  split.
  - intros Heq.
    apply (proj1 (create_file_path_injective layout_without_sessions "T1w")) in Heq.
    discriminate Heq.
  - intros Heq.
    apply (proj2 (create_file_path_injective layout_with_sessions "T1w")) in Heq.
    discriminate Heq.
Defined.

Lemma node_inputs_supplied_once_witness :
  Workflow.node_interface example_specs Workflow.extract_brain =
    Workflow.Function ["in_file"; "segments"] ["out_file"; "mask"]
      Workflow.fn_get_brain_and_mask /\
  NoDup (supplied_inputs Workflow.extract_brain) /\
  ["in_file"; "segments"] ≡ₚ supplied_inputs Workflow.extract_brain.
Proof.
  split; [reflexivity|].
  exact (proj2 (node_inputs_supplied_once example_specs) Workflow.extract_brain
           _ _ _ eq_refl).
Defined.

Lemma get_cut_ids_axis_errors_witness :
  get_cut_ids brain_img 3 = Raise IndexError /\
  get_cut_ids (cube 0 0 0) (-1) = Raise ValueError /\
  get_cut_ids brain_img (-1) = Raise UnboundLocalError.
Proof.
  split_and!.
  - apply (proj1 (get_cut_ids_axis_errors brain_img 3)). lia.
  - apply (proj2 (get_cut_ids_axis_errors (cube 0 0 0) (-1)) ltac:(lia)).
    vm_compute. repeat constructor.
  - apply (proj2 (get_cut_ids_axis_errors brain_img (-1)) ltac:(lia)).
    apply Exists_exists. exists 900%Z. split; [|reflexivity].
    apply (bool_decide_unpack _). reflexivity.
Defined.


Lemma get_brain_and_mask_all_or_nothing_witness :
  (get_brain_and_mask "T1.nii" seg_paths files).1 = Raise FileNotFoundError /\
  (get_brain_and_mask "T1.nii" seg_paths files).2 = files.
Proof.
  assert ((get_brain_and_mask "T1.nii" seg_paths files).1 = Raise FileNotFoundError)
    as Hraise by reflexivity.
  split; [exact Hraise|].
  exact (proj1 (proj1 (get_brain_and_mask_all_or_nothing "T1.nii" seg_paths files)
                  FileNotFoundError Hraise)).
Defined.

Lemma get_brain_and_mask_input_errors_witness :
  get_brain_and_mask "T1.nii" seg_paths files = (Raise FileNotFoundError, files) /\
  get_brain_and_mask "T1.nii.gz" [["c1T1.nii"]; []] files = (Raise IndexError, files) /\
  get_brain_and_mask "T1.nii.gz" [["c1T1.nii"]] files = (Raise ValueError, files) /\
  get_brain_and_mask "T1.nii.gz"
    [["c1T1.nii"]; ["c2T1.nii"]; ["c3T1.nii"]; ["c4T1.nii"]; ["c6T1.nii"]] files =
    (Raise ValueError, files).
Proof.
  assert (is_Some (images files !! "T1.nii.gz")) as Hsome by (by eexists).
  split_and!.
  - apply (proj1 (get_brain_and_mask_input_errors "T1.nii" seg_paths files)).
    reflexivity.
  - apply (proj2 (get_brain_and_mask_input_errors "T1.nii.gz" _ files) Hsome).
    right. left.
  - apply (proj2 (get_brain_and_mask_input_errors "T1.nii.gz" _ files) Hsome).
    + intros Hin. apply elem_of_cons in Hin as [Hin|Hin]; [discriminate Hin|].
      by apply elem_of_nil in Hin.
    + cbn [length]. lia.
  - apply (proj2 (proj2 (proj2 (get_brain_and_mask_input_errors "T1.nii.gz" _ files)
                           Hsome))
             ["c1T1.nii"; "c2T1.nii"; "c3T1.nii"; "c4T1.nii"; "c6T1.nii"]).
    + repeat constructor.
    + do 4 right. left. reflexivity.
Defined.

Lemma ref_mask_inputs_mgz :
  mask_inputs files_mgz "T1.mgz" seg_paths t1_img gm_img wm_img csf_img skull_img head_img.
Proof.
  split; [|apply nb_load_lookup; reflexivity|reflexivity..].
  exists "c1T1.nii", "c2T1.nii", "c3T1.nii", "c4T1.nii", "c5T1.nii", [], [], [], [], [].
  split_and!; [reflexivity|apply check_niimg_lookup; reflexivity..].
Defined.

Lemma get_brain_and_mask_input_file_witness :
  (exists s',
     get_brain_and_mask "T1.nii.gz" seg_paths files =
       (Ok ("T1_brain.nii.gz", "T1_brainmask.nii.gz"), s') /\
     images s' !! "T1.nii.gz" = images files !! "T1.nii.gz") /\
  (exists s' mask_img,
     get_brain_and_mask "T1.mgz" seg_paths files_mgz = (Ok ("T1.mgz", "T1.mgz"), s') /\
     images s' !! "T1.mgz" = Some (Int8Image mask_img)).
Proof.
  split.
  - pose proof (get_brain_and_mask_run _ _ _ _ _ _ _ _ _ ref_mask_inputs) as Hrun.
    cbv zeta in Hrun.
    change (Py.replace "T1.nii.gz" ".nii" "_brain.nii") with "T1_brain.nii.gz" in Hrun.
    change (Py.replace "T1.nii.gz" ".nii" "_brainmask.nii") with "T1_brainmask.nii.gz"
      in Hrun.
    eexists. split; [exact Hrun|].
    exact (proj2 (proj2 (proj2 (proj1 (get_brain_and_mask_input_file _ _ _ _ _ _ Hrun)
                                  eq_refl)))).
  - pose proof (get_brain_and_mask_run _ _ _ _ _ _ _ _ _ ref_mask_inputs_mgz) as Hrun.
    cbv zeta in Hrun.
    change (Py.replace "T1.mgz" ".nii" "_brain.nii") with "T1.mgz" in Hrun.
    change (Py.replace "T1.mgz" ".nii" "_brainmask.nii") with "T1.mgz" in Hrun.
    destruct (proj2 (get_brain_and_mask_input_file _ _ _ _ _ _ Hrun) eq_refl)
      as (_ & _ & mask_img & Hmask & _).
    eexists _, mask_img. split; [exact Hrun|exact Hmask].
Defined.

Lemma ref_segmentation_inputs (s : fs) (brain : Image scalar) :
  images s !! "T1_brain.nii.gz" = Some (FloatImage brain) ->
  images s !! "c1T1.nii" = Some (FloatImage gm_img) ->
  images s !! "c2T1.nii" = Some (FloatImage wm_img) ->
  images s !! "c3T1.nii" = Some (FloatImage csf_img) ->
  images s !! "c4T1.nii" = Some (FloatImage skull_img) ->
  images s !! "c5T1.nii" = Some (FloatImage head_img) ->
  shape (dataobj brain) = (3, 3, 3)%nat -> length (values (dataobj brain)) = 27 ->
  segmentation_inputs s seg_paths "T1_brain.nii.gz" brain
    [gm_img; wm_img; csf_img; skull_img; head_img].
Proof.
  intros Hbrain H1 H2 H3 H4 H5 Hshape Hlen. split.
  - by apply nb_load_lookup.
  - exists "c1T1.nii", "c2T1.nii", "c3T1.nii", "c4T1.nii", "c5T1.nii",
      [], [], [], [], [], [], gm_img, wm_img, csf_img, skull_img, head_img.
    split_and!; [reflexivity|reflexivity|by apply nb_load_lookup..].
  - cbn [forallb]. rewrite !andb_true_iff.
    split_and!; [apply same_shape_true; by rewrite Hshape, Hlen..|done].
Defined.

Lemma write_report_early_failures_witness :
  write_report "01" "" "T1.nii.gz" seg_paths "brain.nii.gz" "template.nii.gz"
    "warped.nii.gz" files = (Raise FileNotFoundError, files) /\
  write_report "01" "" "T1.nii.gz" seg_paths "T1_brain.nii.gz" "template.nii.gz"
    "warped.nii.gz" files_empty_brain = (Raise ValueError, files_empty_brain).
Proof.
  split.
  - apply (proj1 (write_report_early_failures files "01" "" "T1.nii.gz" seg_paths
                    "brain.nii.gz" "template.nii.gz" "warped.nii.gz")).
    reflexivity.
  - apply (proj2 (write_report_early_failures files_empty_brain "01" "" "T1.nii.gz"
                    seg_paths "T1_brain.nii.gz" "template.nii.gz" "warped.nii.gz")
             (cube 0 0 0) [gm_img; wm_img; csf_img; skull_img; head_img]).
    + apply ref_segmentation_inputs; reflexivity.
    + vm_compute. repeat constructor.
Defined.


Lemma label_image_spec_witness :
  label_image brain_img [cube 0 0 0; Nifti1Image {| shape := (1, 1, 1)%nat; values := [0%Z] |}
                                       unit_affine "hdr"] = Raise ValueError /\
  exists lab,
    label_image brain_img [gm_img; wm_img; csf_img; skull_img; head_img] = Ok lab /\
    length (values (dataobj lab)) = 27 /\
    values (dataobj lab) !! 13 = Some 1%Z.
Proof.
  split.
  - apply (proj1 (label_image_spec brain_img _)). right. left. reflexivity.
  - destruct (proj2 (label_image_spec brain_img
                       [gm_img; wm_img; csf_img; skull_img; head_img]))
      as (lab & Hlab & _ & _ & _ & Hlen & _).
    + repeat constructor.
    + exists lab. split; [exact Hlab|]. split; [exact Hlen|].
      assert (label_image brain_img [gm_img; wm_img; csf_img; skull_img; head_img]
              = Ok lab -> values (dataobj lab) !! 13 = Some 1%Z) as Hval.
      { intros [= <-]. reflexivity. }
      exact (Hval Hlab).
Defined.

Lemma resample_template_store_witness :
  is_Some (images files !! brain_template) /\
  exists s',
    resample_template (vox_res example_specs) files = (Ok tt, s') /\
    images s' !! brain_template = images files !! brain_template.
Proof.
  assert (is_Some (images files !! brain_template)) as Hsome by (by eexists).
  split; [exact Hsome|].
  destruct (resample_template_store (vox_res example_specs) files)
    as (Hdiff & _ & Hrun).
  destruct (Hrun Hsome) as (s' & Hs' & _ & _ & Hframe).
  exists s'. split; [exact Hs'|]. apply Hframe. intros Heq. by apply Hdiff.
Defined.

Lemma save_template_spec_witness :
  Forall (fun x => Py.contains "/" x = false) (vox_res example_specs) /\
  save_template (vox_res example_specs) files = (Raise FileNotFoundError, files) /\
  exists s1 s2 img,
    resample_template (vox_res example_specs) files = (Ok tt, s1) /\
    save_template (vox_res example_specs) s1 = (Ok tt, s2) /\
    images s2 !! "/data/derivatives/fmriflows/preproc_anat/template_brain_1.0_1.0_1.0.nii.gz"
      = Some img /\
    images s2 !! norm_template (vox_res example_specs) = None.
Proof.
  assert (Forall (fun x => Py.contains "/" x = false) (vox_res example_specs)) as Hres.
  { repeat constructor. }
  split; [exact Hres|]. split.
  - apply (proj1 (proj2 (save_template_spec (vox_res example_specs) files Hres))).
    reflexivity.
  - destruct (resample_template_run (vox_res example_specs) files (cube 800 600 0))
      as (s1 & Hrun & Hlook).
    { apply nb_load_lookup. reflexivity. }
    destruct (save_template_spec (vox_res example_specs) s1 Hres) as (Hpath & _ & Hmove).
    destruct (Hmove _ Hlook) as (s2 & Hsave & Hnew & Hold & _).
    eexists s1, s2, _. split; [exact Hrun|]. split; [exact Hsave|].
    split; [|exact Hold]. rewrite Hpath in Hnew. exact Hnew.
Defined.
